(** * Replicate Flux pipeline: the parameter tokenizer, the value
      normalizers and the request orchestrator of
      [replicate_flux_pipeline250325.py], embedded and verified.

    Python values are dynamically typed, so the embedding carries a [value]
    type (str, bool, int) and an [exn] type for the exceptions the
    interpreter raises when a method is applied to the wrong kind of
    object.  A [str] is a sequence of code points; the model covers the
    code points below U+0100, one [ascii] each, with Python's whitespace,
    lower-casing and digit tables for that range. *)

From Stdlib Require Import String Ascii List ZArith Lia Bool.
Import ListNotations.
Open Scope string_scope.

(** ** Python's [str] methods used by the module *)

Module Py.

Definition code (c : ascii) : nat := nat_of_ascii c.

Definition between (lo hi n : nat) : bool := (lo <=? n)%nat && (n <=? hi)%nat.

(** [str.isspace] on one code point below U+0100: TAB..CR, FS..US, SPACE,
    NEL and NBSP. *)
Definition isspace (c : ascii) : bool :=
  between 9 13 (code c) || between 28 32 (code c)
  || (code c =? 133)%nat || (code c =? 160)%nat.

(** [str.lower] on one code point below U+0100. *)
Definition lower_char (c : ascii) : ascii :=
  if between 65 90 (code c)
     || (between 192 222 (code c) && negb (code c =? 215)%nat)
  then ascii_of_nat (code c + 32) else c.

Fixpoint lower (s : string) : string :=
  match s with
  | EmptyString => EmptyString
  | String c s' => String (lower_char c) (lower s')
  end.

Definition is_decimal (c : ascii) : bool := between 48 57 (code c).

(** Characters that [str.isdigit] accepts: the decimal digits and the
    superscripts two, three and one, which [int] rejects. *)
Definition isdigit_char (c : ascii) : bool :=
  is_decimal c || (code c =? 178)%nat || (code c =? 179)%nat
  || (code c =? 185)%nat.

Fixpoint all_chars (p : ascii -> bool) (s : string) : bool :=
  match s with
  | EmptyString => true
  | String c s' => p c && all_chars p s'
  end.

Definition is_empty (s : string) : bool :=
  match s with EmptyString => true | _ => false end.

(** [str.isdigit]: non-empty and every character a digit. *)
Definition isdigit (s : string) : bool :=
  negb (is_empty s) && all_chars isdigit_char s.

Fixpoint lstrip (s : string) : string :=
  match s with
  | EmptyString => EmptyString
  | String c s' => if isspace c then lstrip s' else s
  end.

Fixpoint rstrip (s : string) : string :=
  match s with
  | EmptyString => EmptyString
  | String c s' =>
      let r := rstrip s' in
      if is_empty r && isspace c then EmptyString else String c r
  end.

(** [s.strip()] *)
Definition strip (s : string) : string := rstrip (lstrip s).

Fixpoint drop (n : nat) (s : string) : string :=
  match n, s with
  | O, _ => s
  | S _, EmptyString => EmptyString
  | S n', String _ s' => drop n' s'
  end.

Fixpoint take (n : nat) (s : string) : string :=
  match n, s with
  | O, _ => EmptyString
  | S _, EmptyString => EmptyString
  | S n', String c s' => String c (take n' s')
  end.

(** [s.startswith(pre)] *)
Fixpoint startswith (s pre : string) {struct pre} : bool :=
  match pre with
  | EmptyString => true
  | String a pre' =>
      match s with
      | EmptyString => false
      | String b s' => Ascii.eqb a b && startswith s' pre'
      end
  end.

Fixpoint find_from (sub s : string) (i : nat) : option nat :=
  if startswith s sub then Some i
  else match s with
       | EmptyString => None
       | String _ s' => find_from sub s' (S i)
       end.

(** [s.find(sub)]: the lowest index where [sub] occurs, or -1. *)
Definition find (s sub : string) : Z :=
  match find_from sub s 0 with
  | Some i => Z.of_nat i
  | None => (-1)%Z
  end.

(** [s[:i]] and [s[i:]] for an index [i >= 0]. *)
Definition slice_to (s : string) (i : Z) : string := take (Z.to_nat i) s.
Definition slice_from (s : string) (i : Z) : string := drop (Z.to_nat i) s.

(** [s.split(sep)] for a non-empty separator, scanning left to right over
    non-overlapping occurrences; [skip] counts the characters of a
    separator still to be passed over. *)
Fixpoint split_go (sep : string) (skip : nat) (s : string) : list string :=
  match s with
  | EmptyString => [EmptyString]
  | String c s' =>
      match skip with
      | S k => split_go sep k s'
      | O =>
          if startswith s sep
          then EmptyString :: split_go sep (String.length sep - 1) s'
          else match split_go sep 0 s' with
               | p :: ps => String c p :: ps
               | [] => [String c EmptyString]
               end
      end
  end.

Definition split (s sep : string) : list string := split_go sep 0 s.

(** The longest prefix without whitespace, and what follows it. *)
Fixpoint word (s : string) : string * string :=
  match s with
  | EmptyString => (EmptyString, EmptyString)
  | String c s' =>
      if isspace c then (EmptyString, s)
      else let (w, r) := word s' in (String c w, r)
  end.

(** [s.split(None, 1)]: at most one split, on the first run of whitespace;
    leading whitespace is skipped and an empty remainder is dropped. *)
Definition split_ws1 (s : string) : list string :=
  let s1 := lstrip s in
  if is_empty s1 then []
  else
    let (w, r) := word s1 in
    let r' := lstrip r in
    if is_empty r' then [w] else [w; r'].

Fixpoint rev_acc (s acc : string) : string :=
  match s with
  | EmptyString => acc
  | String c s' => rev_acc s' (String c acc)
  end.

(** [s.endswith(suffix)] *)
Definition endswith (s suffix : string) : bool :=
  startswith (rev_acc s EmptyString) (rev_acc suffix EmptyString).

(** The three states of [int]'s scan of a digit group. *)
Inductive scan := AtStart | AfterDigit | AfterUnderscore.

Fixpoint digits (st : scan) (acc : Z) (s : string) : option Z :=
  match s with
  | EmptyString => match st with AfterDigit => Some acc | _ => None end
  | String c s' =>
      if is_decimal c
      then digits AfterDigit (10 * acc + Z.of_nat (code c - 48))%Z s'
      else if Ascii.eqb c "_"
           then match st with
                | AfterDigit => digits AfterUnderscore acc s'
                | _ => None
                end
           else None
  end.

(** The whitespace [int] skips around a numeral: TAB..CR, SPACE, NEL and
    NBSP.  Unlike [str.isspace] it leaves FS..US in place. *)
Definition int_isspace (c : ascii) : bool :=
  between 9 13 (code c) || (code c =? 32)%nat
  || (code c =? 133)%nat || (code c =? 160)%nat.

Fixpoint int_lstrip (s : string) : string :=
  match s with
  | EmptyString => EmptyString
  | String c s' => if int_isspace c then int_lstrip s' else s
  end.

Fixpoint int_rstrip (s : string) : string :=
  match s with
  | EmptyString => EmptyString
  | String c s' =>
      let r := int_rstrip s' in
      if is_empty r && int_isspace c then EmptyString else String c r
  end.

(** [sys.get_int_max_str_digits()], as the interpreter starts. *)
Definition MAX_STR_DIGITS : Z := 4300.

(** The number of decimal digits of a numeral; underscores do not count. *)
Fixpoint count_digits (s : string) : Z :=
  match s with
  | EmptyString => 0
  | String c s' => ((if is_decimal c then 1 else 0) + count_digits s')%Z
  end.

(** [int(s)] for a [str]: surrounding whitespace, an optional sign, decimal
    digits with single underscores between them, and no more than
    [MAX_STR_DIGITS] digits; [None] stands for [ValueError]. *)
Definition int_of_str (s : string) : option Z :=
  match int_rstrip (int_lstrip s) with
  | EmptyString => None
  | String c t =>
      let numeral :=
        if Ascii.eqb c "-" || Ascii.eqb c "+" then t else String c t in
      if (MAX_STR_DIGITS <? count_digits numeral)%Z then None
      else if Ascii.eqb c "-" then option_map Z.opp (digits AtStart 0 numeral)
           else digits AtStart 0 numeral
  end.

End Py.

(** ** Values, exceptions and dictionaries *)

Inductive value :=
| VStr (s : string)
| VBool (b : bool)
| VInt (z : Z).

Definition type_name (v : value) : string :=
  match v with VStr _ => "str" | VBool _ => "bool" | VInt _ => "int" end.

Inductive exn :=
| AttributeError (type_ attr : string)
| TypeError (op left right : string)
| ValueError (literal : string)
| KeyError (key : string)
| IndexError
| ServiceError (message : string).

(** A computation that returns or raises. *)
Definition result (A : Type) : Type := exn + A.

Definition ok {A} (a : A) : result A := inr a.
Definition raise {A} (e : exn) : result A := inl e.

Definition rbind {A B} (m : result A) (f : A -> result B) : result B :=
  match m with
  | inl e => inl e
  | inr a => f a
  end.

Notation "x <~ m ;; k" := (rbind m (fun x => k))
  (at level 61, m at next level, right associativity).

(** A [dict] keeps its keys in insertion order; assigning to a key that is
    already present keeps its place. *)
Definition dict (V : Type) : Type := list (string * V).

Fixpoint dict_get {V} (k : string) (d : dict V) : option V :=
  match d with
  | [] => None
  | (k', v) :: d' => if String.eqb k k' then Some v else dict_get k d'
  end.

Fixpoint dict_set {V} (k : string) (v : V) (d : dict V) : dict V :=
  match d with
  | [] => [(k, v)]
  | (k', v') :: d' =>
      if String.eqb k k' then (k', v) :: d' else (k', v') :: dict_set k v d'
  end.

Definition dict_mem {V} (k : string) (d : dict V) : bool :=
  match dict_get k d with Some _ => true | None => false end.

Definition keys {V} (d : dict V) : list string := map fst d.

(** [d.get(k, default)] *)
Definition get_default {V} (k : string) (default : V) (d : dict V) : V :=
  match dict_get k d with Some v => v | None => default end.

(** [bool(v)] *)
Definition truthy (v : value) : bool :=
  match v with
  | VStr s => negb (Py.is_empty s)
  | VBool b => b
  | VInt z => negb (z =? 0)%Z
  end.

(** The integer a [bool] or [int] stands for in a comparison. *)
Definition as_int (v : value) : option Z :=
  match v with
  | VInt z => Some z
  | VBool b => Some (Z.b2z b)
  | VStr _ => None
  end.

(** [v == w]: a [bool] compares as the integer it stands for, and a [str]
    equals only a [str]. *)
Definition py_eq (v w : value) : bool :=
  match v, w with
  | VStr a, VStr b => String.eqb a b
  | VStr _, _ | _, VStr _ => false
  | _, _ =>
      match as_int v, as_int w with
      | Some a, Some b => (a =? b)%Z
      | _, _ => false
      end
  end.

(** [v.lower()] and [v.strip()]: only a [str] has these methods. *)
Definition lower_of (v : value) : result string :=
  match v with
  | VStr s => ok (Py.lower s)
  | _ => raise (AttributeError (type_name v) "lower")
  end.

Definition strip_of (v : value) : result string :=
  match v with
  | VStr s => ok (Py.strip s)
  | _ => raise (AttributeError (type_name v) "strip")
  end.

(** ** Constants *)

Definition AVAILABLE_ASPECT_RATIOS : list string :=
  ["custom"; "1:1"; "16:9"; "3:2"; "2:3"; "4:5"; "5:4"; "9:16"; "3:4"; "4:3"].

Definition AVAILABLE_OUTPUT_FORMATS : list string := ["webp"; "jpg"; "png"].

Definition ALLOWED_IMAGE_FORMATS : list string :=
  ["jpeg"; "jpg"; "png"; "gif"; "webp"].

(** ** The parameter tokenizer *)

(** [convert_value]: [value.lower()] is evaluated first, and only a [str]
    has that method. *)
Definition convert_value (v : value) : result value :=
  match v with
  | VStr s =>
      if String.eqb (Py.lower s) "true" then ok (VBool true)
      else if String.eqb (Py.lower s) "false" then ok (VBool false)
      else if Py.isdigit s
           then match Py.int_of_str s with
                | Some z => ok (VInt z)
                | None => raise (ValueError s)
                end
           else ok (VStr s)
  | _ => raise (AttributeError (type_name v) "lower")
  end.

(** The body of the [for tok in tokens] loop, iterated. *)
Fixpoint parse_tokens (tokens : list string) (params : dict value)
  : result (dict value) :=
  match tokens with
  | [] => ok params
  | tok :: rest =>
      let tok := Py.strip tok in
      if Py.is_empty tok then parse_tokens rest params
      else
        let pieces := Py.split_ws1 tok in
        match pieces with
        | [] => raise IndexError
        | param_name :: more =>
            let param_value :=
              match more with
              | rest_ :: _ => VStr rest_
              | [] => VBool true
              end in
            param_value <~ convert_value param_value ;;
            parse_tokens rest (dict_set param_name param_value params)
        end
  end.

(** The [try] block of [parse_command_params]. *)
Definition parse_try (user_message : string) : result (dict value) :=
  let param_index := Py.find user_message "--" in
  if (param_index =? -1)%Z
  then ok [("prompt", VStr (Py.strip user_message))]
  else
    let prompt_part := Py.strip (Py.slice_to user_message param_index) in
    let param_part := Py.strip (Py.slice_from user_message param_index) in
    let params := [("prompt", VStr prompt_part)] in
    let tokens := tl (Py.split param_part "--") in
    parse_tokens tokens params.

(** [parse_command_params]: any exception of the block is logged and the
    whole trimmed message becomes the prompt. *)
Definition parse_command_params (user_message : string) : dict value :=
  match parse_try user_message with
  | inr params => params
  | inl _ => [("prompt", VStr (Py.strip user_message))]
  end.

(** ** The value normalizers *)

(** [min(a, v)] and [max(a, v)] with an [int] first argument: the second
    argument replaces the first when it compares strictly below (above)
    it, and comparing a [str] with an [int] raises. *)
Definition py_min (a : Z) (v : value) : result value :=
  match as_int v with
  | Some z => ok (if (z <? a)%Z then v else VInt a)
  | None => raise (TypeError "<" (type_name v) "int")
  end.

Definition py_max (a : Z) (v : value) : result value :=
  match as_int v with
  | Some z => ok (if (a <? z)%Z then v else VInt a)
  | None => raise (TypeError ">" (type_name v) "int")
  end.

(** [round(n / d)] for [d > 0]: the built-in [round] takes the nearest
    integer and, at an exact half, the even one.  The quotient of an
    integer below 2^53 by 32 is exact in binary floating point, so the
    rounding is stated on the exact quotient. *)
Definition py_round_div (n d : Z) : Z :=
  let q := (n / d)%Z in
  let r := (n mod d)%Z in
  if (2 * r <? d)%Z then q
  else if (d <? 2 * r)%Z then (q + 1)%Z
  else if Z.even q then q else (q + 1)%Z.

(** [round(v / 32) * 32] *)
Definition round_to_32 (v : value) : result Z :=
  match as_int v with
  | Some z => ok (py_round_div z 32 * 32)%Z
  | None => raise (TypeError "/" (type_name v) "int")
  end.

Definition validate_dimensions (width height : option value)
  : result (option Z * option Z) :=
  match width, height with
  | Some width, Some height =>
      w <~ py_min 1440 width ;;
      width <~ py_max 256 w ;;
      h <~ py_min 1440 height ;;
      height <~ py_max 256 h ;;
      width <~ round_to_32 width ;;
      height <~ round_to_32 height ;;
      ok (Some width, Some height)
  | _, _ => ok (None, None)
  end.

(** What [urlparse] returns, as far as the module reads it. *)
Record url := { scheme : string; netloc : string; path : string }.

Fixpoint dict_of_lowered (candidates : list string) (m : dict string)
  : dict string :=
  match candidates with
  | [] => m
  | c :: cs => dict_of_lowered cs (dict_set (Py.lower c) c m)
  end.

Definition In_b (s : string) (l : list string) : bool :=
  existsb (String.eqb s) l.

(** [d[k]] *)
Definition getitem {V} (k : string) (d : dict V) : result V :=
  match dict_get k d with
  | Some v => ok v
  | None => raise (KeyError k)
  end.

(** [int(v)] *)
Definition int_of (v : value) : result Z :=
  match v with
  | VInt z => ok z
  | VBool b => ok (Z.b2z b)
  | VStr s =>
      match Py.int_of_str s with
      | Some z => ok z
      | None => raise (ValueError s)
      end
  end.

Definition nl : string := String (ascii_of_nat 10) EmptyString.

(** ** The orchestrator's effects

    Inside [pipe] a statement yields a value, leaves the function with
    [return], or raises. *)

Definition payload : Type := dict value.

Inductive outcome (A : Type) :=
| Val (a : A)
| Return (s : string)
| Raise (e : exn).
Arguments Val {A} a.
Arguments Return {A} s.
Arguments Raise {A} e.

Definition pure {A} (a : A) : outcome A := Val a.

Definition lift {A} (m : result A) : outcome A :=
  match m with
  | inr a => Val a
  | inl e => Raise e
  end.

Definition bind {A B} (m : outcome A) (f : A -> outcome B) : outcome B :=
  match m with
  | Val a => f a
  | Return s => Return s
  | Raise e => Raise e
  end.

Notation "x <- m ;; k" := (bind m (fun x => k))
  (at level 61, m at next level, right associativity).

Section Collaborators.

(** [difflib.get_close_matches(word, possibilities, n=1, cutoff=0.6)]. *)
Variable get_close_matches : string -> list string -> list string.

(** [urllib.parse.urlparse] on a [str]; it may raise. *)
Variable urlparse : string -> result url.

(** [client.run("black-forest-labs/flux-1.1-pro", input=...)]: it raises,
    or returns an output that is falsy ([None]) or truthy with the text
    [str(output)]. *)
Variable client_run : payload -> result (option string).

(** [str(e)] *)
Variable exn_text : exn -> string.

Definition validate_image_url (u : value) : bool :=
  match u with
  | VStr s =>
      match urlparse s with
      | inr parsed =>
          if Py.is_empty (scheme parsed) || Py.is_empty (netloc parsed)
          then false
          else
            let path := Py.lower (path parsed) in
            existsb (fun fmt => Py.endswith path ("." ++ fmt))
                    ALLOWED_IMAGE_FORMATS
      | inl _ => false
      end
  | _ => false
  end.

Definition fuzzy_match (input_text : value) (candidates : list string)
           (default : string) : result string :=
  if negb (truthy input_text) then ok default
  else
    match input_text with
    | VStr s =>
        if String.eqb (Py.lower s) "none" then ok default
        else
          let input_lower := Py.strip (Py.lower s) in
          if In_b s candidates then ok s
          else
            let candidate_map := dict_of_lowered candidates [] in
            let matches := get_close_matches input_lower (keys candidate_map) in
            match matches with
            | m :: _ => getitem m candidate_map
            | [] => ok default
            end
    | _ => raise (AttributeError (type_name input_text) "lower")
    end.

Definition get_aspect_ratio_from_input (input_text : value) : result string :=
  fuzzy_match input_text AVAILABLE_ASPECT_RATIOS "1:1".

Definition get_output_format_from_input (input_text : value) : result string :=
  fuzzy_match input_text AVAILABLE_OUTPUT_FORMATS "webp".

(** [pipe] up to the remote call: steps 1 and 2 of the [try] block.  They
    consult no collaborator but the URL parser and the matcher, so they are
    a function of the message: the payload for the remote service, an
    early [return], or an exception.  The log lines, the warning about
    unknown parameters among them, change no value and are left out. *)
Definition request (user_message : string) : outcome payload :=
  let params := parse_command_params user_message in
  prompt <- lift (strip_of (get_default "prompt" (VStr "") params)) ;;
  if Py.is_empty prompt then Return "Error: Prompt is required"
  else
    prompt <- lift (strip_of (get_default "prompt" (VStr "") params)) ;;
    aspect_ratio <- lift (get_aspect_ratio_from_input
                            (get_default "aspect_ratio" (VStr "1:1") params)) ;;
    let input_params : payload :=
      [("prompt", VStr prompt); ("aspect_ratio", VStr aspect_ratio)] in
    input_params <-
      (if dict_mem "image_prompt" params
       then
         image_prompt <- lift (getitem "image_prompt" params) ;;
         if negb (validate_image_url image_prompt)
         then Return "Error: image_prompt must be a valid URL pointing to a jpeg, png, gif, or webp image"
         else pure (dict_set "image_prompt" image_prompt input_params)
       else pure input_params) ;;
    aspect_ratio <- lift (getitem "aspect_ratio" input_params) ;;
    input_params <-
      (if py_eq aspect_ratio (VStr "custom")
       then
         dims <- lift (validate_dimensions (dict_get "width" params)
                                           (dict_get "height" params)) ;;
         match dims with
         | (Some width, Some height) =>
             if negb (width =? 0)%Z && negb (height =? 0)%Z
             then pure (dict_set "height" (VInt height)
                          (dict_set "width" (VInt width) input_params))
             else pure input_params
         | _ => pure input_params
         end
       else pure input_params) ;;
    input_params <-
      (if dict_mem "seed" params
       then
         seed <- lift (getitem "seed" params) ;;
         seed <- lift (int_of seed) ;;
         pure (dict_set "seed" (VInt seed) input_params)
       else pure input_params) ;;
    input_params <-
      (if dict_mem "prompt_upsampling" params
       then
         flag <- lift (getitem "prompt_upsampling" params) ;;
         pure (dict_set "prompt_upsampling" (VBool (truthy flag)) input_params)
       else pure input_params) ;;
    input_params <-
      (if dict_mem "output_format" params
       then
         fmt <- lift (getitem "output_format" params) ;;
         fmt <- lift (get_output_format_from_input fmt) ;;
         pure (dict_set "output_format" (VStr fmt) input_params)
       else pure input_params) ;;
    input_params <-
      (if dict_mem "output_quality" params
       then
         q <- lift (getitem "output_quality" params) ;;
         q <- lift (py_max 0 q) ;;
         q <- lift (py_min 100 q) ;;
         pure (dict_set "output_quality" q input_params)
       else pure input_params) ;;
    input_params <-
      (if dict_mem "safety_tolerance" params
       then
         t <- lift (getitem "safety_tolerance" params) ;;
         t <- lift (py_max 1 t) ;;
         t <- lift (py_min 6 t) ;;
         pure (dict_set "safety_tolerance" t input_params)
       else pure input_params) ;;
    pure input_params.

(** The [try] block of [pipe]: steps 3 and 4 follow the request.  The
    second component lists the payloads handed to the remote service. *)
Definition pipe_try (user_message : string)
  : outcome string * list payload :=
  match request user_message with
  | Val input_params =>
      match client_run input_params with
      | inr (Some text) =>
          (Val ("![image](" ++ text ++ ")" ++ nl), [input_params])
      | inr None => (Val "No image was generated.", [input_params])
      | inl e => (Raise e, [input_params])
      end
  | Return s => (Return s, [])
  | Raise e => (Raise e, [])
  end.

(** [pipe]: what the [try] block returns, or the text of the exception it
    raised. *)
Definition pipe (user_message : string) : string * list payload :=
  match pipe_try user_message with
  | (Val s, calls) => (s, calls)
  | (Return s, calls) => (s, calls)
  | (Raise e, calls) => ("Error generating image: " ++ exn_text e, calls)
  end.

End Collaborators.

(** ** Instances of the collaborators

    The theorems below hold for every collaborator; these instances serve
    the examples only, and are simpler than the libraries they stand for.
    The matcher scores a candidate by the ratio 2*M/T, with M the length of
    a longest common subsequence and T the total length, and keeps the
    first best candidate that reaches 0.6; [difflib] takes M from its
    matching blocks and, among equal scores, keeps the greatest string.
    The URL splitter never raises and ends the path at the first [;], [?]
    or [#]; [urllib] raises on an unbalanced bracket in the host and looks
    for [;] in the last segment of the path only.  The text of a
    [ValueError] is the one [int] gives for a literal that is short and
    holds no quote. *)

Module Instances.

Fixpoint lcs_row (c : ascii) (t : string) (prev : list nat) (diag left : nat)
  : list nat :=
  match t, prev with
  | String d t', up :: prev' =>
      let here := if Ascii.eqb c d then S diag else Nat.max up left in
      here :: lcs_row c t' prev' up here
  | _, _ => []
  end.

Fixpoint lcs_rows (s t : string) (prev : list nat) : list nat :=
  match s with
  | EmptyString => prev
  | String c s' => lcs_rows s' t (lcs_row c t prev 0 0)
  end.

Definition lcs (s t : string) : nat :=
  last (lcs_rows s t (repeat 0 (String.length t))) 0.

Definition clears (w x : string) : bool :=
  (6 * (String.length w + String.length x) <=? 10 * (2 * lcs w x))%nat.

(** [a/b < c/d] on the two ratios. *)
Definition scores_below (w x y : string) : bool :=
  (lcs w x * (String.length w + String.length y)
   <? lcs w y * (String.length w + String.length x))%nat.

Fixpoint best (w : string) (cur : option string) (ps : list string)
  : option string :=
  match ps with
  | [] => cur
  | x :: ps' =>
      if clears w x
      then match cur with
           | Some b => best w (Some (if scores_below w b x then x else b)) ps'
           | None => best w (Some x) ps'
           end
      else best w cur ps'
  end.

Definition get_close_matches (w : string) (ps : list string) : list string :=
  match best w None ps with
  | Some x => [x]
  | None => []
  end.

Fixpoint until (stop : ascii -> bool) (s : string) : string * string :=
  match s with
  | EmptyString => (EmptyString, EmptyString)
  | String c s' =>
      if stop c then (EmptyString, s)
      else let (a, b) := until stop s' in (String c a, b)
  end.

Definition is_letter (c : ascii) : bool :=
  Py.between 65 90 (Py.code c) || Py.between 97 122 (Py.code c).

Definition scheme_char (c : ascii) : bool :=
  is_letter c || Py.is_decimal c || Ascii.eqb c "+" || Ascii.eqb c "-"
  || Ascii.eqb c ".".

Definition ends_authority (c : ascii) : bool :=
  Ascii.eqb c "/" || Ascii.eqb c "?" || Ascii.eqb c "#".

Definition ends_path (c : ascii) : bool :=
  Ascii.eqb c "?" || Ascii.eqb c "#" || Ascii.eqb c ";".

(** [scheme://netloc/path], cut at the first query, fragment or parameter
    mark; this splitter never raises. *)
Definition urlparse (s : string) : result url :=
  let (head, tail) := until (fun c => Ascii.eqb c ":") s in
  let (sch, rest) :=
    match head, tail with
    | String c _, String _ after =>
        if is_letter c && Py.all_chars scheme_char head
        then (Py.lower head, after) else (EmptyString, s)
    | _, _ => (EmptyString, s)
    end in
  let (loc, rest) :=
    if Py.startswith rest "//" then until ends_authority (Py.drop 2 rest)
    else (EmptyString, rest) in
  ok {| scheme := sch; netloc := loc; path := fst (until ends_path rest) |}.

Definition client_run (output : result (option string)) (input : payload)
  : result (option string) := output.

Definition exn_text (e : exn) : string :=
  match e with
  | AttributeError t a =>
      "'" ++ t ++ "' object has no attribute '" ++ a ++ "'"
  | TypeError op l r =>
      "'" ++ op ++ "' not supported between instances of '" ++ l
      ++ "' and '" ++ r ++ "'"
  | ValueError lit => "invalid literal for int() with base 10: '" ++ lit ++ "'"
  | KeyError k => "'" ++ k ++ "'"
  | IndexError => "list index out of range"
  | ServiceError m => m
  end.

Definition image : result (option string) :=
  ok (Some "https://replicate.delivery/out.webp").

Definition respond (output : result (option string)) (user_message : string)
  : string * list payload :=
  pipe get_close_matches urlparse (client_run output) exn_text user_message.

End Instances.

(** ** Notions used in the statements *)

(** The rounding the specification names: to the nearest multiple, a half
    going away from zero. *)
Definition spec_round_half_away (n d : Z) : Z :=
  (Z.sgn n * ((2 * Z.abs n + d) / (2 * d)))%Z.

Definition clamp (lo hi x : Z) : Z := Z.max lo (Z.min hi x).

(** A multiple of 32 between 256 and 1440. *)
Definition flux_dimension (x : Z) : Prop :=
  (256 <= x <= 1440)%Z /\ (x mod 32 = 0)%Z.

(** The flag units of a message that holds the marker: the pieces of the
    parameter segment after the first one. *)
Definition flag_units (user_message : string) : list string :=
  let param_index := Py.find user_message "--" in
  tl (Py.split (Py.strip (Py.slice_from user_message param_index)) "--").

(** The free text before the first marker, trimmed. *)
Definition prompt_part (user_message : string) : string :=
  Py.strip (Py.slice_to user_message (Py.find user_message "--")).

(** The name of a flag unit, if the unit is not blank, and the raw value
    the loop hands to [convert_value]. *)
Definition unit_name (tok : string) : option string :=
  hd_error (Py.split_ws1 (Py.strip tok)).

Definition unit_value (tok : string) : value :=
  match Py.split_ws1 (Py.strip tok) with
  | _ :: rest_ :: _ => VStr rest_
  | _ => VBool true
  end.

(** The string holds no marker. *)
Definition markerless (s : string) : Prop := Py.find_from "--" s 0 = None.

(** No character of the string is whitespace. *)
Definition spaceless (s : string) : bool :=
  Py.all_chars (fun c => negb (Py.isspace c)) s.

(** Type coercion leaves the raw value a string. *)
Definition uncoerced (v : string) : Prop :=
  Py.lower v <> "true" /\ Py.lower v <> "false" /\ Py.isdigit v = false.

(** The order in which [pipe] assigns the keys of the payload. *)
Definition assignment_order : list string :=
  ["prompt"; "aspect_ratio"; "image_prompt"; "width"; "height"; "seed";
   "prompt_upsampling"; "output_format"; "output_quality";
   "safety_tolerance"].

(** The order of the keys in the remote schema, as the [x-order] comments
    of [pipe] give it. *)
Definition schema_order : list string :=
  ["prompt"; "image_prompt"; "aspect_ratio"; "width"; "height";
   "safety_tolerance"; "seed"; "prompt_upsampling"; "output_format";
   "output_quality"].

(** [l] lists some elements of [order], in the order they have there. *)
Fixpoint in_order (l order : list string) : bool :=
  match l, order with
  | [], _ => true
  | _ :: _, [] => false
  | x :: l', y :: order' =>
      if String.eqb x y then in_order l' order' else in_order l order'
  end.

(** One optional assignment [input_params[k] = x]. *)
Definition extends (k : string) (before after : payload) : Prop :=
  after = before \/ exists x, after = dict_set k x before.

(** The assignment of both dimensions, made only for a custom ratio. *)
Definition extends_dimensions (aspect_ratio : string)
           (before after : payload) : Prop :=
  after = before
  \/ (aspect_ratio = "custom"
      /\ exists w h, after = dict_set "height" (VInt h)
                               (dict_set "width" (VInt w) before)).

Definition dq : string := String (ascii_of_nat 34) EmptyString.

(** The example of the docstring of [parse_command_params]. *)
Definition docstring_example : string :=
  "A painting of a " ++ dq ++ "sunset -- very beautiful" ++ dq
  ++ " --aspect_ratio 16:9".

(** ** The assignments of a request, one by one *)

(** What [pipe] stores under each optional key, as a function of the
    parsed value. *)
Definition seed_of (v : value) : result value :=
  z <~ int_of v ;; ok (VInt z).

Definition upsampling_of (v : value) : result value :=
  ok (VBool (truthy v)).

Definition quality_of (v : value) : result value :=
  q <~ py_max 0 v ;; py_min 100 q.

Definition tolerance_of (v : value) : result value :=
  t <~ py_max 1 v ;; py_min 6 t.

(** The assignment [if k in params: input_params[k] = f(params[k])], as
    it went in a request that was built. *)
Definition assigned (k : string) (params : dict value)
           (f : value -> result value) (before after : payload) : Prop :=
  match dict_get k params with
  | None => after = before
  | Some v => exists x, f v = inr x /\ after = dict_set k x before
  end.

(** The assignment of both dimensions, as it went. *)
Definition assigned_dimensions (aspect_ratio : string) (params : dict value)
           (before after : payload) : Prop :=
  if String.eqb aspect_ratio "custom"
  then
    exists dims,
      validate_dimensions (dict_get "width" params) (dict_get "height" params)
      = inr dims
      /\ after = match dims with
                 | (Some w, Some h) =>
                     dict_set "height" (VInt h)
                              (dict_set "width" (VInt w) before)
                 | _ => before
                 end
  else after = before.

(** What the payload holds under [k], read off the parsed parameters. *)
Definition stored (k : string) (params : dict value)
           (f : value -> result value) (p : payload) : Prop :=
  match dict_get k params with
  | None => dict_get k p = None
  | Some v => exists x, f v = inr x /\ dict_get k p = Some x
  end.

(** A message that sets every parameter, one unknown among them, and the
    payload it gives with the instances above. *)
Module Samples.

Definition message : string :=
  "A cat --aspect_ratio custm --width 500 --height 777 --seed 7 --prompt_upsampling yes --output_format PNG --output_quality 250 --safety_tolerance 0 --image_prompt https://x.com/a.png --style noir".

Definition sent : payload :=
  [("prompt", VStr "A cat"); ("aspect_ratio", VStr "custom");
   ("image_prompt", VStr "https://x.com/a.png");
   ("width", VInt 512); ("height", VInt 768); ("seed", VInt 7);
   ("prompt_upsampling", VBool true); ("output_format", VStr "png");
   ("output_quality", VInt 100); ("safety_tolerance", VInt 1)].

(** ['1' * n] *)
Fixpoint ones (n : nat) : string :=
  match n with
  | O => EmptyString
  | S n' => String "1" (ones n')
  end.

End Samples.

(** ** Messages with a list of flags *)

(** The text [' --name value'] for each flag in turn. *)
Fixpoint flags_text (flags : list (string * string)) : string :=
  match flags with
  | [] => ""
  | (name, v) :: rest => " --" ++ name ++ " " ++ v ++ flags_text rest
  end.

(** A flag the tokenizer reads back as written: a name without
    whitespace, a trimmed value, neither empty, neither holding the
    marker. *)
Definition plain_flag (f : string * string) : Prop :=
  fst f <> "" /\ spaceless (fst f) = true /\ markerless (fst f)
  /\ snd f <> "" /\ Py.strip (snd f) = snd f /\ markerless (snd f).

(** The assignments [params[name] = value], in turn. *)
Definition assign_all (d : dict value) (l : list (string * value))
  : dict value :=
  fold_left (fun d nx => dict_set (fst nx) (snd nx) d) l d.

(** A flag unit that makes [convert_value] raise: it has no value, or its
    value passes [isdigit] and [int] refuses it, because it is not a decimal
    numeral or because it is longer than [int] accepts. *)
Definition unconvertible (tok : string) : Prop :=
  unit_name tok <> None
  /\ (unit_value tok = VBool true
      \/ exists r, unit_value tok = VStr r /\ Py.isdigit r = true
                   /\ (Py.all_chars Py.is_decimal r = false
                       \/ (Py.MAX_STR_DIGITS < Z.of_nat (String.length r))%Z)).
(** The flag units of [name ++ " " ++ v ++ flags_text rest]. *)
Fixpoint units (name v : string) (rest : list (string * string))
  : list string :=
  match rest with
  | [] => [name ++ String " " v]
  | (name', v') :: rest' =>
      ((name ++ String " " v) ++ " ") :: units name' v' rest'
  end.

(** Step 4 of [pipe]: the text for what the remote service answered. *)
Definition reply (exn_text : exn -> string) (answer : result (option string))
  : string :=
  match answer with
  | inr (Some text) => "![image](" ++ text ++ ")" ++ nl
  | inr None => "No image was generated."
  | inl e => "Error generating image: " ++ exn_text e
  end.

Definition image_prompt_error : string :=
  "Error: image_prompt must be a valid URL pointing to a jpeg, png, gif, or webp image".

(** The dimension [validate_dimensions] returns for the integer [x]. *)
Definition fit (x : Z) : Z := (py_round_div (clamp 256 1440 x) 32 * 32)%Z.

(** The value is a [str]. *)
Definition is_str (v : value) : Prop := exists s, v = VStr s.

(** What can go wrong with the parsed value [v] of the flag [k] while the
    request is built, and the exception it raises. *)
Definition fault (k : string) (v : value) (e : exn) : Prop :=
  (k = "prompt" /\ ~ is_str v /\ e = AttributeError (type_name v) "strip")
  \/ ((k = "aspect_ratio" \/ k = "output_format")
      /\ ((~ is_str v /\ truthy v = true
           /\ e = AttributeError (type_name v) "lower")
          \/ (is_str v /\ exists key, e = KeyError key)))
  \/ ((k = "width" \/ k = "height")
      /\ is_str v /\ e = TypeError "<" "str" "int")
  \/ (k = "seed"
      /\ exists s, v = VStr s /\ Py.int_of_str s = None /\ e = ValueError s)
  \/ ((k = "output_quality" \/ k = "safety_tolerance")
      /\ is_str v /\ e = TypeError ">" "str" "int").

(** ** What the module expects of the matcher *)

(** [get_close_matches] answers with some of the possibilities. *)
Definition answers_from_possibilities
           (gcm : string -> list string -> list string) : Prop :=
  forall w ps x, In x (gcm w ps) -> In x ps.

(** A word that is among the possibilities is its own best match. *)
Definition exact_hit (gcm : string -> list string -> list string) : Prop :=
  forall w ps, In w ps -> gcm w ps = [w].

(** The matcher that accepts nothing but the word itself. *)
Definition exact_matcher (w : string) (ps : list string) : list string :=
  if In_b w ps then [w] else [].

(** ** The life cycle of a pipeline

    [Pipeline.__init__], [on_startup] and [on_shutdown].  The client is
    represented by the headers it was built with, the environment by a
    dictionary. *)

Module Lifecycle.

Record Valves := { REPLICATE_API_TOKEN : string }.

Record Pipeline := {
  name : string;
  api_token : string;
  valves : Valves;
  client : dict string
}.

(** [replicate.Client(headers={...})] for a token. *)
Definition Client (token : string) : dict string :=
  [("User-Agent", "replicate-flux-pipeline/1.0.1");
   ("Authorization", "Token " ++ token)].

(** [Pipeline()]: the pipeline, or the message of the [ValueError]. *)
Definition init (environ : dict string) : string + Pipeline :=
  let api_token := get_default "REPLICATE_API_TOKEN" "" environ in
  let valves := {| REPLICATE_API_TOKEN := api_token |} in
  if Py.is_empty api_token
  then inl "REPLICATE_API_TOKEN environment variable or valve configuration is required"
  else inr {| name := "Replicate Flux Pipeline";
              api_token := api_token;
              valves := valves;
              client := Client api_token |}.

Definition on_startup (self : Pipeline) : Pipeline :=
  if negb (Py.is_empty (REPLICATE_API_TOKEN (valves self)))
  then {| name := name self;
          api_token := REPLICATE_API_TOKEN (valves self);
          valves := valves self;
          client := Client (REPLICATE_API_TOKEN (valves self)) |}
  else self.

Definition on_shutdown (self : Pipeline) : Pipeline := self.

(** The host assigns new valves. *)
Definition set_valves (self : Pipeline) (v : Valves) : Pipeline :=
  {| name := name self; api_token := api_token self; valves := v;
     client := client self |}.

(** The pipelines a host can reach from a construction that succeeded. *)
Inductive reachable (environ : dict string) : Pipeline -> Prop :=
| reach_init (p : Pipeline) :
    init environ = inr p -> reachable environ p
| reach_valves (p : Pipeline) (v : Valves) :
    reachable environ p -> reachable environ (set_valves p v)
| reach_startup (p : Pipeline) :
    reachable environ p -> reachable environ (on_startup p)
| reach_shutdown (p : Pipeline) :
    reachable environ p -> reachable environ (on_shutdown p).

End Lifecycle.

(** * Properties *)

(** ** Dimension validation *)

Lemma py_min_int (a x : Z) : py_min a (VInt x) = inr (VInt (Z.min a x)).
Proof.
  unfold py_min, ok; cbn.
  destruct (Z.ltb_spec x a); do 2 f_equal; lia.
Qed.

Lemma py_max_int (a x : Z) : py_max a (VInt x) = inr (VInt (Z.max a x)).
Proof.
  unfold py_max, ok; cbn.
  destruct (Z.ltb_spec a x); do 2 f_equal; lia.
Qed.

Lemma validate_dimensions_int (w h : Z) :
  validate_dimensions (Some (VInt w)) (Some (VInt h))
  = ok (Some (py_round_div (clamp 256 1440 w) 32 * 32)%Z,
        Some (py_round_div (clamp 256 1440 h) 32 * 32)%Z).
Proof.
  unfold validate_dimensions, clamp.
  rewrite !py_min_int. cbn [rbind]. rewrite !py_max_int. reflexivity.
Qed.

(** [py_round_div n d] is [q] or [q + 1] for the floor quotient [q]; the
    three facts below pin it down. *)
Lemma py_round_div_32 (c : Z) :
  let r := (py_round_div c 32 * 32)%Z in
  (r mod 32 = 0)%Z
  /\ (Z.abs (r - c) <= 16)%Z
  /\ (Z.abs (r - c) = 16 -> Z.even (r / 32) = true)%Z.
Proof.
  cbv zeta. unfold py_round_div.
  pose proof (Z.div_mod c 32 ltac:(lia)) as Hdm.
  pose proof (Z.mod_pos_bound c 32 ltac:(lia)) as Hb.
  set (q := (c / 32)%Z) in *. set (m := (c mod 32)%Z) in *.
  destruct (Z.ltb_spec (2 * m) 32); [|destruct (Z.ltb_spec 32 (2 * m))].
  - rewrite Z.mod_mul, Z.div_mul by lia. repeat split; try lia.
  - rewrite Z.mod_mul, Z.div_mul by lia. repeat split; try lia.
  - assert (m = 16)%Z by lia.
    destruct (Z.even q) eqn:Hq; rewrite Z.mod_mul, Z.div_mul by lia.
    + repeat split; auto; lia.
    + repeat split; try lia. intros _.
      rewrite Z.even_add, Hq. reflexivity.
Qed.

Lemma py_round_div_32_range (c : Z) :
  (256 <= c <= 1440)%Z -> flux_dimension (py_round_div c 32 * 32)%Z.
Proof.
  intros Hc. destruct (py_round_div_32 c) as (Hm & Hd & _).
  split; [|exact Hm].
  set (r := (py_round_div c 32 * 32)%Z) in *.
  pose proof (Z.div_mod r 32 ltac:(lia)) as Hr. rewrite Hm in Hr.
  lia.
Qed.

Lemma clamp_range (lo hi x : Z) : (lo <= hi -> lo <= clamp lo hi x <= hi)%Z.
Proof. unfold clamp; lia. Qed.

(** C5. With two integers, [validate_dimensions] returns two multiples of
    32 between 256 and 1440; when either argument is absent it returns
    (None, None); whatever it is given, a result has both values or
    neither. *)
Theorem validate_dimensions_both_or_neither :
  (forall w h : Z,
      exists w' h',
        validate_dimensions (Some (VInt w)) (Some (VInt h))
        = ok (Some w', Some h')
        /\ flux_dimension w' /\ flux_dimension h')
  /\ (forall width height,
         width = None \/ height = None ->
         validate_dimensions width height = ok (None, None))
  /\ (forall width height w' h',
         validate_dimensions width height = ok (w', h') ->
         (w' = None <-> h' = None)).
Proof.
  split; [|split].
  - intros w h. eexists _, _. split; [apply validate_dimensions_int|].
    split; apply py_round_div_32_range, clamp_range; lia.
  - intros width height [-> | ->]; [reflexivity|].
    destruct width; reflexivity.
  - intros width height w' h'. unfold validate_dimensions.
    destruct width as [wv|], height as [hv|];
      try (intros [= <- <-]; tauto).
    destruct (py_min 1440 wv) as [e|a]; [discriminate|]. cbn [rbind].
    destruct (py_max 256 a) as [e|a']; [discriminate|]. cbn [rbind].
    destruct (py_min 1440 hv) as [e|b]; [discriminate|]. cbn [rbind].
    destruct (py_max 256 b) as [e|b']; [discriminate|]. cbn [rbind].
    destruct (round_to_32 a') as [e|x]; [discriminate|]. cbn [rbind].
    destruct (round_to_32 b') as [e|y]; [discriminate|]. cbn [rbind].
    intros [= <- <-]. split; discriminate.
Qed.

Lemma validate_dimensions_both_or_neither_witness :
  validate_dimensions None (Some (VInt 500)) = ok (None, None)
  /\ (Some 256%Z = None <-> Some 1440%Z = None).
Proof.
  split.
  - apply (proj1 (proj2 validate_dimensions_both_or_neither)).
    left; reflexivity.
  - apply (proj2 (proj2 validate_dimensions_both_or_neither)
             (Some (VInt 100)) (Some (VInt 2000))).
    reflexivity.
Defined.

(** C4, as the code has it.  With two integers, [validate_dimensions]
    clamps each to [256, 1440] and takes the nearest multiple of 32; a
    value exactly half-way between two multiples goes to the even one
    (round-half-to-even), so 1232 = 38.5 * 32 becomes 1216 = 38 * 32, and
    1200 = 37.5 * 32 becomes 1216 as well. *)
Theorem validate_dimensions_rounds_half_to_even :
  (forall w h : Z,
      exists w' h',
        validate_dimensions (Some (VInt w)) (Some (VInt h))
        = ok (Some w', Some h')
        /\ (w' mod 32 = 0 /\ Z.abs (w' - clamp 256 1440 w) <= 16
            /\ (Z.abs (w' - clamp 256 1440 w) = 16 ->
                Z.even (w' / 32) = true))%Z
        /\ (h' mod 32 = 0 /\ Z.abs (h' - clamp 256 1440 h) <= 16
            /\ (Z.abs (h' - clamp 256 1440 h) = 16 ->
                Z.even (h' / 32) = true))%Z)
  /\ validate_dimensions (Some (VInt 1232)) (Some (VInt 1200))
     = ok (Some 1216%Z, Some 1216%Z).
Proof.
  split; [|reflexivity].
  intros w h. eexists _, _. split; [apply validate_dimensions_int|].
  split; apply py_round_div_32.
Qed.

(** C4, as stated, fails: rounding 1232 half away from zero gives 1248,
    and the code returns 1216. *)
Lemma validate_dimensions_not_half_away :
  ~ (forall w h : Z,
        validate_dimensions (Some (VInt w)) (Some (VInt h))
        = ok (Some (spec_round_half_away (clamp 256 1440 w) 32 * 32)%Z,
              Some (spec_round_half_away (clamp 256 1440 h) 32 * 32)%Z)).
Proof.
  intros H. specialize (H 1232%Z 1232%Z). vm_compute in H. discriminate.
Qed.

(** ** Fuzzy enum matching *)

Lemma In_b_true (c : string) (l : list string) : In c l -> In_b c l = true.
Proof.
  intros H. apply existsb_exists. exists c. split; [exact H|].
  apply String.eqb_refl.
Qed.

Lemma In_b_In (c : string) (l : list string) : In_b c l = true -> In c l.
Proof.
  intros H. apply existsb_exists in H. destruct H as (x & Hx & Heq).
  apply String.eqb_eq in Heq. subst. exact Hx.
Qed.

Lemma fuzzy_match_exact gcm (c : string) (candidates : list string)
      (default : string) :
  In c candidates -> c <> "" -> Py.lower c <> "none" ->
  fuzzy_match gcm (VStr c) candidates default = ok c.
Proof.
  intros Hin Hne Hnone. unfold fuzzy_match. cbn [truthy].
  destruct c as [|a c']; [congruence|]. cbn [Py.is_empty negb].
  destruct (String.eqb_spec (Py.lower (String a c')) "none"); [congruence|].
  rewrite (In_b_true _ _ Hin). reflexivity.
Qed.

(** C6, as the code has it.  For every candidate list and default, the
    empty string and every case-variant of 'none' yield the default, and
    every candidate that is neither empty nor a case-variant of 'none' is
    returned unchanged; every aspect ratio and every output format of the
    module is such a candidate. *)
Theorem fuzzy_match_canonical gcm (candidates : list string)
        (default : string) :
  fuzzy_match gcm (VStr "") candidates default = ok default
  /\ (forall s, Py.lower s = "none" ->
                fuzzy_match gcm (VStr s) candidates default = ok default)
  /\ (forall c, In c candidates -> c <> "" -> Py.lower c <> "none" ->
                fuzzy_match gcm (VStr c) candidates default = ok c)
  /\ (forall c, In c AVAILABLE_ASPECT_RATIOS ->
                get_aspect_ratio_from_input gcm (VStr c) = ok c)
  /\ (forall c, In c AVAILABLE_OUTPUT_FORMATS ->
                get_output_format_from_input gcm (VStr c) = ok c).
Proof.
  split; [reflexivity|]. split; [|split; [|split]].
  - intros s Hs. unfold fuzzy_match. cbn [truthy].
    destruct (negb (negb (Py.is_empty s))); [reflexivity|].
    rewrite Hs. reflexivity.
  - intros c. apply fuzzy_match_exact.
  - intros c Hin. apply fuzzy_match_exact; [exact Hin| |];
      cbn in Hin; repeat destruct Hin as [<-|Hin]; try discriminate;
      contradiction.
  - intros c Hin. apply fuzzy_match_exact; [exact Hin| |];
      cbn in Hin; repeat destruct Hin as [<-|Hin]; try discriminate;
      contradiction.
Qed.

Lemma fuzzy_match_canonical_witness :
  fuzzy_match Instances.get_close_matches (VStr "NoNe") ["webp"; "jpg"] "webp"
  = ok "webp"
  /\ fuzzy_match Instances.get_close_matches (VStr "jpg") ["webp"; "jpg"] "webp"
     = ok "jpg"
  /\ get_aspect_ratio_from_input Instances.get_close_matches (VStr "custom")
     = ok "custom"
  /\ get_output_format_from_input Instances.get_close_matches (VStr "png")
     = ok "png".
Proof.
  pose proof (fuzzy_match_canonical Instances.get_close_matches
                ["webp"; "jpg"] "webp") as (_ & Hnone & Hexact & Har & Hof).
  split; [|split; [|split]].
  - apply Hnone. reflexivity.
  - apply Hexact; [cbn; tauto|discriminate|discriminate].
  - apply Har. cbn; tauto.
  - apply Hof. cbn; tauto.
Defined.

(** C6, as stated, fails: a candidate list may hold 'none' itself, and the
    guard on 'none' comes before the exact match. *)
Lemma fuzzy_match_none_candidate :
  ~ (forall gcm candidates default c,
        In c candidates ->
        fuzzy_match gcm (VStr c) candidates default = ok c).
Proof.
  intros H.
  specialize (H Instances.get_close_matches ["none"] "webp" "none"
                (or_introl eq_refl)).
  vm_compute in H. discriminate.
Qed.

(** ** Trimming *)

Lemma lstrip_head (s : string) (c : ascii) (t : string) :
  Py.lstrip s = String c t -> Py.isspace c = false.
Proof.
  induction s as [|a s IH]; cbn; [discriminate|].
  destruct (Py.isspace a) eqn:Ha; [exact IH|].
  intros [= <- <-]. exact Ha.
Qed.

Lemma lstrip_nonspace (c : ascii) (t : string) :
  Py.isspace c = false -> Py.lstrip (String c t) = String c t.
Proof. intros H. cbn. rewrite H. reflexivity. Qed.

Lemma rstrip_nonspace (c : ascii) (t : string) :
  Py.isspace c = false -> Py.rstrip (String c t) = String c (Py.rstrip t).
Proof. intros H. cbn. rewrite H, andb_false_r. reflexivity. Qed.

Lemma strip_head (s : string) (c : ascii) (t : string) :
  Py.strip s = String c t -> Py.isspace c = false.
Proof.
  unfold Py.strip. destruct (Py.lstrip s) as [|a u] eqn:Hl; [discriminate|].
  pose proof (lstrip_head _ _ _ Hl) as Ha.
  rewrite (rstrip_nonspace _ _ Ha). intros [= <- _]. exact Ha.
Qed.

Lemma rstrip_idem (s : string) : Py.rstrip (Py.rstrip s) = Py.rstrip s.
Proof.
  induction s as [|c s IH]; [reflexivity|]. cbn [Py.rstrip].
  destruct (Py.is_empty (Py.rstrip s) && Py.isspace c) eqn:Hc;
    [reflexivity|].
  cbn [Py.rstrip]. rewrite IH, Hc. reflexivity.
Qed.

Lemma strip_idem (s : string) : Py.strip (Py.strip s) = Py.strip s.
Proof.
  destruct (Py.strip s) as [|c t] eqn:Hs; [reflexivity|].
  pose proof (strip_head _ _ _ Hs) as Hc.
  unfold Py.strip at 1. rewrite (lstrip_nonspace _ _ Hc), <- Hs.
  unfold Py.strip. apply rstrip_idem.
Qed.

(** A string that [strip] leaves alone is left alone by both halves. *)
Lemma strip_fixed (s : string) :
  Py.strip s = s -> Py.lstrip s = s /\ Py.rstrip s = s.
Proof.
  intros H. assert (Hl : Py.lstrip s = s).
  { destruct s as [|c t]; [reflexivity|].
    apply lstrip_nonspace. exact (strip_head _ _ _ H). }
  split; [exact Hl|]. unfold Py.strip in H. rewrite Hl in H. exact H.
Qed.

Lemma rstrip_app (a v : string) :
  Py.rstrip v <> "" -> Py.rstrip (a ++ v) = a ++ Py.rstrip v.
Proof.
  intros Hv. induction a as [|c a IH]; [reflexivity|].
  cbn [append Py.rstrip]. rewrite IH.
  destruct (a ++ Py.rstrip v) as [|d u] eqn:Hau; [|reflexivity].
  destruct a; cbn in Hau; [contradiction|discriminate].
Qed.

(** ** Searching and splitting on the marker *)

Lemma find_from_shift (sub s : string) (i : nat) :
  Py.find_from sub s i
  = option_map (fun k => (k + i)%nat) (Py.find_from sub s 0).
Proof.
  revert i. induction s as [|c s IH]; intros i; cbn [Py.find_from].
  - destruct (Py.startswith "" sub); reflexivity.
  - destruct (Py.startswith (String c s) sub); [reflexivity|].
    rewrite (IH (S i)), (IH 1%nat).
    destruct (Py.find_from sub s 0); cbn; [f_equal; lia|reflexivity].
Qed.

Lemma markerless_find (s : string) :
  markerless s <-> Py.find s "--" = (-1)%Z.
Proof.
  unfold markerless, Py.find.
  destruct (Py.find_from "--" s 0); split; try congruence; lia.
Qed.

Lemma markerless_cons (c : ascii) (s : string) :
  markerless (String c s)
  <-> Py.startswith (String c s) "--" = false /\ markerless s.
Proof.
  unfold markerless. cbn [Py.find_from].
  destruct (Py.startswith (String c s) "--").
  - split; [discriminate|intros [? _]; discriminate].
  - rewrite find_from_shift. destruct (Py.find_from "--" s 0); cbn;
      split; try tauto; try discriminate. intros [_ ?]; discriminate.
Qed.

Lemma starts_marker_cons (c : ascii) (s : string) :
  Py.startswith (String c s) "--"
  = Ascii.eqb "-" c && Py.startswith s "-".
Proof. reflexivity. Qed.

Lemma markerless_cons_other (c : ascii) (s : string) :
  Ascii.eqb "-" c = false -> markerless s -> markerless (String c s).
Proof.
  intros Hc Hs. apply markerless_cons. split; [|exact Hs].
  rewrite starts_marker_cons, Hc. reflexivity.
Qed.

(** Where the first marker is, when free text without one is followed by a
    space and a marker. *)
Lemma find_after_text (text rest : string) :
  markerless text ->
  Py.find_from "--" (text ++ " --" ++ rest) 0
  = Some (String.length text + 1)%nat.
Proof.
  induction text as [|c t IH]; intros Hm; [reflexivity|].
  apply markerless_cons in Hm. destruct Hm as [Hp Hm].
  specialize (IH Hm). remember (" --" ++ rest) as tail_ eqn:Ht.
  cbn [append Py.find_from String.length].
  assert (Hq : Py.startswith (String c (t ++ tail_)) "--" = false).
  { rewrite starts_marker_cons in Hp |- *.
    destruct (Ascii.eqb "-" c); [|reflexivity].
    destruct t as [|d t']; [subst tail_; reflexivity|exact Hp]. }
  rewrite Hq, find_from_shift, IH. cbn. f_equal. lia.
Qed.

Lemma take_app (a b : string) : Py.take (String.length a) (a ++ b) = a.
Proof. induction a as [|c a IH]; cbn; [destruct b|]; congruence. Qed.

Lemma drop_app (a b : string) : Py.drop (String.length a) (a ++ b) = b.
Proof. induction a as [|c a IH]; cbn; [destruct b|]; congruence. Qed.

Lemma split_markerless (s : string) :
  markerless s -> Py.split s "--" = [s].
Proof.
  unfold Py.split. induction s as [|c s IH]; intros Hm; [reflexivity|].
  apply markerless_cons in Hm. destruct Hm as [Hp Hm].
  cbn [Py.split_go]. rewrite Hp, (IH Hm). reflexivity.
Qed.

Lemma split_marker_first (s : string) :
  Py.split ("--" ++ s) "--" = "" :: Py.split s "--".
Proof. reflexivity. Qed.

(** ** The tokenizer *)

Lemma parse_try_no_marker (msg : string) :
  Py.find msg "--" = (-1)%Z ->
  parse_try msg = ok [("prompt", VStr (Py.strip msg))].
Proof. intros H. unfold parse_try. rewrite H. reflexivity. Qed.

Lemma parse_try_marker (msg : string) :
  Py.find msg "--" <> (-1)%Z ->
  parse_try msg
  = parse_tokens (flag_units msg) [("prompt", VStr (prompt_part msg))].
Proof.
  intros H. unfold parse_try, flag_units, prompt_part.
  destruct (Z.eqb_spec (Py.find msg "--") (-1)); [contradiction|reflexivity].
Qed.

(** One turn of the loop, in terms of the unit's name and raw value. *)
Lemma parse_tokens_cons (tok : string) (rest : list string)
      (params : dict value) :
  parse_tokens (tok :: rest) params
  = match unit_name tok with
    | None => parse_tokens rest params
    | Some name =>
        v <~ convert_value (unit_value tok) ;;
        parse_tokens rest (dict_set name v params)
    end.
Proof.
  cbn [parse_tokens]. unfold unit_name, unit_value, Py.split_ws1.
  destruct (Py.strip tok) as [|c t] eqn:Hs; [reflexivity|].
  cbn [Py.is_empty].
  rewrite (lstrip_nonspace _ _ (strip_head _ _ _ Hs)). cbn [Py.is_empty].
  destruct (Py.word (String c t)) as [w r].
  destruct (Py.is_empty (Py.lstrip r)); reflexivity.
Qed.

Lemma dict_get_set_same {V} (k : string) (v : V) (d : dict V) :
  dict_get k (dict_set k v d) = Some v.
Proof.
  induction d as [|[k' v'] d IH]; cbn [dict_set dict_get].
  - rewrite String.eqb_refl. reflexivity.
  - destruct (String.eqb k k') eqn:E; cbn [dict_get]; rewrite E; auto.
Qed.

Lemma dict_get_set_other {V} (k k' : string) (v : V) (d : dict V) :
  k <> k' -> dict_get k (dict_set k' v d) = dict_get k d.
Proof.
  intros Hne. induction d as [|[k0 v0] d IH]; cbn [dict_set dict_get].
  - destruct (String.eqb_spec k k'); [contradiction|reflexivity].
  - destruct (String.eqb_spec k' k0) as [->|Hk]; cbn [dict_get].
    + destruct (String.eqb_spec k k0); [contradiction|reflexivity].
    + rewrite IH. reflexivity.
Qed.

Lemma parse_tokens_app (a b : list string) (d : dict value) :
  parse_tokens (a ++ b) d = (d1 <~ parse_tokens a d ;; parse_tokens b d1).
Proof.
  revert d. induction a as [|tok a IH]; intros d; [reflexivity|].
  rewrite <- app_comm_cons, !parse_tokens_cons.
  destruct (unit_name tok) as [name|]; [|apply IH].
  destruct (convert_value (unit_value tok)) as [e|v]; [reflexivity|].
  cbn [rbind]. apply IH.
Qed.

(** Flag units with other names leave a key as it was. *)
Lemma parse_tokens_keeps (name : string) (toks : list string) :
  (forall t, In t toks -> unit_name t <> Some name) ->
  forall d d', parse_tokens toks d = inr d' ->
               dict_get name d' = dict_get name d.
Proof.
  induction toks as [|tok toks IH]; intros Hn d d' H.
  - cbn in H. injection H as <-. reflexivity.
  - rewrite parse_tokens_cons in H.
    assert (Hrest : forall t, In t toks -> unit_name t <> Some name)
      by (intros t Ht; apply Hn; right; exact Ht).
    pose proof (Hn tok (or_introl eq_refl)) as Htok.
    destruct (unit_name tok) as [n|]; [|exact (IH Hrest _ _ H)].
    destruct (convert_value (unit_value tok)) as [e|v]; [discriminate|].
    cbn [rbind] in H. rewrite (IH Hrest _ _ H).
    apply dict_get_set_other. congruence.
Qed.

(** The last flag unit with a given name decides the value stored under
    it. *)
Lemma parse_tokens_last (before after : list string) (tok name : string)
      (d d' : dict value) :
  parse_tokens (before ++ tok :: after) d = inr d' ->
  unit_name tok = Some name ->
  (forall t, In t after -> unit_name t <> Some name) ->
  exists v, convert_value (unit_value tok) = inr v
            /\ dict_get name d' = Some v.
Proof.
  intros H Hname Hafter. rewrite parse_tokens_app in H.
  destruct (parse_tokens before d) as [e|d1]; [discriminate|].
  cbn [rbind] in H. rewrite parse_tokens_cons, Hname in H.
  destruct (convert_value (unit_value tok)) as [e|v]; [discriminate|].
  cbn [rbind] in H. exists v. split; [reflexivity|].
  rewrite (parse_tokens_keeps name after Hafter _ _ H).
  apply dict_get_set_same.
Qed.

(** A flag unit without a value makes the loop raise. *)
Lemma parse_tokens_valueless (toks : list string) (tok name : string)
      (d : dict value) :
  In tok toks -> unit_name tok = Some name -> unit_value tok = VBool true ->
  exists e, parse_tokens toks d = inl e.
Proof.
  intros Hin Hname Hval. apply in_split in Hin.
  destruct Hin as (before & after & ->). rewrite parse_tokens_app.
  destruct (parse_tokens before d) as [e|d1]; [exists e; reflexivity|].
  cbn [rbind]. rewrite parse_tokens_cons, Hname, Hval. cbn.
  eexists; reflexivity.
Qed.

(** Whenever a message holds a flag unit without a value, the tokenizer
    degrades to the whole trimmed message as the prompt, all flags
    dropped. *)
Lemma valueless_flag_degrades (msg tok name : string) :
  Py.find msg "--" <> (-1)%Z ->
  In tok (flag_units msg) ->
  unit_name tok = Some name -> unit_value tok = VBool true ->
  parse_command_params msg = [("prompt", VStr (Py.strip msg))].
Proof.
  intros Hm Hin Hname Hval. unfold parse_command_params.
  rewrite (parse_try_marker _ Hm).
  destruct (parse_tokens_valueless _ _ _
              [("prompt", VStr (prompt_part msg))] Hin Hname Hval)
    as [e ->].
  reflexivity.
Qed.

(** C1, on the code.  The code assigns [True] to a flag without a value
    and then hands it to [convert_value], whose first step, [value.lower()],
    raises on a [bool]; the exception is absorbed, so the message
    'a cat --prompt_upsampling' comes back as a prompt and nothing else:
    no key [prompt_upsampling] is stored. *)
Theorem valueless_flag_is_lost :
  convert_value (VBool true) = raise (AttributeError "bool" "lower")
  /\ parse_command_params "a cat --prompt_upsampling"
     = [("prompt", VStr "a cat --prompt_upsampling")]
  /\ dict_get "prompt_upsampling"
       (parse_command_params "a cat --prompt_upsampling") = None
  /\ parse_command_params "a cat --seed 7 --prompt_upsampling"
     = [("prompt", VStr "a cat --seed 7 --prompt_upsampling")].
Proof. repeat split; reflexivity. Qed.

Lemma starts_dash_take (n : nat) (s : string) :
  Py.startswith s "-" = false -> Py.startswith (Py.take n s) "-" = false.
Proof.
  destruct n, s; cbn [Py.take]; auto.
Qed.

Lemma markerless_take (s : string) (i : nat) :
  Py.find_from "--" s 0 = Some i -> markerless (Py.take i s).
Proof.
  revert i. induction s as [|c s IH]; intros i H.
  - destruct i; reflexivity.
  - cbn [Py.find_from] in H.
    destruct (Py.startswith (String c s) "--") eqn:Hp.
    + injection H as <-. reflexivity.
    + rewrite find_from_shift in H.
      destruct (Py.find_from "--" s 0) as [j|] eqn:Hj; [|discriminate].
      cbn in H. injection H as <-. rewrite Nat.add_1_r. cbn [Py.take].
      apply markerless_cons. split; [|exact (IH _ eq_refl)].
      rewrite starts_marker_cons in Hp |- *.
      destruct (Ascii.eqb "-" c); [|reflexivity].
      apply starts_dash_take, Hp.
Qed.

Lemma markerless_lstrip (s : string) :
  markerless s -> markerless (Py.lstrip s).
Proof.
  induction s as [|c s IH]; intros H; [exact H|].
  cbn [Py.lstrip]. destruct (Py.isspace c); [|exact H].
  apply IH. apply markerless_cons in H. tauto.
Qed.

Lemma starts_dash_rstrip (s : string) :
  Py.startswith s "-" = false -> Py.startswith (Py.rstrip s) "-" = false.
Proof.
  destruct s as [|c s]; [auto|]. cbn [Py.rstrip].
  destruct (Py.is_empty (Py.rstrip s) && Py.isspace c); auto.
Qed.

Lemma markerless_rstrip (s : string) :
  markerless s -> markerless (Py.rstrip s).
Proof.
  induction s as [|c s IH]; intros H; [exact H|].
  apply markerless_cons in H. destruct H as [Hp Hs].
  cbn [Py.rstrip].
  destruct (Py.is_empty (Py.rstrip s) && Py.isspace c); [reflexivity|].
  apply markerless_cons. split; [|exact (IH Hs)].
  rewrite starts_marker_cons in Hp |- *.
  destruct (Ascii.eqb "-" c); [|reflexivity].
  apply starts_dash_rstrip, Hp.
Qed.

(** The free text that becomes the prompt never holds a marker: the cut
    is at the first one, wherever it stands. *)
Lemma prompt_part_markerless (msg : string) :
  Py.find msg "--" <> (-1)%Z -> markerless (prompt_part msg).
Proof.
  intros H. unfold prompt_part, Py.strip, Py.slice_to.
  apply markerless_rstrip, markerless_lstrip.
  unfold Py.find in *.
  destruct (Py.find_from "--" msg 0) as [i|] eqn:Hi; [|contradiction].
  rewrite Nat2Z.id. apply markerless_take, Hi.
Qed.

(** C2, on the code.  The first marker of the docstring's example lies
    inside the quoted text, so the prompt stops there and the rest of the
    quotation becomes a flag unit of its own. *)
Theorem docstring_example_is_split :
  parse_command_params docstring_example
  = [("prompt", VStr ("A painting of a " ++ dq ++ "sunset"));
     ("very", VStr ("beautiful" ++ dq));
     ("aspect_ratio", VStr "16:9")]
  /\ parse_command_params docstring_example
     <> [("prompt",
          VStr ("A painting of a " ++ dq ++ "sunset -- very beautiful" ++ dq));
         ("aspect_ratio", VStr "16:9")].
Proof. split; [reflexivity|]. vm_compute. discriminate. Qed.

Lemma word_spaceless (name rest : string) :
  spaceless name = true ->
  Py.word (name ++ String " " rest) = (name, String " " rest).
Proof.
  induction name as [|c n IH]; intros H; [reflexivity|].
  cbn [spaceless Py.all_chars] in H. apply andb_prop in H.
  destruct H as [Hc Hn]. apply negb_true_iff in Hc.
  cbn [append Py.word]. rewrite Hc, (IH Hn). reflexivity.
Qed.

Lemma strip_name_value (name v : string) :
  name <> "" -> spaceless name = true -> v <> "" -> Py.strip v = v ->
  Py.strip (name ++ String " " v) = name ++ String " " v.
Proof.
  intros Hname Hsp Hv Hfix. destruct (strip_fixed _ Hfix) as [_ Hr].
  destruct name as [|c n]; [congruence|].
  cbn [spaceless Py.all_chars] in Hsp. apply andb_prop in Hsp.
  destruct Hsp as [Hc _]. apply negb_true_iff in Hc.
  unfold Py.strip. cbn [append]. rewrite (lstrip_nonspace _ _ Hc).
  change (String c (n ++ String " " v)) with (String c n ++ String " " v).
  assert (Hsv : Py.rstrip (String " " v) = String " " v).
  { cbn [Py.rstrip]. rewrite Hr. destruct v; [congruence|reflexivity]. }
  rewrite rstrip_app; rewrite Hsv; [reflexivity|discriminate].
Qed.

(** A unit ['name value'] has that name and that raw value. *)
Lemma unit_pieces (name v : string) :
  name <> "" -> spaceless name = true -> v <> "" -> Py.strip v = v ->
  Py.split_ws1 (Py.strip (name ++ String " " v)) = [name; v].
Proof.
  intros Hname Hsp Hv Hfix.
  rewrite (strip_name_value _ _ Hname Hsp Hv Hfix).
  destruct (strip_fixed _ Hfix) as [Hl _].
  unfold Py.split_ws1.
  assert (Hc : Py.lstrip (name ++ String " " v) = name ++ String " " v).
  { destruct name as [|c n]; [congruence|].
    cbn [spaceless Py.all_chars] in Hsp. apply andb_prop in Hsp.
    destruct Hsp as [Hc _]. apply negb_true_iff in Hc.
    apply lstrip_nonspace, Hc. }
  rewrite Hc, (word_spaceless _ _ Hsp).
  replace (Py.is_empty (name ++ String " " v)) with false
    by (destruct name; [congruence|reflexivity]).
  change (Py.lstrip (String " " v)) with (Py.lstrip v). rewrite Hl.
  destruct v; [congruence|reflexivity].
Qed.

Lemma convert_value_uncoerced (v : string) :
  uncoerced v -> convert_value (VStr v) = ok (VStr v).
Proof.
  intros (Ht & Hf & Hd). unfold convert_value.
  destruct (String.eqb_spec (Py.lower v) "true"); [contradiction|].
  destruct (String.eqb_spec (Py.lower v) "false"); [contradiction|].
  rewrite Hd. reflexivity.
Qed.

Lemma markerless_app_value (name v : string) :
  markerless name -> markerless v -> markerless (name ++ String " " v).
Proof.
  intros Hn Hv. induction name as [|c n IH].
  - apply markerless_cons_other; [reflexivity|exact Hv].
  - apply markerless_cons in Hn. destruct Hn as [Hp Hn].
    cbn [append]. apply markerless_cons. split; [|exact (IH Hn)].
    rewrite starts_marker_cons in Hp |- *.
    destruct (Ascii.eqb "-" c); [|reflexivity].
    destruct n; [reflexivity|exact Hp].
Qed.

Lemma rstrip_app_space (u : string) : Py.rstrip (u ++ " ") = Py.rstrip u.
Proof.
  induction u as [|c u IH]; [reflexivity|].
  cbn [append Py.rstrip]. rewrite IH. reflexivity.
Qed.

Lemma strip_app_space (t : string) : Py.strip (t ++ " ") = Py.strip t.
Proof.
  unfold Py.strip. induction t as [|c t IH]; [reflexivity|].
  cbn [append Py.lstrip]. destruct (Py.isspace c); [exact IH|].
  apply (rstrip_app_space (String c t)).
Qed.

(** The tokens of ['text --name value']. *)
Lemma parse_single_flag (text name v : string) :
  markerless text -> markerless name -> markerless v ->
  name <> "" -> spaceless name = true ->
  v <> "" -> Py.strip v = v -> uncoerced v ->
  parse_command_params (text ++ " --" ++ name ++ String " " v)
  = dict_set name (VStr v) [("prompt", VStr (Py.strip text))].
Proof.
  intros Ht Hn Hv Hname Hsp Hne Hfix Hun.
  set (unit_ := name ++ String " " v).
  assert (Hfind : Py.find (text ++ " --" ++ unit_) "--"
                  = Z.of_nat (String.length text + 1)).
  { unfold Py.find. rewrite (find_after_text _ _ Ht). reflexivity. }
  assert (Hassoc : text ++ " --" ++ unit_ = (text ++ " ") ++ "--" ++ unit_).
  { clear. induction text as [|c t IH]; cbn [append]; [reflexivity|].
    f_equal. exact IH. }
  assert (Hlen : (String.length text + 1)%nat = String.length (text ++ " ")).
  { clear. induction text as [|c t IH]; cbn [append String.length];
      [reflexivity|]. lia. }
  unfold parse_command_params. rewrite parse_try_marker by (rewrite Hfind; lia).
  unfold flag_units, prompt_part, Py.slice_to, Py.slice_from.
  rewrite Hfind, Nat2Z.id, Hlen, Hassoc, take_app, drop_app.
  assert (Hstrip : Py.strip ("--" ++ unit_) = "--" ++ unit_).
  { change ("--" ++ unit_) with (("--" ++ name) ++ String " " v).
    apply strip_name_value; auto. discriminate. }
  rewrite Hstrip, split_marker_first. subst unit_.
  rewrite (split_markerless _ (markerless_app_value _ _ Hn Hv)).
  cbn [tl]. rewrite parse_tokens_cons. unfold unit_name, unit_value.
  rewrite (unit_pieces _ _ Hname Hsp Hne Hfix).
  cbn [hd_error]. rewrite (convert_value_uncoerced _ Hun). cbn [rbind ok].
  cbn [parse_tokens ok]. rewrite strip_app_space. reflexivity.
Qed.

(** ** The request *)

Lemma bind_val_inv {A B} (m : outcome A) (f : A -> outcome B) (b : B) :
  bind m f = Val b -> exists a, m = Val a /\ f a = Val b.
Proof. destruct m; cbn; try discriminate. eauto. Qed.

Lemma lift_val_inv {A} (r : result A) (a : A) : lift r = Val a -> r = inr a.
Proof. destruct r; cbn; congruence. Qed.

Ltac step H :=
  let x := fresh "x" in
  let Hx := fresh "Hx" in
  apply bind_val_inv in H; destruct H as (x & Hx & H);
  try apply lift_val_inv in Hx.

(** A conditional assignment of the shape
    [if k in params: input_params[k] = ...]. *)
Ltac stage Hst :=
  match type of Hst with
  | (if ?c then _ else _) = Val _ =>
      destruct c;
      [ repeat step Hst; injection Hst as <-; right; eexists; reflexivity
      | injection Hst as <-; left; reflexivity ]
  end.

(** The payload of a request is built from the prompt and the aspect
    ratio by the optional assignments, in the order of the code. *)
Lemma request_chain gcm up (msg : string) (p : payload) :
  request gcm up msg = Val p ->
  exists prompt ar ip1 ip2 ip3 ip4 ip5 ip6,
    strip_of (get_default "prompt" (VStr "") (parse_command_params msg))
    = inr prompt
    /\ prompt <> ""
    /\ get_aspect_ratio_from_input gcm
         (get_default "aspect_ratio" (VStr "1:1") (parse_command_params msg))
       = inr ar
    /\ extends "image_prompt"
         [("prompt", VStr prompt); ("aspect_ratio", VStr ar)] ip1
    /\ extends_dimensions ar ip1 ip2
    /\ extends "seed" ip2 ip3
    /\ extends "prompt_upsampling" ip3 ip4
    /\ extends "output_format" ip4 ip5
    /\ extends "output_quality" ip5 ip6
    /\ extends "safety_tolerance" ip6 p.
Proof.
  unfold request. intros H.
  step H. rename x into prompt.
  destruct (Py.is_empty prompt) eqn:Hne; [discriminate|].
  step H. rewrite Hx in Hx0. injection Hx0 as <-.
  step H. rename x into ar.
  step H. rename x into ip1.
  assert (H1 : extends "image_prompt"
                 [("prompt", VStr prompt); ("aspect_ratio", VStr ar)] ip1).
  { destruct (dict_mem "image_prompt" (parse_command_params msg));
      [|injection Hx1 as <-; left; reflexivity].
    step Hx1. destruct (negb (validate_image_url up x)); [discriminate|].
    injection Hx1 as <-. right. eexists; reflexivity. }
  step H. rename x into arv.
  assert (Harv : arv = VStr ar).
  { unfold getitem in Hx2.
    assert (Hg : dict_get "aspect_ratio" ip1 = Some (VStr ar)).
    { destruct H1 as [->|[v ->]]; [reflexivity|].
      rewrite dict_get_set_other by discriminate. reflexivity. }
    rewrite Hg in Hx2. injection Hx2 as <-. reflexivity. }
  subst arv. step H. rename x into ip2.
  assert (H2 : extends_dimensions ar ip1 ip2).
  { cbn [py_eq] in Hx3.
    destruct (String.eqb_spec ar "custom") as [->|_];
      [|injection Hx3 as <-; left; reflexivity].
    step Hx3. destruct x as [[w|] [h|]];
      try (injection Hx3 as <-; left; reflexivity).
    destruct (negb (w =? 0)%Z && negb (h =? 0)%Z);
      injection Hx3 as <-; [right|left; reflexivity].
    split; [reflexivity|]. eexists _, _; reflexivity. }
  step H. rename x into ip3.
  assert (H3 : extends "seed" ip2 ip3) by stage Hx4.
  step H. rename x into ip4.
  assert (H4 : extends "prompt_upsampling" ip3 ip4) by stage Hx5.
  step H. rename x into ip5.
  assert (H5 : extends "output_format" ip4 ip5) by stage Hx6.
  step H. rename x into ip6.
  assert (H6 : extends "output_quality" ip5 ip6) by stage Hx7.
  step H. rename x into ip7.
  assert (H7 : extends "safety_tolerance" ip6 ip7) by stage Hx8.
  injection H as <-.
  exists prompt, ar, ip1, ip2, ip3, ip4, ip5, ip6.
  repeat split; auto.
  intros ->. discriminate.
Qed.

Lemma dict_get_set_inv {V} (k k' : string) (v r : V) (d : dict V) :
  dict_get k (dict_set k' v d) = Some r -> r = v \/ dict_get k d = Some r.
Proof.
  destruct (String.eqb_spec k k') as [->|Hne].
  - rewrite dict_get_set_same. intros [= <-]. left; reflexivity.
  - rewrite dict_get_set_other by exact Hne. right; assumption.
Qed.

Lemma dict_of_lowered_get (cs : list string) (m : dict string)
      (k r : string) :
  dict_get k (dict_of_lowered cs m) = Some r ->
  In r cs \/ dict_get k m = Some r.
Proof.
  revert m. induction cs as [|c cs IH]; intros m H; [right; exact H|].
  cbn [dict_of_lowered] in H. destruct (IH _ H) as [Hin|Hm].
  - left; right; exact Hin.
  - destruct (dict_get_set_inv _ _ _ _ _ Hm) as [->|Hd].
    + left; left; reflexivity.
    + right; exact Hd.
Qed.

(** Whatever the matcher answers, a fuzzy match that returns gives a
    candidate or the default. *)
Lemma fuzzy_match_in gcm (v : value) (candidates : list string)
      (default r : string) :
  fuzzy_match gcm v candidates default = inr r ->
  In r candidates \/ r = default.
Proof.
  unfold fuzzy_match. destruct (negb (truthy v));
    [intros [= <-]; right; reflexivity|].
  destruct v as [s| |]; try discriminate.
  destruct (String.eqb (Py.lower s) "none");
    [intros [= <-]; right; reflexivity|].
  destruct (In_b s candidates) eqn:Hin;
    [intros [= <-]; left; apply In_b_In, Hin|].
  destruct (gcm _ _) as [|m ms]; [intros [= <-]; right; reflexivity|].
  unfold getitem.
  destruct (dict_get m (dict_of_lowered candidates [])) as [c|] eqn:Hg;
    [|discriminate].
  intros [= <-]. destruct (dict_of_lowered_get _ _ _ _ Hg) as [H|H];
    [left; exact H|discriminate].
Qed.

Lemma pipe_calls gcm up run txt (msg : string) (p : payload) :
  In p (snd (pipe gcm up run txt msg)) -> request gcm up msg = Val p.
Proof.
  unfold pipe, pipe_try.
  destruct (request gcm up msg) as [ip|r|e]; cbn; try tauto.
  destruct (run ip) as [e|[t|]]; cbn; intros [<-|[]]; reflexivity.
Qed.

Lemma pipe_sends gcm up run txt (msg : string) (p : payload) :
  request gcm up msg = Val p -> snd (pipe gcm up run txt msg) = [p].
Proof.
  intros H. unfold pipe, pipe_try. rewrite H.
  destruct (run p) as [e|[t|]]; reflexivity.
Qed.

Ltac chain H :=
  destruct (request_chain _ _ _ _ H)
    as (prompt & ar & ip1 & ip2 & ip3 & ip4 & ip5 & ip6 & Hprompt & Hne
        & Har & H1 & H2 & H3 & H4 & H5 & H6 & H7).

Ltac unchain :=
  match goal with
  | H1 : extends _ _ _, H2 : extends_dimensions _ _ _, H3 : extends _ _ _,
    H4 : extends _ _ _, H5 : extends _ _ _, H6 : extends _ _ _,
    H7 : extends _ _ _ |- _ =>
      destruct H7 as [->|[? ->]], H6 as [->|[? ->]], H5 as [->|[? ->]],
        H4 as [->|[? ->]], H3 as [->|[? ->]],
        H2 as [->|(-> & ? & ? & ->)], H1 as [->|[? ->]]
  end.

(** The keys of a payload follow the order of the assignments in [pipe]. *)
Lemma request_keys_in_order gcm up (msg : string) (p : payload) :
  request gcm up msg = Val p -> in_order (keys p) assignment_order = true.
Proof. intros H. chain H. unchain; reflexivity. Qed.

Lemma strip_of_trimmed (v : value) (prompt : string) :
  strip_of v = inr prompt -> Py.strip prompt = prompt.
Proof.
  destruct v; cbn; try discriminate. intros [= <-]. apply strip_idem.
Qed.

Lemma aspect_ratio_in gcm (v : value) (ar : string) :
  get_aspect_ratio_from_input gcm v = inr ar ->
  In ar AVAILABLE_ASPECT_RATIOS.
Proof.
  intros H. destruct (fuzzy_match_in _ _ _ _ _ H) as [Hin| ->];
    [exact Hin|cbn; tauto].
Qed.

(** C8.  Every payload handed to the remote service holds a prompt that is
    non-empty and trimmed and an aspect ratio of the fixed list; [width]
    and [height] are there only for the ratio 'custom', and both or
    neither. *)
Theorem sent_payload_invariant gcm up run txt (msg : string) (p : payload) :
  In p (snd (pipe gcm up run txt msg)) ->
  (exists prompt,
      dict_get "prompt" p = Some (VStr prompt)
      /\ prompt <> "" /\ Py.strip prompt = prompt)
  /\ (exists ar,
         dict_get "aspect_ratio" p = Some (VStr ar)
         /\ In ar AVAILABLE_ASPECT_RATIOS
         /\ (dict_mem "width" p = true \/ dict_mem "height" p = true ->
             ar = "custom"))
  /\ dict_mem "width" p = dict_mem "height" p.
Proof.
  intros Hin. apply pipe_calls in Hin. chain Hin.
  pose proof (strip_of_trimmed _ _ Hprompt) as Htrim.
  pose proof (aspect_ratio_in _ _ _ Har) as Hin_ar.
  split; [exists prompt|split; [exists ar|]].
  - split; [|split; assumption]. unchain; reflexivity.
  - split; [|split; [exact Hin_ar|]].
    + unchain; reflexivity.
    + unchain; cbn; intros [Hw|Hh]; try discriminate; reflexivity.
  - unchain; reflexivity.
Qed.

Lemma sent_payload_invariant_witness :
  (exists prompt,
      dict_get "prompt"
        [("prompt", VStr "A cat"); ("aspect_ratio", VStr "custom");
         ("width", VInt 512); ("height", VInt 768)]
      = Some (VStr prompt)
      /\ prompt <> "" /\ Py.strip prompt = prompt)
  /\ (exists ar,
         dict_get "aspect_ratio"
           [("prompt", VStr "A cat"); ("aspect_ratio", VStr "custom");
            ("width", VInt 512); ("height", VInt 768)]
         = Some (VStr ar)
         /\ In ar AVAILABLE_ASPECT_RATIOS
         /\ (dict_mem "width"
               [("prompt", VStr "A cat"); ("aspect_ratio", VStr "custom");
                ("width", VInt 512); ("height", VInt 768)] = true
             \/ dict_mem "height"
                  [("prompt", VStr "A cat"); ("aspect_ratio", VStr "custom");
                   ("width", VInt 512); ("height", VInt 768)] = true ->
             ar = "custom"))
  /\ dict_mem "width"
       [("prompt", VStr "A cat"); ("aspect_ratio", VStr "custom");
        ("width", VInt 512); ("height", VInt 768)]
     = dict_mem "height"
         [("prompt", VStr "A cat"); ("aspect_ratio", VStr "custom");
          ("width", VInt 512); ("height", VInt 768)].
Proof.
  apply (sent_payload_invariant
           Instances.get_close_matches Instances.urlparse
           (Instances.client_run Instances.image) Instances.exn_text
           "A cat --aspect_ratio custm --width 500 --height 777").
  vm_compute. left. reflexivity.
Defined.

(** C3, on the code.  The payload for 'A cat --seed 7 --safety_tolerance 3'
    has [safety_tolerance] after [seed], and the payload for a message with
    an image prompt has [image_prompt] after [aspect_ratio]: the keys are
    not in the order of the schema. *)
Theorem payload_keys_out_of_schema_order gcm up run txt :
  snd (pipe gcm up run txt "A cat --seed 7 --safety_tolerance 3")
  = [[("prompt", VStr "A cat"); ("aspect_ratio", VStr "1:1");
      ("seed", VInt 7); ("safety_tolerance", VInt 3)]]
  /\ in_order ["prompt"; "aspect_ratio"; "seed"; "safety_tolerance"]
              schema_order = false
  /\ map keys (snd (Instances.respond Instances.image
                      "A cat --image_prompt https://x.com/a.png"))
     = [["prompt"; "aspect_ratio"; "image_prompt"]]
  /\ in_order ["prompt"; "aspect_ratio"; "image_prompt"] schema_order = false.
Proof.
  split; [|repeat split; reflexivity].
  apply pipe_sends. reflexivity.
Qed.

(** The order the code does keep: the keys of every payload handed to the
    remote service follow the order of the assignments in [pipe]. *)
Lemma sent_keys_in_assignment_order gcm up run txt (msg : string)
      (p : payload) :
  In p (snd (pipe gcm up run txt msg)) ->
  in_order (keys p) assignment_order = true.
Proof. intros H. apply pipe_calls in H. exact (request_keys_in_order _ _ _ _ H). Qed.

(** ** Validation errors and failures *)





(** The same flag is lost with all the others when the tokenizer falls back
    to the whole message, here on a flag without a value. *)
Example dropped_image_prompt_is_sent :
  parse_command_params "A cat --image_prompt not-a-url --fast"
  = [("prompt", VStr "A cat --image_prompt not-a-url --fast")]
  /\ Instances.respond Instances.image "A cat --image_prompt not-a-url --fast"
     = ("![image](https://replicate.delivery/out.webp)" ++ nl,
        [[("prompt", VStr "A cat --image_prompt not-a-url --fast");
          ("aspect_ratio", VStr "1:1")]]).
Proof. split; reflexivity. Qed.

(** C9.  [pipe] is a total function to a text.  When the tokenizer's
    block raises, the parsed parameters are the whole trimmed message as
    the prompt and nothing else; when building the request raises, or the
    remote service raises on the payload it was handed, [pipe] returns
    'Error generating image: ' followed by the text of the exception. *)
Theorem failures_become_text gcm up run txt (msg : string) :
  (forall e, parse_try msg = inl e ->
             parse_command_params msg = [("prompt", VStr (Py.strip msg))])
  /\ (forall e, request gcm up msg = Raise e ->
                pipe gcm up run txt msg
                = ("Error generating image: " ++ txt e, []))
  /\ (forall p e, request gcm up msg = Val p -> run p = inl e ->
                  pipe gcm up run txt msg
                  = ("Error generating image: " ++ txt e, [p])).
Proof.
  split; [|split].
  - intros e H. unfold parse_command_params. rewrite H. reflexivity.
  - intros e H. unfold pipe, pipe_try. rewrite H. reflexivity.
  - intros p e H Hr. unfold pipe, pipe_try. rewrite H, Hr. reflexivity.
Qed.

Lemma failures_become_text_witness :
  parse_command_params "a cat --fast" = [("prompt", VStr "a cat --fast")]
  /\ Instances.respond Instances.image "a cat --seed soon"
     = ("Error generating image: invalid literal for int() with base 10: 'soon'",
        [])
  /\ Instances.respond (raise (ServiceError "quota exceeded")) "a cat"
     = ("Error generating image: quota exceeded",
        [[("prompt", VStr "a cat"); ("aspect_ratio", VStr "1:1")]]).
Proof.
  split; [|split].
  - apply (proj1 (failures_become_text
                    Instances.get_close_matches Instances.urlparse
                    (Instances.client_run Instances.image)
                    Instances.exn_text "a cat --fast")
             (AttributeError "bool" "lower")).
    reflexivity.
  - apply (proj1 (proj2 (failures_become_text
                    Instances.get_close_matches Instances.urlparse
                    (Instances.client_run Instances.image)
                    Instances.exn_text "a cat --seed soon"))
             (ValueError "soon")).
    reflexivity.
  - apply (proj2 (proj2 (failures_become_text
                    Instances.get_close_matches Instances.urlparse
                    (Instances.client_run (raise (ServiceError "quota exceeded")))
                    Instances.exn_text "a cat"))
             [("prompt", VStr "a cat"); ("aspect_ratio", VStr "1:1")]
             (ServiceError "quota exceeded"));
      reflexivity.
Defined.

(** ** The [prompt] flag *)

Lemma request_prompt_only gcm up (msg q : string) :
  parse_command_params msg = [("prompt", VStr q)] ->
  Py.strip q <> "" ->
  request gcm up msg
  = Val [("prompt", VStr (Py.strip q)); ("aspect_ratio", VStr "1:1")].
Proof.
  intros Hp Hq. unfold request. rewrite Hp.
  change (get_default "prompt" (VStr "") [("prompt", VStr q)])
    with (VStr q).
  cbn [strip_of lift bind ok].
  destruct (Py.strip q) as [|c t]; [congruence|]. reflexivity.
Qed.

(** C10, as the code has it.  In 'text --prompt V', where the text holds
    no marker and V is a non-empty trimmed value that holds no marker and
    that type coercion leaves a string, the parsed prompt is V and so is
    the prompt of the payload handed to the remote service.  Whenever
    tokenizing succeeds, the value stored under a name is the coerced
    value of the last flag unit with that name. *)
Theorem prompt_flag_overrides gcm up run txt :
  (forall text v : string,
      markerless text -> markerless v -> v <> "" -> Py.strip v = v ->
      uncoerced v ->
      parse_command_params (text ++ " --prompt " ++ v) = [("prompt", VStr v)]
      /\ snd (pipe gcm up run txt (text ++ " --prompt " ++ v))
         = [[("prompt", VStr v); ("aspect_ratio", VStr "1:1")]])
  /\ (forall (msg : string) (params : dict value) before tok after name,
         Py.find msg "--" <> (-1)%Z ->
         parse_try msg = inr params ->
         flag_units msg = (before ++ tok :: after)%list ->
         unit_name tok = Some name ->
         (forall t, In t after -> unit_name t <> Some name) ->
         exists x, convert_value (unit_value tok) = inr x
                   /\ dict_get name (parse_command_params msg) = Some x).
Proof.
  split.
  - intros text v Ht Hv Hne Hfix Hun.
    assert (Hp : parse_command_params (text ++ " --prompt " ++ v)
                 = [("prompt", VStr v)]).
    { change (text ++ " --prompt " ++ v)
        with (text ++ " --" ++ "prompt" ++ String " " v).
      rewrite parse_single_flag; auto; try reflexivity. discriminate. }
    split; [exact Hp|].
    apply pipe_sends. rewrite (request_prompt_only _ _ _ _ Hp);
      rewrite Hfix; [reflexivity|exact Hne].
  - intros msg params before tok after name Hm Hp Hu Hn Hafter.
    unfold parse_command_params. rewrite Hp.
    rewrite (parse_try_marker _ Hm), Hu in Hp.
    exact (parse_tokens_last _ _ _ _ _ _ Hp Hn Hafter).
Qed.

Lemma prompt_flag_overrides_witness :
  (parse_command_params "a cat --prompt a dog" = [("prompt", VStr "a dog")]
   /\ snd (Instances.respond Instances.image "a cat --prompt a dog")
      = [[("prompt", VStr "a dog"); ("aspect_ratio", VStr "1:1")]])
  /\ exists x, convert_value (unit_value "seed 2") = inr x
               /\ dict_get "seed"
                    (parse_command_params "a cat --seed 1 --seed 2 --x y")
                  = Some x.
Proof.
  split.
  - apply (proj1 (prompt_flag_overrides
                    Instances.get_close_matches Instances.urlparse
                    (Instances.client_run Instances.image)
                    Instances.exn_text) "a cat" "a dog");
      try reflexivity; try discriminate.
    repeat split; discriminate.
  - apply (proj2 (prompt_flag_overrides
                    Instances.get_close_matches Instances.urlparse
                    (Instances.client_run Instances.image)
                    Instances.exn_text)
             "a cat --seed 1 --seed 2 --x y"
             [("prompt", VStr "a cat"); ("seed", VInt 2); ("x", VStr "y")]
             ["seed 1 "] "seed 2 " ["x y"] "seed").
    + vm_compute. discriminate.
    + reflexivity.
    + reflexivity.
    + reflexivity.
    + intros t [<-|[]]. vm_compute. discriminate.
Defined.

(** C10, as stated, fails: in 'a cat --prompt 42' the value is coerced, so
    the parsed prompt is the integer 42 and not the text, and no request
    leaves. *)
Lemma prompt_flag_digits :
  dict_get "prompt" (parse_command_params "a cat --prompt 42")
  = Some (VInt 42)
  /\ dict_get "prompt" (parse_command_params "a cat --prompt 42")
     <> Some (VStr "42")
  /\ Instances.respond Instances.image "a cat --prompt 42"
     = ("Error generating image: 'int' object has no attribute 'strip'", []).
Proof. repeat split. vm_compute. discriminate. Qed.

(** ** The examples of the specification *)

Example convert_value_examples :
  convert_value (VStr "true") = ok (VBool true)
  /\ convert_value (VStr "TRUE") = ok (VBool true)
  /\ convert_value (VStr "42") = ok (VInt 42)
  /\ convert_value (VStr "abc") = ok (VStr "abc").
Proof. repeat split; reflexivity. Qed.

Example tokenizer_examples :
  parse_command_params "  a quiet harbour  "
  = [("prompt", VStr "a quiet harbour")]
  /\ parse_command_params "A cat --a x --b y"
     = [("prompt", VStr "A cat"); ("a", VStr "x"); ("b", VStr "y")]
  /\ parse_command_params "A cat --seed 7 --seed 8"
     = [("prompt", VStr "A cat"); ("seed", VInt 8)].
Proof. repeat split; reflexivity. Qed.

Example fuzzy_match_example :
  get_aspect_ratio_from_input Instances.get_close_matches (VStr "16x9")
  = ok "16:9".
Proof. reflexivity. Qed.

Example validate_dimensions_examples :
  validate_dimensions (Some (VInt 100)) (Some (VInt 2000))
  = ok (Some 256%Z, Some 1440%Z)
  /\ validate_dimensions None (Some (VInt 500)) = ok (None, None).
Proof. split; reflexivity. Qed.

Example validate_image_url_examples :
  validate_image_url Instances.urlparse (VStr "https://x.com/a.png") = true
  /\ validate_image_url Instances.urlparse (VStr "https://x.com/a.txt") = false
  /\ validate_image_url Instances.urlparse (VStr "not a url") = false.
Proof. repeat split; reflexivity. Qed.

Example end_to_end_examples :
  Instances.respond Instances.image "A cat --aspect_ratio 16:9 --seed 7"
  = ("![image](https://replicate.delivery/out.webp)" ++ nl,
     [[("prompt", VStr "A cat"); ("aspect_ratio", VStr "16:9");
       ("seed", VInt 7)]])
  /\ Instances.respond (ok None) "A cat"
     = ("No image was generated.",
        [[("prompt", VStr "A cat"); ("aspect_ratio", VStr "1:1")]]).
Proof. split; reflexivity. Qed.

(** * Further properties *)

(** ** Dimensions of any kind *)

Lemma py_min_bound (a : Z) (v m : value) :
  py_min a v = inr m ->
  exists z x, as_int v = Some x /\ as_int m = Some z /\ z = Z.min a x.
Proof.
  unfold py_min. destruct (as_int v) as [x|] eqn:Hv; [|discriminate].
  intros [= <-]. destruct (Z.ltb_spec x a).
  - exists x, x. rewrite Hv. repeat split; lia.
  - exists a, x. cbn. repeat split; lia.
Qed.

Lemma py_max_bound (a : Z) (v m : value) :
  py_max a v = inr m ->
  exists z x, as_int v = Some x /\ as_int m = Some z /\ z = Z.max a x.
Proof.
  unfold py_max. destruct (as_int v) as [x|] eqn:Hv; [|discriminate].
  intros [= <-]. destruct (Z.ltb_spec a x).
  - exists x, x. rewrite Hv. repeat split; lia.
  - exists a, x. cbn. repeat split; lia.
Qed.

(** A dimension that went through the clamp and the rounding: the integer
    the argument stands for, clamped and rounded. *)
Lemma clamp_round (v : value) (r : Z) :
  (m <~ py_min 1440 v ;; m' <~ py_max 256 m ;; round_to_32 m') = inr r ->
  exists x, as_int v = Some x
            /\ r = (py_round_div (clamp 256 1440 x) 32 * 32)%Z.
Proof.
  destruct (py_min 1440 v) as [e|m] eqn:Hmin; [discriminate|].
  cbn [rbind]. destruct (py_max 256 m) as [e|m'] eqn:Hmax; [discriminate|].
  cbn [rbind]. unfold round_to_32.
  destruct (py_min_bound _ _ _ Hmin) as (z & x & Hx & Hz & Ez).
  destruct (py_max_bound _ _ _ Hmax) as (z' & y & Hy & Hz' & Ez').
  rewrite Hz in Hy. injection Hy as <-. rewrite Hz'.
  intros [= <-]. exists x. split; [exact Hx|]. unfold clamp. subst.
  reflexivity.
Qed.

Lemma validate_dimensions_values (width height : value) (w h : option Z) :
  validate_dimensions (Some width) (Some height) = inr (w, h) ->
  exists x y,
    as_int width = Some x /\ as_int height = Some y
    /\ w = Some (py_round_div (clamp 256 1440 x) 32 * 32)%Z
    /\ h = Some (py_round_div (clamp 256 1440 y) 32 * 32)%Z.
Proof.
  unfold validate_dimensions. intros H.
  destruct (py_min 1440 width) as [e|a] eqn:Ha; [discriminate|].
  cbn [rbind] in H.
  destruct (py_max 256 a) as [e|a'] eqn:Ha'; [discriminate|].
  cbn [rbind] in H.
  destruct (py_min 1440 height) as [e|b] eqn:Hb; [discriminate|].
  cbn [rbind] in H.
  destruct (py_max 256 b) as [e|b'] eqn:Hb'; [discriminate|].
  cbn [rbind] in H.
  destruct (round_to_32 a') as [e|rw] eqn:Hrw; [discriminate|].
  cbn [rbind] in H.
  destruct (round_to_32 b') as [e|rh] eqn:Hrh; [discriminate|].
  cbn [rbind] in H. injection H as <- <-.
  destruct (clamp_round width rw) as (x & Hx & ->).
  { rewrite Ha. cbn [rbind]. rewrite Ha'. exact Hrw. }
  destruct (clamp_round height rh) as (y & Hy & ->).
  { rewrite Hb. cbn [rbind]. rewrite Hb'. exact Hrh. }
  exists x, y. auto.
Qed.

Lemma validate_dimensions_flux (width height : option value) (w h : Z) :
  validate_dimensions width height = inr (Some w, Some h) ->
  flux_dimension w /\ flux_dimension h.
Proof.
  destruct width as [wv|], height as [hv|]; try discriminate.
  intros H. destruct (validate_dimensions_values _ _ _ _ H)
    as (x & y & _ & _ & [= ->] & [= ->]).
  split; apply py_round_div_32_range, clamp_range; lia.
Qed.

Lemma validate_dimensions_both_nonzero (width height : option value)
      (w h : Z) :
  validate_dimensions width height = inr (Some w, Some h) ->
  (w =? 0)%Z = false /\ (h =? 0)%Z = false.
Proof.
  intros H. destruct (validate_dimensions_flux _ _ _ _ H) as [[Hw _] [Hh _]].
  split; apply Z.eqb_neq; lia.
Qed.

(** ** How a request is built *)

Ltac assigned_stage Hst :=
  unfold assigned; unfold dict_mem, getitem in Hst;
  match type of Hst with
  | context [dict_get ?k ?d] => destruct (dict_get k d) as [?v|]
  end;
  [ cbn [lift bind ok] in Hst; repeat step Hst; injection Hst as <-;
    eexists; split; [|reflexivity];
    unfold seed_of, upsampling_of, quality_of, tolerance_of;
    repeat match goal with
           | Hr : ?t = inr _ |- context [?t] => rewrite Hr; cbn [rbind]
           end;
    reflexivity
  | injection Hst as <-; reflexivity ].

(** Every stage of a request that was built, with the parsed value it
    read and the value it stored. *)
Lemma request_trace gcm up (msg : string) (p : payload) :
  request gcm up msg = Val p ->
  let params := parse_command_params msg in
  exists prompt ar ip1 ip2 ip3 ip4 ip5 ip6,
    strip_of (get_default "prompt" (VStr "") params) = inr prompt
    /\ prompt <> ""
    /\ get_aspect_ratio_from_input gcm
         (get_default "aspect_ratio" (VStr "1:1") params) = inr ar
    /\ assigned "image_prompt" params
         (fun v => if validate_image_url up v then ok v
                   else raise (ValueError ""))
         [("prompt", VStr prompt); ("aspect_ratio", VStr ar)] ip1
    /\ assigned_dimensions ar params ip1 ip2
    /\ assigned "seed" params seed_of ip2 ip3
    /\ assigned "prompt_upsampling" params upsampling_of ip3 ip4
    /\ assigned "output_format" params
         (fun v => f <~ get_output_format_from_input gcm v ;; ok (VStr f))
         ip4 ip5
    /\ assigned "output_quality" params quality_of ip5 ip6
    /\ assigned "safety_tolerance" params tolerance_of ip6 p.
Proof.
  intros H params. unfold request in H. fold params in H.
  step H. rename x into prompt.
  destruct (Py.is_empty prompt) eqn:Hne; [discriminate|].
  step H. rewrite Hx in Hx0. injection Hx0 as <-.
  step H. rename x into ar.
  step H. rename x into ip1.
  assert (H1 : assigned "image_prompt" params
                 (fun v => if validate_image_url up v then ok v
                           else raise (ValueError ""))
                 [("prompt", VStr prompt); ("aspect_ratio", VStr ar)] ip1).
  { unfold assigned. unfold dict_mem, getitem in Hx1.
    destruct (dict_get "image_prompt" params) as [v|];
      [|injection Hx1 as <-; reflexivity].
    cbn [lift bind ok] in Hx1.
    destruct (validate_image_url up v); [|discriminate].
    injection Hx1 as <-. eexists; split; reflexivity. }
  step H. rename x into arv.
  assert (Harv : arv = VStr ar).
  { unfold getitem in Hx2.
    assert (Hg : dict_get "aspect_ratio" ip1 = Some (VStr ar)).
    { unfold assigned in H1.
      destruct (dict_get "image_prompt" params) as [v|].
      - destruct H1 as (x & _ & ->).
        rewrite dict_get_set_other by discriminate. reflexivity.
      - rewrite H1. reflexivity. }
    rewrite Hg in Hx2. injection Hx2 as <-. reflexivity. }
  subst arv. step H. rename x into ip2.
  assert (H2 : assigned_dimensions ar params ip1 ip2).
  { unfold assigned_dimensions. cbn [py_eq] in Hx3.
    destruct (String.eqb ar "custom");
      [|injection Hx3 as <-; reflexivity].
    step Hx3. exists x. split; [exact Hx4|].
    destruct x as [[w|] [h|]]; try (injection Hx3 as <-; reflexivity).
    destruct (validate_dimensions_both_nonzero _ _ _ _ Hx4) as [Hw Hh].
    rewrite Hw, Hh in Hx3. injection Hx3 as <-. reflexivity. }
  step H. rename x into ip3.
  assert (H3 : assigned "seed" params seed_of ip2 ip3)
    by assigned_stage Hx4.
  step H. rename x into ip4.
  assert (H4 : assigned "prompt_upsampling" params upsampling_of ip3 ip4)
    by assigned_stage Hx5.
  step H. rename x into ip5.
  assert (H5 : assigned "output_format" params
                 (fun v => f <~ get_output_format_from_input gcm v ;;
                           ok (VStr f)) ip4 ip5)
    by assigned_stage Hx6.
  step H. rename x into ip6.
  assert (H6 : assigned "output_quality" params quality_of ip5 ip6)
    by assigned_stage Hx7.
  step H. rename x into ip7.
  assert (H7 : assigned "safety_tolerance" params tolerance_of ip6 ip7)
    by assigned_stage Hx8.
  injection H as <-.
  exists prompt, ar, ip1, ip2, ip3, ip4, ip5, ip6.
  repeat split; auto.
  intros ->. discriminate.
Qed.

Lemma assigned_other (k k' : string) params f (before after : payload) :
  assigned k params f before after -> k' <> k ->
  dict_get k' after = dict_get k' before.
Proof.
  unfold assigned. intros H Hne.
  destruct (dict_get k params); [|subst; reflexivity].
  destruct H as (x & _ & ->). apply dict_get_set_other, Hne.
Qed.

Lemma assigned_stored (k : string) params f (before after : payload) :
  assigned k params f before after -> dict_get k before = None ->
  stored k params f after.
Proof.
  unfold assigned, stored. intros H Hb.
  destruct (dict_get k params); [|subst; exact Hb].
  destruct H as (x & Hf & ->). exists x. split; [exact Hf|].
  apply dict_get_set_same.
Qed.

Lemma stored_other (k k' : string) params f g (before after : payload) :
  stored k params f before -> assigned k' params g before after ->
  k <> k' -> stored k params f after.
Proof.
  unfold stored. intros H Ha Hne.
  rewrite (assigned_other _ _ _ _ _ _ Ha Hne). exact H.
Qed.

Lemma assigned_dimensions_other (ar k : string) params
      (before after : payload) :
  assigned_dimensions ar params before after ->
  k <> "width" -> k <> "height" ->
  dict_get k after = dict_get k before.
Proof.
  unfold assigned_dimensions. intros H Hw Hh.
  destruct (String.eqb ar "custom"); [|subst; reflexivity].
  destruct H as (dims & _ & ->).
  destruct dims as [[w|] [h|]]; try reflexivity.
  rewrite !dict_get_set_other by assumption. reflexivity.
Qed.

Ltac trace H :=
  destruct (request_trace _ _ _ _ H)
    as (prompt & ar & ip1 & ip2 & ip3 & ip4 & ip5 & ip6 & Hprompt & Hne
        & Har & H1 & H2 & H3 & H4 & H5 & H6 & H7).

(** What a payload holds under each optional key but the dimensions. *)
Lemma request_stored gcm up (msg : string) (p : payload) :
  request gcm up msg = Val p ->
  let params := parse_command_params msg in
  stored "image_prompt" params
    (fun v => if validate_image_url up v then ok v
              else raise (ValueError "")) p
  /\ stored "seed" params seed_of p
  /\ stored "prompt_upsampling" params upsampling_of p
  /\ stored "output_format" params
       (fun v => f <~ get_output_format_from_input gcm v ;; ok (VStr f)) p
  /\ stored "output_quality" params quality_of p
  /\ stored "safety_tolerance" params tolerance_of p.
Proof.
  intros H params. trace H. fold params in H1, H2, H3, H4, H5, H6, H7.
  assert (S1 : stored "image_prompt" params
                 (fun v => if validate_image_url up v then ok v
                           else raise (ValueError "")) ip1)
    by (eapply assigned_stored; [exact H1|reflexivity]).
  assert (S3 : stored "seed" params seed_of ip3).
  { eapply assigned_stored; [exact H3|].
    rewrite (assigned_dimensions_other _ _ _ _ _ H2) by discriminate.
    rewrite (assigned_other _ _ _ _ _ _ H1) by discriminate. reflexivity. }
  assert (S4 : stored "prompt_upsampling" params upsampling_of ip4).
  { eapply assigned_stored; [exact H4|].
    rewrite (assigned_other _ _ _ _ _ _ H3) by discriminate.
    rewrite (assigned_dimensions_other _ _ _ _ _ H2) by discriminate.
    rewrite (assigned_other _ _ _ _ _ _ H1) by discriminate. reflexivity. }
  assert (S5 : stored "output_format" params
                 (fun v => f <~ get_output_format_from_input gcm v ;;
                           ok (VStr f)) ip5).
  { eapply assigned_stored; [exact H5|].
    rewrite (assigned_other _ _ _ _ _ _ H4) by discriminate.
    rewrite (assigned_other _ _ _ _ _ _ H3) by discriminate.
    rewrite (assigned_dimensions_other _ _ _ _ _ H2) by discriminate.
    rewrite (assigned_other _ _ _ _ _ _ H1) by discriminate. reflexivity. }
  assert (S6 : stored "output_quality" params quality_of ip6).
  { eapply assigned_stored; [exact H6|].
    rewrite (assigned_other _ _ _ _ _ _ H5) by discriminate.
    rewrite (assigned_other _ _ _ _ _ _ H4) by discriminate.
    rewrite (assigned_other _ _ _ _ _ _ H3) by discriminate.
    rewrite (assigned_dimensions_other _ _ _ _ _ H2) by discriminate.
    rewrite (assigned_other _ _ _ _ _ _ H1) by discriminate. reflexivity. }
  assert (S7 : stored "safety_tolerance" params tolerance_of p).
  { eapply assigned_stored; [exact H7|].
    rewrite (assigned_other _ _ _ _ _ _ H6) by discriminate.
    rewrite (assigned_other _ _ _ _ _ _ H5) by discriminate.
    rewrite (assigned_other _ _ _ _ _ _ H4) by discriminate.
    rewrite (assigned_other _ _ _ _ _ _ H3) by discriminate.
    rewrite (assigned_dimensions_other _ _ _ _ _ H2) by discriminate.
    rewrite (assigned_other _ _ _ _ _ _ H1) by discriminate. reflexivity. }
  repeat split.
  - unfold stored in *.
    rewrite (assigned_other _ _ _ _ _ _ H7) by discriminate.
    rewrite (assigned_other _ _ _ _ _ _ H6) by discriminate.
    rewrite (assigned_other _ _ _ _ _ _ H5) by discriminate.
    rewrite (assigned_other _ _ _ _ _ _ H4) by discriminate.
    rewrite (assigned_other _ _ _ _ _ _ H3) by discriminate.
    rewrite (assigned_dimensions_other _ _ _ _ _ H2) by discriminate.
    exact S1.
  - unfold stored in *.
    rewrite (assigned_other _ _ _ _ _ _ H7) by discriminate.
    rewrite (assigned_other _ _ _ _ _ _ H6) by discriminate.
    rewrite (assigned_other _ _ _ _ _ _ H5) by discriminate.
    rewrite (assigned_other _ _ _ _ _ _ H4) by discriminate.
    exact S3.
  - unfold stored in *.
    rewrite (assigned_other _ _ _ _ _ _ H7) by discriminate.
    rewrite (assigned_other _ _ _ _ _ _ H6) by discriminate.
    rewrite (assigned_other _ _ _ _ _ _ H5) by discriminate.
    exact S4.
  - unfold stored in *.
    rewrite (assigned_other _ _ _ _ _ _ H7) by discriminate.
    rewrite (assigned_other _ _ _ _ _ _ H6) by discriminate.
    exact S5.
  - unfold stored in *.
    rewrite (assigned_other _ _ _ _ _ _ H7) by discriminate.
    exact S6.
  - exact S7.
Qed.

Lemma stored_lookup (k : string) params f (p : payload) (v : value) :
  stored k params f p -> dict_get k p = Some v ->
  exists v0, dict_get k params = Some v0 /\ f v0 = inr v.
Proof.
  unfold stored. destruct (dict_get k params) as [v0|]; [|congruence].
  intros (x & Hf & Hx) Hv. rewrite Hx in Hv. injection Hv as <-.
  exists v0. auto.
Qed.

Lemma stored_mem (k : string) params f (p : payload) :
  stored k params f p -> dict_mem k p = dict_mem k params.
Proof.
  unfold stored, dict_mem. destruct (dict_get k params).
  - intros (x & _ & ->). reflexivity.
  - intros ->. reflexivity.
Qed.

Lemma quality_of_range (v x : value) :
  quality_of v = inr x -> exists z, as_int x = Some z /\ (0 <= z <= 100)%Z.
Proof.
  unfold quality_of. destruct (py_max 0 v) as [e|m] eqn:Hm; [discriminate|].
  cbn [rbind]. intros Hx.
  destruct (py_max_bound _ _ _ Hm) as (a & b & _ & Ha & ->).
  destruct (py_min_bound _ _ _ Hx) as (c & d & Hd & Hc & ->).
  rewrite Ha in Hd. injection Hd as <-. exists (Z.min 100 (Z.max 0 b)).
  split; [exact Hc|lia].
Qed.

Lemma tolerance_of_range (v x : value) :
  tolerance_of v = inr x -> exists z, x = VInt z /\ (1 <= z <= 6)%Z.
Proof.
  unfold tolerance_of, py_max, py_min.
  destruct v as [s|b|z]; cbn [as_int rbind ok]; [discriminate| |].
  - intros H. exists 1%Z. split; [|lia].
    destruct b; vm_compute in H; injection H as <-; reflexivity.
  - destruct (Z.ltb_spec 1 z); cbn [rbind as_int].
    + destruct (Z.ltb_spec z 6); intros [= <-]; eexists; split;
        try reflexivity; lia.
    + cbn. intros [= <-]. exists 1%Z. split; [reflexivity|lia].
Qed.

(** ** What the payload holds *)

(** X18.  In every payload handed to the remote service, [output_quality] stands
    for an integer between 0 and 100 and [safety_tolerance] is an integer
    between 1 and 6, whatever the message asked for. *)
Theorem sent_numbers_are_clamped gcm up run txt (msg : string)
        (p : payload) :
  In p (snd (pipe gcm up run txt msg)) ->
  (forall v, dict_get "output_quality" p = Some v ->
             exists z, as_int v = Some z /\ (0 <= z <= 100)%Z)
  /\ (forall v, dict_get "safety_tolerance" p = Some v ->
                exists z, v = VInt z /\ (1 <= z <= 6)%Z).
Proof.
  intros Hin. apply pipe_calls in Hin.
  destruct (request_stored _ _ _ _ Hin) as (_ & _ & _ & _ & Hq & Ht).
  split; intros v Hv.
  - destruct (stored_lookup _ _ _ _ _ Hq Hv) as (v0 & _ & Hf).
    exact (quality_of_range _ _ Hf).
  - destruct (stored_lookup _ _ _ _ _ Ht Hv) as (v0 & _ & Hf).
    exact (tolerance_of_range _ _ Hf).
Qed.

Lemma sent_numbers_are_clamped_witness :
  (forall v, dict_get "output_quality" Samples.sent = Some v ->
             exists z, as_int v = Some z /\ (0 <= z <= 100)%Z)
  /\ (forall v, dict_get "safety_tolerance" Samples.sent = Some v ->
                exists z, v = VInt z /\ (1 <= z <= 6)%Z).
Proof.
  apply (sent_numbers_are_clamped
           Instances.get_close_matches Instances.urlparse
           (Instances.client_run Instances.image) Instances.exn_text
           Samples.message).
  vm_compute. left. reflexivity.
Defined.

(** X17.  In every payload handed to the remote service, [seed] is the integer
    [int] gives for the parsed seed, [prompt_upsampling] is the truth value
    of the parsed flag, and [output_format] is one of the three formats. *)
Theorem sent_fields_are_typed gcm up run txt (msg : string) (p : payload) :
  In p (snd (pipe gcm up run txt msg)) ->
  (forall v, dict_get "seed" p = Some v ->
             exists v0 z, dict_get "seed" (parse_command_params msg) = Some v0
                          /\ int_of v0 = inr z /\ v = VInt z)
  /\ (forall v, dict_get "prompt_upsampling" p = Some v ->
                exists v0,
                  dict_get "prompt_upsampling" (parse_command_params msg)
                  = Some v0
                  /\ v = VBool (truthy v0))
  /\ (forall v, dict_get "output_format" p = Some v ->
                exists f, v = VStr f /\ In f AVAILABLE_OUTPUT_FORMATS).
Proof.
  intros Hin. apply pipe_calls in Hin.
  destruct (request_stored _ _ _ _ Hin) as (_ & Hs & Hu & Hf & _ & _).
  split; [|split]; intros v Hv.
  - destruct (stored_lookup _ _ _ _ _ Hs Hv) as (v0 & Hp & He).
    unfold seed_of in He.
    destruct (int_of v0) as [e|z] eqn:Hz; [discriminate|].
    injection He as <-. exists v0, z. auto.
  - destruct (stored_lookup _ _ _ _ _ Hu Hv) as (v0 & Hp & He).
    injection He as <-. exists v0. auto.
  - destruct (stored_lookup _ _ _ _ _ Hf Hv) as (v0 & Hp & He).
    destruct (get_output_format_from_input gcm v0) as [e|f] eqn:Hm;
      [discriminate|].
    injection He as <-. exists f. split; [reflexivity|].
    destruct (fuzzy_match_in _ _ _ _ _ Hm) as [H| ->]; [exact H|].
    cbn; tauto.
Qed.

Lemma sent_fields_are_typed_witness :
  (forall v, dict_get "seed" Samples.sent = Some v ->
             exists v0 z,
               dict_get "seed" (parse_command_params Samples.message) = Some v0
               /\ int_of v0 = inr z /\ v = VInt z)
  /\ (forall v, dict_get "prompt_upsampling" Samples.sent = Some v ->
                exists v0,
                  dict_get "prompt_upsampling"
                    (parse_command_params Samples.message) = Some v0
                  /\ v = VBool (truthy v0))
  /\ (forall v, dict_get "output_format" Samples.sent = Some v ->
                exists f, v = VStr f /\ In f AVAILABLE_OUTPUT_FORMATS).
Proof.
  apply (sent_fields_are_typed
           Instances.get_close_matches Instances.urlparse
           (Instances.client_run Instances.image) Instances.exn_text
           Samples.message).
  vm_compute. left. reflexivity.
Defined.

(** X15.  An [image_prompt] reaches the remote service only as the parsed value,
    unchanged, and only if [validate_image_url] accepts it. *)
Theorem sent_image_prompt_is_valid gcm up run txt (msg : string)
        (p : payload) (v : value) :
  In p (snd (pipe gcm up run txt msg)) ->
  dict_get "image_prompt" p = Some v ->
  dict_get "image_prompt" (parse_command_params msg) = Some v
  /\ validate_image_url up v = true.
Proof.
  intros Hin Hv. apply pipe_calls in Hin.
  destruct (request_stored _ _ _ _ Hin) as (Hi & _).
  destruct (stored_lookup _ _ _ _ _ Hi Hv) as (v0 & Hp & He).
  destruct (validate_image_url up v0) eqn:Hval; [|discriminate].
  injection He as <-. auto.
Qed.

Lemma sent_image_prompt_is_valid_witness :
  dict_get "image_prompt" (parse_command_params Samples.message)
  = Some (VStr "https://x.com/a.png")
  /\ validate_image_url Instances.urlparse (VStr "https://x.com/a.png")
     = true.
Proof.
  apply (sent_image_prompt_is_valid
           Instances.get_close_matches Instances.urlparse
           (Instances.client_run Instances.image) Instances.exn_text
           Samples.message Samples.sent).
  - vm_compute. left. reflexivity.
  - reflexivity.
Defined.

(** X19.  Each optional key but the dimensions is in the payload exactly when it
    is among the parsed parameters. *)
Theorem sent_keys_mirror_parameters gcm up run txt (msg : string)
        (p : payload) (k : string) :
  In p (snd (pipe gcm up run txt msg)) ->
  In k ["image_prompt"; "seed"; "prompt_upsampling"; "output_format";
        "output_quality"; "safety_tolerance"] ->
  dict_mem k p = dict_mem k (parse_command_params msg).
Proof.
  intros Hin Hk. apply pipe_calls in Hin.
  destruct (request_stored _ _ _ _ Hin) as (Hi & Hs & Hu & Hf & Hq & Ht).
  cbn in Hk.
  repeat destruct Hk as [<-|Hk]; try contradiction;
    eapply stored_mem; eassumption.
Qed.

Lemma sent_keys_mirror_parameters_witness :
  dict_mem "seed" Samples.sent
  = dict_mem "seed" (parse_command_params Samples.message).
Proof.
  apply (sent_keys_mirror_parameters
           Instances.get_close_matches Instances.urlparse
           (Instances.client_run Instances.image) Instances.exn_text
           Samples.message Samples.sent "seed").
  - vm_compute. left. reflexivity.
  - cbn. tauto.
Defined.

Example sample_is_sent :
  Instances.respond Instances.image Samples.message
  = ("![image](https://replicate.delivery/out.webp)" ++ nl, [Samples.sent]).
Proof. reflexivity. Qed.

Lemma request_dimensions gcm up (msg : string) (p : payload) :
  request gcm up msg = Val p ->
  let params := parse_command_params msg in
  exists ar,
    dict_get "aspect_ratio" p = Some (VStr ar)
    /\ if String.eqb ar "custom"
       then exists dims,
           validate_dimensions (dict_get "width" params)
                               (dict_get "height" params) = inr dims
           /\ dict_get "width" p = option_map VInt (fst dims)
           /\ dict_get "height" p = option_map VInt (snd dims)
       else dict_get "width" p = None /\ dict_get "height" p = None.
Proof.
  intros H params. trace H. fold params in H1, H2, H3, H4, H5, H6, H7.
  exists ar.
  assert (Hbase : forall k, k <> "image_prompt" ->
                  dict_get k ip1
                  = dict_get k [("prompt", VStr prompt);
                                ("aspect_ratio", VStr ar)])
    by (intros k Hk; apply (assigned_other _ _ _ _ _ _ H1 Hk)).
  assert (Hlate : forall k,
             k <> "seed" -> k <> "prompt_upsampling" ->
             k <> "output_format" -> k <> "output_quality" ->
             k <> "safety_tolerance" -> dict_get k p = dict_get k ip2).
  { intros k K3 K4 K5 K6 K7.
    rewrite (assigned_other _ _ _ _ _ _ H7 K7),
      (assigned_other _ _ _ _ _ _ H6 K6),
      (assigned_other _ _ _ _ _ _ H5 K5),
      (assigned_other _ _ _ _ _ _ H4 K4),
      (assigned_other _ _ _ _ _ _ H3 K3). reflexivity. }
  split.
  - rewrite Hlate by discriminate.
    rewrite (assigned_dimensions_other _ _ _ _ _ H2) by discriminate.
    rewrite Hbase by discriminate. reflexivity.
  - rewrite !Hlate by discriminate. unfold assigned_dimensions in H2.
    destruct (String.eqb ar "custom").
    + destruct H2 as (dims & Hd & ->). exists dims. split; [exact Hd|].
      destruct dims as [[w|] [h|]]; cbn [fst snd option_map];
        rewrite ?dict_get_set_same, ?dict_get_set_other by discriminate;
        rewrite ?dict_get_set_same, ?Hbase by discriminate;
        try (split; reflexivity).
      all: destruct (dict_get "width" params) as [a|],
             (dict_get "height" params) as [b|]; try discriminate.
      all: destruct (validate_dimensions_values _ _ _ _ Hd)
          as (x & y & _ & _ & Hw & Hh); discriminate.
    + subst ip2. rewrite !Hbase by discriminate. split; reflexivity.
Qed.

(** X16.  In every payload handed to the remote service, a [width] or a
    [height] is the parsed value's integer, clamped to [256, 1440] and
    rounded to a multiple of 32; and for the ratio 'custom' with both
    dimensions among the parsed parameters, both are in the payload. *)
Theorem sent_dimensions_are_rounded gcm up run txt (msg : string)
        (p : payload) :
  In p (snd (pipe gcm up run txt msg)) ->
  (forall k v, k = "width" \/ k = "height" -> dict_get k p = Some v ->
      exists v0 x,
        dict_get k (parse_command_params msg) = Some v0
        /\ as_int v0 = Some x
        /\ v = VInt (py_round_div (clamp 256 1440 x) 32 * 32)
        /\ flux_dimension (py_round_div (clamp 256 1440 x) 32 * 32))
  /\ (dict_get "aspect_ratio" p = Some (VStr "custom") ->
      dict_mem "width" (parse_command_params msg) = true ->
      dict_mem "height" (parse_command_params msg) = true ->
      dict_mem "width" p = true /\ dict_mem "height" p = true).
Proof.
  intros Hin. set (params := parse_command_params msg).
  apply pipe_calls in Hin.
  destruct (request_dimensions _ _ _ _ Hin) as (ar & Har & Hd).
  fold params in Hd. split.
  - intros k v Hk Hv.
    destruct (String.eqb ar "custom");
      [|destruct Hd as [Hw Hh], Hk as [-> | ->]; congruence].
    destruct Hd as ([w h] & Hvd & Hw & Hh). cbn [fst snd] in Hw, Hh.
    destruct (dict_get "width" params) as [a|] eqn:Ea,
             (dict_get "height" params) as [b|] eqn:Eb;
      try (injection Hvd as <- <-; destruct Hk as [-> | ->];
           cbn in Hw, Hh; congruence).
    destruct (validate_dimensions_values _ _ _ _ Hvd)
      as (x & y & Hx & Hy & -> & ->).
    cbn [option_map] in Hw, Hh.
    destruct Hk as [-> | ->].
    + rewrite Hw in Hv. injection Hv as <-. exists a, x.
      repeat split; auto; apply py_round_div_32_range, clamp_range; lia.
    + rewrite Hh in Hv. injection Hv as <-. exists b, y.
      repeat split; auto; apply py_round_div_32_range, clamp_range; lia.
  - intros Hc Hw Hh. rewrite Har in Hc. injection Hc as ->.
    cbn in Hd. destruct Hd as ([w h] & Hvd & Hpw & Hph).
    unfold dict_mem in *.
    destruct (dict_get "width" params) as [a|]; [|discriminate].
    destruct (dict_get "height" params) as [b|]; [|discriminate].
    destruct (validate_dimensions_values _ _ _ _ Hvd)
      as (x & y & _ & _ & -> & ->).
    rewrite Hpw, Hph. split; reflexivity.
Qed.

Lemma sent_dimensions_are_rounded_witness :
  (exists v0 x,
      dict_get "width" (parse_command_params Samples.message) = Some v0
      /\ as_int v0 = Some x
      /\ VInt 512 = VInt (py_round_div (clamp 256 1440 x) 32 * 32)
      /\ flux_dimension (py_round_div (clamp 256 1440 x) 32 * 32))
  /\ dict_mem "width" Samples.sent = true
  /\ dict_mem "height" Samples.sent = true.
Proof.
  assert (Hin : In Samples.sent
                   (snd (Instances.respond Instances.image Samples.message)))
    by (vm_compute; left; reflexivity).
  pose proof (sent_dimensions_are_rounded _ _ _ _ _ _ Hin) as [Hv Hb].
  split.
  - apply (Hv "width"); [left; reflexivity|reflexivity].
  - apply Hb; vm_compute; reflexivity.
Defined.

Lemma in_order_incl (l order : list string) :
  in_order l order = true -> forall x, In x l -> In x order.
Proof.
  revert l. induction order as [|y order IH]; intros l H x Hx.
  - destruct l; [contradiction|discriminate].
  - destruct l as [|a l]; [contradiction|]. cbn [in_order] in H.
    destruct (String.eqb_spec a y) as [->|Hne].
    + destruct Hx as [<-|Hx]; [left; reflexivity|].
      right. exact (IH _ H _ Hx).
    + right. exact (IH _ H _ Hx).
Qed.

Lemma in_order_nodup (l order : list string) :
  NoDup order -> in_order l order = true -> NoDup l.
Proof.
  revert l. induction order as [|y order IH]; intros l Hnd H.
  - destruct l; [constructor|discriminate].
  - destruct l as [|a l]; [constructor|]. cbn [in_order] in H.
    inversion Hnd as [|? ? Hy Hnd']; subst.
    destruct (String.eqb_spec a y) as [->|Hne].
    + constructor; [|exact (IH _ Hnd' H)].
      intros Hin. apply Hy. exact (in_order_incl _ _ H _ Hin).
    + exact (IH _ Hnd' H).
Qed.

(** X20.  The keys of every payload handed to the remote service are distinct,
    are among the ten names [pipe] assigns, and stand in the order of the
    assignments; a parameter with any other name never reaches the
    service. *)
Theorem sent_keys_are_known gcm up run txt (msg : string) (p : payload) :
  In p (snd (pipe gcm up run txt msg)) ->
  NoDup (keys p)
  /\ in_order (keys p) assignment_order = true
  /\ (forall k, ~ In k assignment_order -> dict_get k p = None).
Proof.
  intros Hin. apply pipe_calls in Hin.
  pose proof (request_keys_in_order _ _ _ _ Hin) as Ho.
  split; [|split; [exact Ho|]].
  - apply (in_order_nodup _ assignment_order); [|exact Ho].
    unfold assignment_order.
    repeat (constructor;
            [cbn; intros H; repeat destruct H as [H|H];
             try discriminate H; exact H|]).
    constructor.
  - intros k Hk. destruct (dict_get k p) as [v|] eqn:Hg; [|reflexivity].
    exfalso. apply Hk. apply (in_order_incl _ _ Ho).
    clear - Hg. induction p as [|[k' v'] p IH]; [discriminate|].
    cbn in Hg |- *. destruct (String.eqb_spec k k') as [->|_];
      [left; reflexivity|right; exact (IH Hg)].
Qed.

Lemma sent_keys_are_known_witness :
  NoDup (keys Samples.sent)
  /\ in_order (keys Samples.sent) assignment_order = true
  /\ (forall k, ~ In k assignment_order -> dict_get k Samples.sent = None).
Proof.
  apply (sent_keys_are_known
           Instances.get_close_matches Instances.urlparse
           (Instances.client_run Instances.image) Instances.exn_text
           Samples.message).
  vm_compute. left. reflexivity.
Defined.

(** ** The keys of the parsed parameters *)

Lemma keys_dict_set {V} (k : string) (v : V) (d : dict V) :
  keys (dict_set k v d) = if dict_mem k d then keys d else (keys d ++ [k])%list.
Proof.
  unfold dict_mem, keys. induction d as [|[k' v'] d IH]; [reflexivity|].
  cbn [dict_set dict_get]. destruct (String.eqb k k') eqn:E; [reflexivity|].
  cbn [map fst]. rewrite IH.
  destruct (dict_get k d); reflexivity.
Qed.

Lemma dict_mem_keys {V} (k : string) (d : dict V) :
  dict_mem k d = false -> ~ In k (keys d).
Proof.
  unfold dict_mem. induction d as [|[k' v'] d IH]; [auto|].
  cbn. destruct (String.eqb_spec k k'); [discriminate|].
  intros H [E|Hin]; [congruence|exact (IH H Hin)].
Qed.

Lemma dict_set_keeps_shape {V} (k : string) (v : V) (d : dict V) :
  NoDup (keys d) ->
  NoDup (keys (dict_set k v d))
  /\ (d <> [] -> hd_error (keys (dict_set k v d)) = hd_error (keys d)).
Proof.
  intros Hnd. rewrite keys_dict_set.
  destruct (dict_mem k d) eqn:Hm; [auto|]. split.
  - apply NoDup_app; [exact Hnd|repeat constructor; auto|].
    intros x Hx [<-|[]]. exact (dict_mem_keys _ _ Hm Hx).
  - destruct d; [congruence|reflexivity].
Qed.

Lemma parse_tokens_keeps_shape (toks : list string) :
  forall d d', parse_tokens toks d = inr d' ->
               NoDup (keys d) -> d <> [] ->
               NoDup (keys d') /\ hd_error (keys d') = hd_error (keys d)
               /\ d' <> [].
Proof.
  induction toks as [|tok toks IH]; intros d d' H Hnd Hne.
  - injection H as <-. auto.
  - rewrite parse_tokens_cons in H.
    destruct (unit_name tok) as [name|]; [|exact (IH _ _ H Hnd Hne)].
    destruct (convert_value (unit_value tok)) as [e|v]; [discriminate|].
    cbn [rbind] in H.
    destruct (dict_set_keeps_shape name v d Hnd) as [Hnd' Hhd].
    assert (Hne' : dict_set name v d <> []).
    { destruct d as [|[k0 v0] d]; [congruence|]. cbn.
      destruct (String.eqb name k0); discriminate. }
    destruct (IH _ _ H Hnd' Hne') as (A & B & C).
    rewrite (Hhd Hne) in B. auto.
Qed.

(** X1.  The parsed parameters always begin with the key [prompt], and no key
    occurs twice. *)
Theorem parsed_prompt_comes_first (msg : string) :
  hd_error (keys (parse_command_params msg)) = Some "prompt"
  /\ NoDup (keys (parse_command_params msg)).
Proof.
  assert (Hbase : forall s : string,
             hd_error (keys [("prompt", VStr s)]) = Some "prompt"
             /\ NoDup (keys [("prompt", VStr s)]))
    by (intros s; split; [reflexivity|repeat constructor; auto]).
  unfold parse_command_params.
  destruct (parse_try msg) as [e|d] eqn:Hp; [apply Hbase|].
  unfold parse_try in Hp.
  destruct (Py.find msg "--" =? -1)%Z; [injection Hp as <-; apply Hbase|].
  destruct (parse_tokens_keeps_shape _ _ _ Hp) as (A & B & _).
  - repeat constructor; auto.
  - discriminate.
  - split; [rewrite B; reflexivity|exact A].
Qed.

(** ** When the tokenizer degrades *)

Lemma digit_char_facts (c : ascii) :
  Py.isdigit_char c = true ->
  Py.lower_char c = c /\ Py.isspace c = false
  /\ Ascii.eqb c "-" = false /\ Ascii.eqb c "+" = false
  /\ Ascii.eqb c "_" = false
  /\ Ascii.eqb c "t" = false /\ Ascii.eqb c "f" = false.
Proof.
  destruct c as [[] [] [] [] [] [] [] []]; vm_compute; intros H;
    try discriminate H; repeat split.
Qed.

Lemma decimal_is_digit (c : ascii) :
  Py.is_decimal c = true -> Py.isdigit_char c = true.
Proof. unfold Py.isdigit_char. intros ->. reflexivity. Qed.

(** A run of decimal digits is a numeral for [int]. *)
Lemma digits_of_decimals (s : string) :
  Py.all_chars Py.is_decimal s = true ->
  forall st acc, s <> "" -> exists z, Py.digits st acc s = Some z.
Proof.
  induction s as [|c s IH]; intros H st acc Hne; [congruence|].
  cbn [Py.all_chars] in H. apply andb_prop in H. destruct H as [Hc Hs].
  cbn [Py.digits]. rewrite Hc.
  destruct s as [|d s']; [eexists; reflexivity|].
  apply (IH Hs). discriminate.
Qed.

(** [int] reads nothing but decimal digits in a string of digits. *)
Lemma digits_need_decimals (s : string) :
  Py.all_chars Py.isdigit_char s = true ->
  forall st acc z, Py.digits st acc s = Some z ->
                   Py.all_chars Py.is_decimal s = true.
Proof.
  induction s as [|c s IH]; intros H st acc z Hd; [reflexivity|].
  cbn [Py.all_chars] in H |- *. apply andb_prop in H. destruct H as [Hc Hs].
  cbn [Py.digits] in Hd. destruct (Py.is_decimal c) eqn:Hdec.
  - exact (IH Hs _ _ _ Hd).
  - destruct (digit_char_facts c Hc) as (_ & _ & _ & _ & Hu & _).
    rewrite Hu in Hd. discriminate.
Qed.

Lemma digit_char_not_int_space (c : ascii) :
  Py.isdigit_char c = true -> Py.int_isspace c = false.
Proof.
  destruct c as [[] [] [] [] [] [] [] []]; vm_compute; intros H;
    try discriminate H; reflexivity.
Qed.

Lemma int_rstrip_digits (s : string) :
  Py.all_chars Py.isdigit_char s = true -> Py.int_rstrip s = s.
Proof.
  induction s as [|c s IH]; [reflexivity|]. cbn [Py.all_chars Py.int_rstrip].
  intros H. apply andb_prop in H. destruct H as [Hc Hs].
  rewrite (IH Hs), (digit_char_not_int_space c Hc), andb_false_r.
  reflexivity.
Qed.

(** In a run of decimal digits every character counts. *)
Lemma count_digits_decimals (s : string) :
  Py.all_chars Py.is_decimal s = true ->
  Py.count_digits s = Z.of_nat (String.length s).
Proof.
  induction s as [|c s IH]; [reflexivity|].
  cbn [Py.all_chars Py.count_digits String.length].
  intros H. apply andb_prop in H. destruct H as [-> Hs].
  rewrite (IH Hs). lia.
Qed.

(** On a string that passes [isdigit], [int] succeeds exactly on the
    decimal numerals within the limit. *)
Lemma int_of_digit_string (s : string) :
  Py.isdigit s = true ->
  (exists z, Py.int_of_str s = Some z)
  <-> Py.all_chars Py.is_decimal s = true
      /\ (Z.of_nat (String.length s) <= Py.MAX_STR_DIGITS)%Z.
Proof.
  unfold Py.isdigit. intros H. apply andb_prop in H. destruct H as [Hne Hd].
  destruct s as [|c s]; [discriminate|].
  pose proof Hd as Hd'. cbn [Py.all_chars] in Hd'.
  apply andb_prop in Hd'. destruct Hd' as [Hc _].
  unfold Py.int_of_str. cbn [Py.int_lstrip].
  rewrite (digit_char_not_int_space c Hc), (int_rstrip_digits _ Hd).
  destruct (digit_char_facts c Hc) as (_ & _ & -> & -> & _).
  cbn [orb]. split.
  - intros [z Hz].
    destruct (Py.MAX_STR_DIGITS <? Py.count_digits (String c s))%Z eqn:Hlim;
      [discriminate|].
    pose proof (digits_need_decimals _ Hd _ _ _ Hz) as Hall.
    split; [exact Hall|].
    rewrite <- (count_digits_decimals _ Hall). apply Z.ltb_ge, Hlim.
  - intros [Hall Hlen]. rewrite (count_digits_decimals _ Hall).
    rewrite (proj2 (Z.ltb_ge _ _) Hlen).
    apply digits_of_decimals; [exact Hall|discriminate].
Qed.

Lemma digit_string_not_literal (s : string) :
  Py.isdigit s = true ->
  String.eqb (Py.lower s) "true" = false
  /\ String.eqb (Py.lower s) "false" = false.
Proof.
  unfold Py.isdigit. intros H. apply andb_prop in H. destruct H as [_ Hd].
  destruct s as [|c s]; [split; reflexivity|].
  cbn [Py.all_chars] in Hd. apply andb_prop in Hd. destruct Hd as [Hc _].
  destruct (digit_char_facts c Hc) as (Hl & _ & _ & _ & _ & Ht & Hf).
  cbn [Py.lower String.eqb]. rewrite Hl, Ht, Hf. split; reflexivity.
Qed.

(** [convert_value] raises on a string only when the string passes
    [isdigit] and is not a decimal numeral within the limit. *)
Lemma convert_value_raises (r : string) :
  (exists e, convert_value (VStr r) = inl e)
  <-> Py.isdigit r = true
      /\ (Py.all_chars Py.is_decimal r = false
          \/ (Py.MAX_STR_DIGITS < Z.of_nat (String.length r))%Z).
Proof.
  unfold convert_value. split.
  - intros [e H].
    destruct (String.eqb (Py.lower r) "true"); [discriminate|].
    destruct (String.eqb (Py.lower r) "false"); [discriminate|].
    destruct (Py.isdigit r) eqn:Hd; [|discriminate].
    split; [reflexivity|].
    destruct (Py.all_chars Py.is_decimal r) eqn:Hall; [|left; reflexivity].
    right.
    destruct (Z_lt_le_dec Py.MAX_STR_DIGITS (Z.of_nat (String.length r)))
      as [Hlt|Hle]; [exact Hlt|].
    destruct (proj2 (int_of_digit_string _ Hd) (conj Hall Hle)) as [z Hz].
    rewrite Hz in H. discriminate.
  - intros [Hd Hbad].
    destruct (digit_string_not_literal _ Hd) as [-> ->]. rewrite Hd.
    destruct (Py.int_of_str r) as [z|] eqn:Hz; [|eexists; reflexivity].
    assert (Hex : exists z, Py.int_of_str r = Some z) by eauto.
    apply (int_of_digit_string _ Hd) in Hex. destruct Hex as [Hall Hle].
    destruct Hbad as [Hnd|Hlt]; [congruence|lia].
Qed.

Lemma unit_value_cases (tok : string) :
  unit_value tok = VBool true \/ exists r, unit_value tok = VStr r.
Proof.
  unfold unit_value. destruct (Py.split_ws1 (Py.strip tok)) as [|a [|b l]];
    eauto.
Qed.

Lemma unconvertible_iff (tok : string) :
  unconvertible tok
  <-> unit_name tok <> None
      /\ exists e, convert_value (unit_value tok) = inl e.
Proof.
  unfold unconvertible. split; intros [Hn H]; (split; [exact Hn|]).
  - destruct H as [-> | (r & -> & Hd & Hbad)]; [eexists; reflexivity|].
    apply convert_value_raises. auto.
  - destruct (unit_value_cases tok) as [Hv | [r Hv]]; [left; exact Hv|].
    right. exists r. rewrite Hv in H. apply convert_value_raises in H.
    tauto.
Qed.

Lemma parse_tokens_raises (toks : list string) (d : dict value) :
  (exists e, parse_tokens toks d = inl e)
  <-> exists tok, In tok toks /\ unconvertible tok.
Proof.
  revert d. induction toks as [|tok toks IH]; intros d.
  - split; [intros [e H]; discriminate|intros (t & [] & _)].
  - rewrite parse_tokens_cons. split.
    + intros [e H]. destruct (unit_name tok) as [name|] eqn:Hn.
      * destruct (convert_value (unit_value tok)) as [e'|v] eqn:Hc.
        -- exists tok. split; [left; reflexivity|].
           apply unconvertible_iff. rewrite Hn. split; [discriminate|eauto].
        -- cbn [rbind] in H.
           destruct (proj1 (IH _) (ex_intro _ e H)) as (t & Ht & Hu).
           exists t. split; [right; exact Ht|exact Hu].
      * destruct (proj1 (IH _) (ex_intro _ e H)) as (t & Ht & Hu).
        exists t. split; [right; exact Ht|exact Hu].
    + intros (t & [<-|Ht] & Hu).
      * apply unconvertible_iff in Hu. destruct Hu as [Hn [e He]].
        destruct (unit_name tok); [|congruence]. rewrite He.
        exists e. reflexivity.
      * destruct (unit_name tok) as [name|].
        -- destruct (convert_value (unit_value tok)) as [e'|v];
             [exists e'; reflexivity|].
           cbn [rbind]. apply IH. eauto.
        -- apply IH. eauto.
Qed.

(** X2.  The tokenizer falls back to the whole message as the prompt exactly
    when the message holds a flag unit without a value, or one whose value
    passes [isdigit] and is refused by [int]: a value that is not a decimal
    numeral, or one of more than 4300 digits. *)
Theorem tokenizer_degrades_iff (msg : string) :
  (exists e, parse_try msg = inl e)
  <-> Py.find msg "--" <> (-1)%Z
      /\ exists tok, In tok (flag_units msg) /\ unconvertible tok.
Proof.
  destruct (Z.eq_dec (Py.find msg "--") (-1)) as [Hm|Hm].
  - rewrite (parse_try_no_marker _ Hm). split.
    + intros [e H]. discriminate.
    + intros [H _]. contradiction.
  - rewrite (parse_try_marker _ Hm), parse_tokens_raises. tauto.
Qed.

Lemma tokenizer_degrades_iff_witness :
  exists e, parse_try "a cat --seed 7 --fast" = inl e.
Proof.
  apply (proj2 (tokenizer_degrades_iff "a cat --seed 7 --fast")).
  split; [vm_compute; discriminate|].
  exists "fast". split; [vm_compute; tauto|].
  split; [vm_compute; discriminate|left; reflexivity].
Defined.

(** [int] on signs, underscores and whitespace, and at its limit of
    digits. *)
Example int_of_str_examples :
  Py.int_of_str "-1_000" = Some (-1000)%Z
  /\ Py.int_of_str "1__0" = None
  /\ Py.int_of_str (String (ascii_of_nat 160) "12 ") = Some 12%Z
  /\ Py.int_of_str (String (ascii_of_nat 28) "12") = None
  /\ Py.int_of_str (String (ascii_of_nat 178) "") = None
  /\ Py.int_of_str (Samples.ones 4300) <> None
  /\ Py.int_of_str ("-" ++ Samples.ones 4300) <> None
  /\ Py.int_of_str (Samples.ones 4301) = None.
Proof. repeat split; vm_compute; try reflexivity; discriminate. Qed.

(** A seed of 4301 digits, and one of superscript digits, make the
    tokenizer fall back; a seed of 4300 digits is stored as a number. *)
Example refused_seeds_degrade :
  parse_command_params ("a cat --seed " ++ Samples.ones 4301)
  = [("prompt", VStr ("a cat --seed " ++ Samples.ones 4301))]
  /\ parse_command_params ("a cat --seed " ++ String (ascii_of_nat 178) "")
     = [("prompt", VStr ("a cat --seed " ++ String (ascii_of_nat 178) ""))]
  /\ exists z, parse_command_params ("a cat --seed " ++ Samples.ones 4300)
               = [("prompt", VStr "a cat"); ("seed", VInt z)].
Proof.
  repeat split; try (vm_compute; reflexivity).
  eexists. vm_compute. reflexivity.
Qed.

(** ** A message with several flags *)

Lemma append_assoc (a b c : string) : (a ++ b) ++ c = a ++ b ++ c.
Proof. induction a as [|x a IH]; cbn; congruence. Qed.

Lemma append_empty_r (a : string) : a ++ "" = a.
Proof. induction a as [|x a IH]; cbn; congruence. Qed.

(** Splitting a unit off the front of the parameter segment. *)
Lemma split_unit_then_marker (u rest : string) :
  markerless u ->
  Py.split (u ++ " --" ++ rest) "--" = (u ++ " ") :: Py.split rest "--".
Proof.
  unfold Py.split. induction u as [|c u IH]; intros Hm; [reflexivity|].
  apply markerless_cons in Hm. destruct Hm as [Hp Hm].
  specialize (IH Hm). remember (" --" ++ rest) as tail_ eqn:Ht.
  cbn [append Py.split_go].
  assert (Hq : Py.startswith (String c (u ++ tail_)) "--" = false).
  { rewrite starts_marker_cons in Hp |- *.
    destruct (Ascii.eqb "-" c); [|reflexivity].
    destruct u as [|d u']; [subst tail_; reflexivity|exact Hp]. }
  rewrite Hq, IH. reflexivity.
Qed.

Lemma split_flags (name v : string) (rest : list (string * string)) :
  plain_flag (name, v) -> Forall plain_flag rest ->
  Py.split (name ++ " " ++ v ++ flags_text rest) "--" = units name v rest.
Proof.
  revert name v. induction rest as [|[n' v'] rest IH];
    intros name v Hf Hrest.
  - destruct Hf as (_ & _ & Hn & _ & _ & Hv). cbn [fst snd] in *.
    cbn [flags_text units]. rewrite append_empty_r.
    apply split_markerless, markerless_app_value; assumption.
  - destruct Hf as (_ & _ & Hn & _ & _ & Hv). cbn [fst snd] in *.
    inversion Hrest as [|? ? Hf' Hrest']; subst.
    cbn [flags_text units].
    change (name ++ " " ++ v ++ " --" ++ n' ++ " " ++ v' ++ flags_text rest)
      with (name ++ String " " (v ++ " --" ++ n' ++ " " ++ v'
                                  ++ flags_text rest)).
    replace (name ++ String " " (v ++ " --" ++ n' ++ " " ++ v'
                                   ++ flags_text rest))
      with ((name ++ String " " v) ++ " --" ++ n' ++ " " ++ v'
            ++ flags_text rest)
      by (rewrite append_assoc; reflexivity).
    rewrite split_unit_then_marker
      by (apply markerless_app_value; assumption).
    f_equal. apply IH; assumption.
Qed.

Lemma rstrip_flags (v : string) (rest : list (string * string)) :
  v <> "" -> Py.strip v = v -> Forall plain_flag rest ->
  Py.rstrip (v ++ flags_text rest) = v ++ flags_text rest
  /\ v ++ flags_text rest <> "".
Proof.
  revert v. induction rest as [|[n' v'] rest IH]; intros v Hne Hfix Hrest.
  - cbn [flags_text]. rewrite append_empty_r.
    split; [exact (proj2 (strip_fixed _ Hfix))|exact Hne].
  - inversion Hrest as [|? ? Hf' Hrest']; subst.
    destruct Hf' as (_ & _ & _ & Hne' & Hfix' & _). cbn [fst snd] in *.
    destruct (IH v' Hne' Hfix' Hrest') as [Hr Hnz].
    cbn [flags_text]. split; [|destruct v; [congruence|discriminate]].
    replace (v ++ " --" ++ n' ++ " " ++ v' ++ flags_text rest)
      with ((v ++ " --" ++ n' ++ " ") ++ v' ++ flags_text rest)
      by (rewrite !append_assoc; reflexivity).
    rewrite rstrip_app; rewrite Hr; [reflexivity|exact Hnz].
Qed.

Lemma unit_read_back (name v : string) :
  plain_flag (name, v) ->
  unit_name (name ++ String " " v) = Some name
  /\ unit_value (name ++ String " " v) = VStr v
  /\ unit_name ((name ++ String " " v) ++ " ") = Some name
  /\ unit_value ((name ++ String " " v) ++ " ") = VStr v.
Proof.
  intros (Hn & Hsp & _ & Hv & Hfix & _). cbn [fst snd] in *.
  unfold unit_name, unit_value.
  rewrite strip_app_space, (unit_pieces _ _ Hn Hsp Hv Hfix).
  repeat split.
Qed.

Lemma parse_units (name v : string) (rest : list (string * string)) :
  forall (values : list value) (x : value) (d : dict value),
    plain_flag (name, v) -> Forall plain_flag rest ->
    convert_value (VStr v) = inr x ->
    Forall2 (fun f y => convert_value (VStr (snd f)) = inr y) rest values ->
    parse_tokens (units name v rest) d
    = inr (assign_all d ((name, x) :: combine (map fst rest) values)).
Proof.
  revert name v. induction rest as [|[n' v'] rest IH];
    intros name v values x d Hf Hrest Hx Hvals.
  - inversion Hvals; subst. cbn [units].
    destruct (unit_read_back _ _ Hf) as (Hn & Hv & _).
    rewrite parse_tokens_cons, Hn, Hv, Hx. reflexivity.
  - inversion Hvals as [|? y ? ys Hy Hvals']; subst.
    inversion Hrest as [|? ? Hf' Hrest']; subst.
    cbn [units]. destruct (unit_read_back _ _ Hf) as (_ & _ & Hn & Hv).
    rewrite parse_tokens_cons, Hn, Hv, Hx. cbn [rbind].
    rewrite (IH n' v' ys y _ Hf' Hrest' Hy Hvals'). reflexivity.
Qed.

(** X3.  For free text without a marker followed by any number of flags
    [' --name value'], each read back as written, the parsed parameters
    are the trimmed text as the prompt and then each name with its coerced
    value, assigned in the order of the message. *)
Theorem parse_flags (text : string) (flags : list (string * string))
        (values : list value) :
  markerless text -> Forall plain_flag flags ->
  Forall2 (fun f y => convert_value (VStr (snd f)) = inr y) flags values ->
  parse_command_params (text ++ flags_text flags)
  = assign_all [("prompt", VStr (Py.strip text))]
               (combine (map fst flags) values).
Proof.
  intros Ht Hflags Hvals. destruct flags as [|[name v] rest].
  - inversion Hvals; subst. cbn [flags_text]. rewrite append_empty_r.
    unfold parse_command_params.
    rewrite parse_try_no_marker by (apply markerless_find, Ht).
    reflexivity.
  - inversion Hvals as [|? x ? ys Hx Hvals']; subst.
    inversion Hflags as [|? ? Hf Hrest]; subst.
    cbn [flags_text map fst combine].
    set (U := name ++ " " ++ v ++ flags_text rest).
    change (" --" ++ name ++ " " ++ v ++ flags_text rest)
      with (" --" ++ U).
    assert (Hfind : Py.find (text ++ " --" ++ U) "--"
                    = Z.of_nat (String.length text + 1)).
    { unfold Py.find. rewrite (find_after_text _ _ Ht). reflexivity. }
    assert (Hassoc : text ++ " --" ++ U = (text ++ " ") ++ "--" ++ U)
      by (rewrite append_assoc; reflexivity).
    assert (Hlen : (String.length text + 1)%nat
                   = String.length (text ++ " ")).
    { clear. induction text as [|c t IH]; cbn [append String.length];
        [reflexivity|]. lia. }
    unfold parse_command_params.
    rewrite parse_try_marker by (rewrite Hfind; lia).
    unfold flag_units, prompt_part, Py.slice_to, Py.slice_from.
    rewrite Hfind, Nat2Z.id, Hlen, Hassoc, take_app, drop_app.
    rewrite strip_app_space.
    assert (Hstrip : Py.strip ("--" ++ U) = "--" ++ U).
    { unfold Py.strip.
      change (Py.lstrip ("--" ++ U)) with ("--" ++ U).
      destruct Hf as (_ & _ & _ & Hv & Hfix & _). cbn [fst snd] in *.
      destruct (rstrip_flags v rest Hv Hfix Hrest) as [Hr Hnz].
      subst U.
      replace ("--" ++ name ++ " " ++ v ++ flags_text rest)
        with (("--" ++ name ++ " ") ++ v ++ flags_text rest)
        by (rewrite !append_assoc; reflexivity).
      rewrite rstrip_app; rewrite Hr; [reflexivity|exact Hnz]. }
    rewrite Hstrip, split_marker_first. cbn [tl]. subst U.
    rewrite (split_flags _ _ _ Hf Hrest).
    rewrite (parse_units _ _ _ _ _ _ Hf Hrest Hx Hvals'). reflexivity.
Qed.

Lemma parse_flags_witness :
  parse_command_params
    ("  A cat " ++ flags_text [("aspect_ratio", "16:9"); ("seed", "7");
                               ("style", "film noir")])
  = assign_all [("prompt", VStr (Py.strip "  A cat "))]
      (combine (map fst [("aspect_ratio", "16:9"); ("seed", "7");
                         ("style", "film noir")])
               [VStr "16:9"; VInt 7; VStr "film noir"]).
Proof.
  apply parse_flags.
  - reflexivity.
  - repeat constructor; cbn; discriminate.
  - repeat constructor.
Defined.

(** ** Responses *)

Lemma pipe_after_request gcm up run txt (msg : string) (p : payload) :
  request gcm up msg = Val p ->
  pipe gcm up run txt msg = (reply txt (run p), [p]).
Proof.
  intros H. unfold pipe, pipe_try, reply. rewrite H.
  destruct (run p) as [e|[t|]]; reflexivity.
Qed.

Lemma bind_return_inv {A B} (m : outcome A) (f : A -> outcome B)
      (s : string) :
  bind m f = Return s ->
  m = Return s \/ exists a, m = Val a /\ f a = Return s.
Proof. destruct m; cbn; try discriminate; eauto. intros [= ->]. auto. Qed.

Lemma lift_no_return {A} (r : result A) (s : string) : lift r <> Return s.
Proof. destruct r; discriminate. Qed.

Ltac no_return H :=
  repeat (apply bind_return_inv in H;
          destruct H as [H|(? & _ & H)];
          [exfalso; exact (lift_no_return _ _ H)|]);
  try discriminate H.

Ltac skip_stage H :=
  apply bind_return_inv in H;
  destruct H as [H|(? & _ & H)];
  [ exfalso;
    match type of H with
    | (if ?c then _ else _) = _ => destruct c; no_return H
    end
  | ].

(** The only texts [pipe] returns before it has a payload. *)
Lemma request_returns gcm up (msg s : string) :
  request gcm up msg = Return s ->
  s = "Error: Prompt is required" \/ s = image_prompt_error.
Proof.
  unfold request. intros H.
  apply bind_return_inv in H. destruct H as [H|(prompt & _ & H)];
    [exfalso; exact (lift_no_return _ _ H)|].
  destruct (Py.is_empty prompt); [injection H as <-; left; reflexivity|].
  apply bind_return_inv in H. destruct H as [H|(prompt' & _ & H)];
    [exfalso; exact (lift_no_return _ _ H)|].
  apply bind_return_inv in H. destruct H as [H|(ar & _ & H)];
    [exfalso; exact (lift_no_return _ _ H)|].
  apply bind_return_inv in H. destruct H as [H|(ip1 & _ & H)].
  { destruct (dict_mem "image_prompt" (parse_command_params msg));
      [|discriminate].
    apply bind_return_inv in H. destruct H as [H|(v & _ & H)];
      [exfalso; exact (lift_no_return _ _ H)|].
    destruct (negb (validate_image_url up v)); [|discriminate].
    injection H as <-. right. reflexivity. }
  exfalso.
  apply bind_return_inv in H. destruct H as [H|(arv & _ & H)];
    [exact (lift_no_return _ _ H)|].
  apply bind_return_inv in H. destruct H as [H|(ip2 & _ & H)].
  { destruct (py_eq arv (VStr "custom")); [|discriminate].
    apply bind_return_inv in H. destruct H as [H|(dims & _ & H)];
      [exact (lift_no_return _ _ H)|].
    destruct dims as [[w|] [h|]]; try discriminate.
    destruct (negb (w =? 0)%Z && negb (h =? 0)%Z); discriminate. }
  skip_stage H. skip_stage H. skip_stage H. skip_stage H. skip_stage H.
  discriminate.
Qed.

(** X11.  [pipe] calls the remote service at most once.  Either it built a
    payload, called the service with it and returns the text for the
    answer; or it called nothing and returns one of the two validation
    errors or 'Error generating image: ' with the text of an exception. *)
Theorem pipe_response_forms gcm up run txt (msg : string) :
  (exists p, request gcm up msg = Val p
             /\ pipe gcm up run txt msg = (reply txt (run p), [p]))
  \/ (snd (pipe gcm up run txt msg) = []
      /\ (fst (pipe gcm up run txt msg) = "Error: Prompt is required"
          \/ fst (pipe gcm up run txt msg) = image_prompt_error
          \/ exists e, request gcm up msg = Raise e
                       /\ fst (pipe gcm up run txt msg)
                          = "Error generating image: " ++ txt e)).
Proof.
  destruct (request gcm up msg) as [p|s|e] eqn:H.
  - left. exists p. split; [reflexivity|apply pipe_after_request, H].
  - right. unfold pipe, pipe_try. rewrite H. cbn [fst snd].
    split; [reflexivity|].
    destruct (request_returns _ _ _ _ H) as [-> | ->]; auto.
  - right. unfold pipe, pipe_try. rewrite H. cbn [fst snd].
    split; [reflexivity|]. right; right. exists e. auto.
Qed.

(** X10.  A message without a marker: a blank one is refused without a call;
    any other is sent once, trimmed, with the aspect ratio '1:1' and
    nothing else. *)
Theorem plain_message_is_sent_as_prompt gcm up run txt (msg : string) :
  markerless msg ->
  (Py.strip msg = "" ->
   pipe gcm up run txt msg = ("Error: Prompt is required", []))
  /\ (Py.strip msg <> "" ->
      pipe gcm up run txt msg
      = (reply txt (run [("prompt", VStr (Py.strip msg));
                         ("aspect_ratio", VStr "1:1")]),
         [[("prompt", VStr (Py.strip msg)); ("aspect_ratio", VStr "1:1")]])).
Proof.
  intros Hm.
  assert (Hp : parse_command_params msg = [("prompt", VStr (Py.strip msg))]).
  { unfold parse_command_params.
    rewrite parse_try_no_marker by (apply markerless_find, Hm).
    reflexivity. }
  split; intros Hs.
  - unfold pipe, pipe_try, request. rewrite Hp.
    change (get_default "prompt" (VStr "") [("prompt", VStr (Py.strip msg))])
      with (VStr (Py.strip msg)).
    cbn [strip_of lift bind ok]. rewrite strip_idem, Hs. reflexivity.
  - apply pipe_after_request.
    rewrite (request_prompt_only _ _ _ _ Hp); rewrite strip_idem;
      [reflexivity|exact Hs].
Qed.

Lemma plain_message_is_sent_as_prompt_witness :
  Instances.respond Instances.image "   "
  = ("Error: Prompt is required", [])
  /\ Instances.respond (ok None) "  a quiet harbour at dawn "
     = ("No image was generated.",
        [[("prompt", VStr "a quiet harbour at dawn");
          ("aspect_ratio", VStr "1:1")]]).
Proof.
  split.
  - apply (proj1 (plain_message_is_sent_as_prompt
                    Instances.get_close_matches Instances.urlparse
                    (Instances.client_run Instances.image)
                    Instances.exn_text "   " eq_refl)).
    reflexivity.
  - apply (proj2 (plain_message_is_sent_as_prompt
                    Instances.get_close_matches Instances.urlparse
                    (Instances.client_run (ok None))
                    Instances.exn_text "  a quiet harbour at dawn " eq_refl)).
    vm_compute. discriminate.
Defined.

(** ** Dimension validation on values of any kind *)

Lemma clamp_value (v : value) (x : Z) :
  as_int v = Some x ->
  exists m, (m <~ py_min 1440 v ;; py_max 256 m) = ok m
            /\ as_int m = Some (clamp 256 1440 x).
Proof.
  intros Hv. unfold py_min. rewrite Hv.
  destruct (Z.ltb_spec x 1440); cbn [rbind ok]; unfold py_max.
  - rewrite Hv. destruct (Z.ltb_spec 256 x); eexists; split;
      try reflexivity; [rewrite Hv|cbn]; f_equal; unfold clamp; lia.
  - cbn [as_int]. destruct (Z.ltb_spec 256 1440); [|lia].
    eexists; split; [reflexivity|]. cbn. f_equal. unfold clamp. lia.
Qed.

Lemma validate_dimensions_numeric (width height : value) (x y : Z) :
  as_int width = Some x -> as_int height = Some y ->
  validate_dimensions (Some width) (Some height)
  = ok (Some (fit x), Some (fit y)).
Proof.
  intros Hw Hh. unfold validate_dimensions, fit.
  destruct (clamp_value _ _ Hw) as (m & Hc & Hm).
  destruct (py_min 1440 width) as [e|a]; [discriminate|].
  cbn [rbind] in Hc |- *. rewrite Hc. cbn [rbind ok].
  destruct (clamp_value _ _ Hh) as (m' & Hd & Hm').
  destruct (py_min 1440 height) as [e|b]; [discriminate|].
  cbn [rbind] in Hd |- *. rewrite Hd. cbn [rbind ok].
  unfold round_to_32. rewrite Hm, Hm'. reflexivity.
Qed.

(** X5.  With both arguments present, [validate_dimensions] depends on the
    integers the arguments stand for, a bool counting as 0 or 1: it
    returns both fitted, and raises the [TypeError] of comparing a [str]
    with an [int] as soon as one argument is a string. *)
Theorem validate_dimensions_by_kind (width height : value) :
  validate_dimensions (Some width) (Some height)
  = match as_int width, as_int height with
    | Some x, Some y => ok (Some (fit x), Some (fit y))
    | _, _ => raise (TypeError "<" "str" "int")
    end.
Proof.
  destruct (as_int width) as [x|] eqn:Hw;
    [|destruct width; try discriminate; reflexivity].
  destruct (as_int height) as [y|] eqn:Hh;
    [exact (validate_dimensions_numeric _ _ _ _ Hw Hh)|].
  destruct height as [s| |]; try discriminate.
  destruct width as [s'|b|z]; try discriminate.
  - destruct b; reflexivity.
  - unfold validate_dimensions. rewrite py_min_int. cbn [rbind].
    rewrite py_max_int. reflexivity.
Qed.

Lemma fit_fixed (x : Z) : flux_dimension x -> fit x = x.
Proof.
  intros [Hr Hm]. unfold fit, clamp, py_round_div.
  replace (Z.max 256 (Z.min 1440 x)) with x by lia.
  rewrite Hm. destruct (Z.ltb_spec (2 * 0) 32); [|lia].
  pose proof (Z.div_mod x 32 ltac:(lia)). lia.
Qed.

Lemma fit_flux (x : Z) : flux_dimension (fit x).
Proof. apply py_round_div_32_range, clamp_range. lia. Qed.

(** X6.  Dimensions that are multiples of 32 between 256 and 1440 pass
    [validate_dimensions] unchanged, so validating its own result changes
    nothing. *)
Theorem validate_dimensions_idempotent :
  (forall w h : Z,
      flux_dimension w -> flux_dimension h ->
      validate_dimensions (Some (VInt w)) (Some (VInt h))
      = ok (Some w, Some h))
  /\ (forall (width height : value) (w h : Z),
         validate_dimensions (Some width) (Some height)
         = ok (Some w, Some h) ->
         validate_dimensions (Some (VInt w)) (Some (VInt h))
         = ok (Some w, Some h)).
Proof.
  assert (Hfix : forall w h : Z,
             flux_dimension w -> flux_dimension h ->
             validate_dimensions (Some (VInt w)) (Some (VInt h))
             = ok (Some w, Some h)).
  { intros w h Hw Hh.
    rewrite (validate_dimensions_numeric _ _ w h) by reflexivity.
    rewrite (fit_fixed _ Hw), (fit_fixed _ Hh). reflexivity. }
  split; [exact Hfix|].
  intros width height w h H.
  destruct (validate_dimensions_flux _ _ _ _ H) as [Hw Hh].
  exact (Hfix _ _ Hw Hh).
Qed.

Lemma validate_dimensions_idempotent_witness :
  validate_dimensions (Some (VInt 512)) (Some (VInt 1440))
  = ok (Some 512%Z, Some 1440%Z)
  /\ validate_dimensions (Some (VInt 1216)) (Some (VInt 256))
     = ok (Some 1216%Z, Some 256%Z).
Proof.
  split.
  - apply (proj1 validate_dimensions_idempotent);
      split; try reflexivity; lia.
  - apply (proj2 validate_dimensions_idempotent (VInt 1232) (VBool true)).
    reflexivity.
Defined.

Lemma py_round_div_mono (a b : Z) :
  (a <= b)%Z -> (py_round_div a 32 <= py_round_div b 32)%Z.
Proof.
  intros Hab. unfold py_round_div.
  pose proof (Z.div_mod a 32 ltac:(lia)) as Ha.
  pose proof (Z.mod_pos_bound a 32 ltac:(lia)) as Hma.
  pose proof (Z.div_mod b 32 ltac:(lia)) as Hb.
  pose proof (Z.mod_pos_bound b 32 ltac:(lia)) as Hmb.
  destruct (Z.eq_dec (a / 32) (b / 32)) as [E|E].
  - rewrite E in *.
    destruct (Z.ltb_spec (2 * (a mod 32)) 32),
             (Z.ltb_spec (2 * (b mod 32)) 32),
             (Z.ltb_spec 32 (2 * (a mod 32))),
             (Z.ltb_spec 32 (2 * (b mod 32)));
      destruct (Z.even (b / 32)); lia.
  - assert (a / 32 < b / 32)%Z by lia.
    destruct (Z.ltb_spec (2 * (a mod 32)) 32),
             (Z.ltb_spec (2 * (b mod 32)) 32),
             (Z.ltb_spec 32 (2 * (a mod 32))),
             (Z.ltb_spec 32 (2 * (b mod 32)));
      destruct (Z.even (a / 32)), (Z.even (b / 32)); lia.
Qed.

(** X7.  A larger request never gives a smaller dimension. *)
Theorem validate_dimensions_monotone (w1 h1 w2 h2 : Z) :
  (w1 <= w2)%Z -> (h1 <= h2)%Z ->
  exists a b c d,
    validate_dimensions (Some (VInt w1)) (Some (VInt h1)) = ok (Some a, Some b)
    /\ validate_dimensions (Some (VInt w2)) (Some (VInt h2))
       = ok (Some c, Some d)
    /\ (a <= c)%Z /\ (b <= d)%Z.
Proof.
  intros Hw Hh. exists (fit w1), (fit h1), (fit w2), (fit h2).
  rewrite (validate_dimensions_numeric _ _ w1 h1) by reflexivity.
  rewrite (validate_dimensions_numeric _ _ w2 h2) by reflexivity.
  repeat split; unfold fit;
    apply Z.mul_le_mono_nonneg_r; try lia;
    apply py_round_div_mono; unfold clamp; lia.
Qed.

Lemma validate_dimensions_monotone_witness :
  exists a b c d,
    validate_dimensions (Some (VInt 500)) (Some (VInt 100))
    = ok (Some a, Some b)
    /\ validate_dimensions (Some (VInt 520)) (Some (VInt 3000))
       = ok (Some c, Some d)
    /\ (a <= c)%Z /\ (b <= d)%Z.
Proof. apply validate_dimensions_monotone; lia. Defined.

(** ** Where an exception comes from *)

Lemma bind_raise_inv {A B} (m : outcome A) (f : A -> outcome B) (e : exn) :
  bind m f = Raise e ->
  m = Raise e \/ exists a, m = Val a /\ f a = Raise e.
Proof. destruct m; cbn; try discriminate; eauto. intros [= ->]. auto. Qed.

Lemma lift_raise_inv {A} (r : result A) (e : exn) :
  lift r = Raise e -> r = inl e.
Proof. destruct r; cbn; congruence. Qed.

Tactic Notation "raise_step" hyp(H) "as" ident(x) ident(Hm) :=
  apply bind_raise_inv in H;
  destruct H as [Hm|(x & Hm & H)];
  [apply lift_raise_inv in Hm | try apply lift_val_inv in Hm].

(** The stage of [pipe] at which building the request raised. *)
Lemma request_raise_stage gcm up (msg : string) (e : exn) :
  request gcm up msg = Raise e ->
  strip_of (get_default "prompt" (VStr "") (parse_command_params msg))
  = inl e
  \/ get_aspect_ratio_from_input gcm
       (get_default "aspect_ratio" (VStr "1:1") (parse_command_params msg))
     = inl e
  \/ validate_dimensions (dict_get "width" (parse_command_params msg))
                         (dict_get "height" (parse_command_params msg))
     = inl e
  \/ (exists v, dict_get "seed" (parse_command_params msg) = Some v
                /\ int_of v = inl e)
  \/ (exists v, dict_get "output_format" (parse_command_params msg) = Some v
                /\ get_output_format_from_input gcm v = inl e)
  \/ (exists v, dict_get "output_quality" (parse_command_params msg) = Some v
                /\ quality_of v = inl e)
  \/ (exists v, dict_get "safety_tolerance" (parse_command_params msg)
                = Some v
                /\ tolerance_of v = inl e).
Proof.
  unfold request. set (params := parse_command_params msg). intros H.
  raise_step H as prompt Hp; [auto|].
  destruct (Py.is_empty prompt); [discriminate|].
  raise_step H as prompt' Hp'; [auto|].
  raise_step H as ar Har; [auto 3|].
  apply bind_raise_inv in H. destruct H as [H|(ip1 & H1 & H)].
  { exfalso. unfold dict_mem, getitem in H.
    destruct (dict_get "image_prompt" params) as [v|]; [|discriminate].
    cbn [lift bind ok] in H.
    destruct (negb (validate_image_url up v)); discriminate. }
  assert (Hg : dict_get "aspect_ratio" ip1 = Some (VStr ar)).
  { unfold dict_mem, getitem in H1.
    destruct (dict_get "image_prompt" params) as [v|];
      [|injection H1 as <-; reflexivity].
    cbn [lift bind ok] in H1.
    destruct (negb (validate_image_url up v)); [discriminate|].
    injection H1 as <-. reflexivity. }
  unfold getitem at 1 in H. rewrite Hg in H. cbn [lift bind ok] in H.
  apply bind_raise_inv in H. destruct H as [H|(ip2 & _ & H)].
  { destruct (py_eq (VStr ar) (VStr "custom")); [|discriminate].
    raise_step H as dims Hd; [auto 4|].
    destruct dims as [[w|] [h|]]; try discriminate.
    destruct (negb (w =? 0)%Z && negb (h =? 0)%Z); discriminate. }
  apply bind_raise_inv in H. destruct H as [H|(ip3 & _ & H)].
  { unfold dict_mem, getitem in H.
    destruct (dict_get "seed" params) as [v|] eqn:Hk; [|discriminate].
    cbn [lift bind ok] in H. raise_step H as z Hz; [|discriminate].
    do 3 right. left. eauto. }
  apply bind_raise_inv in H. destruct H as [H|(ip4 & _ & H)].
  { exfalso. unfold dict_mem, getitem in H.
    destruct (dict_get "prompt_upsampling" params) as [v|]; discriminate. }
  apply bind_raise_inv in H. destruct H as [H|(ip5 & _ & H)].
  { unfold dict_mem, getitem in H.
    destruct (dict_get "output_format" params) as [v|] eqn:Hk; [|discriminate].
    cbn [lift bind ok] in H. raise_step H as f Hf; [|discriminate].
    do 4 right. left. eauto. }
  apply bind_raise_inv in H. destruct H as [H|(ip6 & _ & H)].
  { unfold dict_mem, getitem in H.
    destruct (dict_get "output_quality" params) as [v|] eqn:Hk;
      [|discriminate].
    cbn [lift bind ok] in H. do 5 right. left. exists v. split; [reflexivity|].
    unfold quality_of. raise_step H as q Hq; [rewrite Hq; reflexivity|].
    rewrite Hq. cbn [rbind]. raise_step H as q' Hq'; [exact Hq'|discriminate]. }
  apply bind_raise_inv in H. destruct H as [H|(ip7 & _ & H)].
  { unfold dict_mem, getitem in H.
    destruct (dict_get "safety_tolerance" params) as [v|] eqn:Hk;
      [|discriminate].
    cbn [lift bind ok] in H. do 6 right. exists v. split; [reflexivity|].
    unfold tolerance_of. raise_step H as q Hq; [rewrite Hq; reflexivity|].
    rewrite Hq. cbn [rbind]. raise_step H as q' Hq'; [exact Hq'|discriminate]. }
  discriminate.
Qed.

Lemma not_str_iff (v : value) : ~ is_str v <-> as_int v <> None.
Proof.
  unfold is_str. destruct v as [s| |]; cbn; split; intros H;
    try congruence; try (intros [s' Hs]; discriminate).
  exfalso. apply H. eauto.
Qed.

Lemma fuzzy_match_raises gcm (v : value) (cands : list string)
      (default : string) (e : exn) :
  fuzzy_match gcm v cands default = inl e ->
  (~ is_str v /\ truthy v = true /\ e = AttributeError (type_name v) "lower")
  \/ (is_str v /\ exists key, e = KeyError key).
Proof.
  unfold fuzzy_match. destruct (truthy v) eqn:Ht; cbn [negb];
    [|discriminate].
  destruct v as [s|b|z].
  - right. split; [exists s; reflexivity|].
    destruct (String.eqb (Py.lower s) "none"); [discriminate|].
    destruct (In_b s cands); [discriminate|].
    destruct (gcm _ _) as [|m ms]; [discriminate|].
    unfold getitem in H. destruct (dict_get m _); [discriminate|].
    injection H as <-. eauto.
  - left. injection H as <-. repeat split. intros [s Hs]; discriminate.
  - left. injection H as <-. repeat split. intros [s Hs]; discriminate.
Qed.

Lemma int_of_raises (v : value) (e : exn) :
  int_of v = inl e ->
  exists s, v = VStr s /\ Py.int_of_str s = None /\ e = ValueError s.
Proof.
  destruct v as [s|b|z]; cbn; try discriminate.
  destruct (Py.int_of_str s) eqn:Hs; [discriminate|].
  intros [= <-]. eauto.
Qed.

Lemma py_max_raises (a : Z) (v : value) (e : exn) :
  py_max a v = inl e -> is_str v /\ e = TypeError ">" "str" "int".
Proof.
  destruct v as [s|b|z]; cbn; try discriminate.
  intros [= <-]. split; [exists s|]; reflexivity.
Qed.

Lemma py_min_after_max (a b : Z) (v m : value) (e : exn) :
  py_max a v = inr m -> py_min b m <> inl e.
Proof.
  intros Hm. destruct (py_max_bound _ _ _ Hm) as (z & x & _ & Hz & _).
  unfold py_min. rewrite Hz. discriminate.
Qed.

Lemma clamp_stage_raises (lo hi : Z) (v : value) (e : exn) :
  (m <~ py_max lo v ;; py_min hi m) = inl e ->
  is_str v /\ e = TypeError ">" "str" "int".
Proof.
  destruct (py_max lo v) as [e'|m] eqn:Hm; cbn [rbind].
  - intros [= <-]. exact (py_max_raises _ _ _ Hm).
  - intros H. exfalso. exact (py_min_after_max _ _ _ _ _ Hm H).
Qed.

Lemma validate_dimensions_raises (width height : option value) (e : exn) :
  validate_dimensions width height = inl e ->
  e = TypeError "<" "str" "int"
  /\ ((exists v, width = Some v /\ is_str v)
      \/ (exists v, height = Some v /\ is_str v)).
Proof.
  destruct width as [a|], height as [b|]; try discriminate.
  destruct (as_int a) as [x|] eqn:Ha.
  - destruct (as_int b) as [y|] eqn:Hb.
    + rewrite (validate_dimensions_numeric _ _ _ _ Ha Hb). discriminate.
    + destruct b as [s| |]; try discriminate. intros H.
      split; [|right; exists (VStr s); split;
               [reflexivity|exists s; reflexivity]].
      unfold validate_dimensions in H.
      destruct (clamp_value _ _ Ha) as (m & Hc & Hm).
      destruct (py_min 1440 a) as [e'|a']; [discriminate|].
      cbn [rbind] in Hc, H. rewrite Hc in H. cbn [rbind ok] in H.
      cbn in H. congruence.
  - destruct a as [s| |]; try discriminate. intros [= <-].
    split; [reflexivity|]. left. exists (VStr s).
    split; [reflexivity|exists s; reflexivity].
Qed.

(** X12.  Whenever building the request raises, one parsed flag is at fault:
    a prompt that is not a string; an aspect ratio or output format that
    is a number or a bool (or a matcher that names a stranger); a width
    or height, an output quality or a safety tolerance that is a string;
    a seed that is a string [int] cannot read.  The exception is the one
    of that fault. *)
Theorem request_raise_names_a_flag gcm up (msg : string) (e : exn) :
  request gcm up msg = Raise e ->
  exists k v, dict_get k (parse_command_params msg) = Some v /\ fault k v e.
Proof.
  intros H. unfold fault.
  destruct (request_raise_stage _ _ _ _ H)
    as [Hs|[Ha|[Hd|[(v & Hk & Hs)|[(v & Hk & Hf)|[(v & Hk & Hq)
        |(v & Hk & Ht)]]]]]].
  - unfold get_default in Hs.
    destruct (dict_get "prompt" (parse_command_params msg)) as [v|] eqn:Hk;
      [|discriminate].
    exists "prompt", v. split; [exact Hk|]. left.
    destruct v as [s| |]; cbn in Hs; try discriminate; injection Hs as <-;
      repeat split; intros [s Hs]; discriminate.
  - unfold get_default in Ha.
    destruct (dict_get "aspect_ratio" (parse_command_params msg))
      as [v|] eqn:Hk; [|discriminate].
    exists "aspect_ratio", v. split; [exact Hk|]. right; left.
    split; [left; reflexivity|].
    exact (fuzzy_match_raises _ _ _ _ _ Ha).
  - destruct (validate_dimensions_raises _ _ _ Hd)
      as (-> & [(v & Hk & Hv)|(v & Hk & Hv)]).
    + exists "width", v. split; [exact Hk|]. do 2 right; left. auto.
    + exists "height", v. split; [exact Hk|]. do 2 right; left. auto.
  - exists "seed", v. split; [exact Hk|]. do 3 right; left.
    split; [reflexivity|]. exact (int_of_raises _ _ Hs).
  - exists "output_format", v. split; [exact Hk|]. right; left.
    split; [right; reflexivity|].
    exact (fuzzy_match_raises _ _ _ _ _ Hf).
  - exists "output_quality", v. split; [exact Hk|]. do 4 right.
    split; [left; reflexivity|]. exact (clamp_stage_raises _ _ _ _ Hq).
  - exists "safety_tolerance", v. split; [exact Hk|]. do 4 right.
    split; [right; reflexivity|]. exact (clamp_stage_raises _ _ _ _ Ht).
Qed.

Lemma request_raise_names_a_flag_witness :
  exists k v,
    dict_get k (parse_command_params "A cat --seed soon --output_quality 90")
    = Some v
    /\ fault k v (ValueError "soon").
Proof.
  apply (request_raise_names_a_flag
           Instances.get_close_matches Instances.urlparse).
  reflexivity.
Defined.

(** ** The matcher's contract *)

Lemma keys_lookup {V} (k : string) (d : dict V) :
  In k (keys d) -> exists v, dict_get k d = Some v.
Proof.
  induction d as [|[k' v'] d IH]; [intros []|].
  cbn. destruct (String.eqb_spec k k') as [->|Hne]; [eauto|].
  intros [E|Hin]; [congruence|exact (IH Hin)].
Qed.

(** X8.  With a matcher that answers with some of the possibilities,
    [fuzzy_match] never raises on a string, nor on zero or [False]: it
    returns a candidate or the default. *)
Theorem fuzzy_match_answers gcm (v : value) (cands : list string)
        (default : string) :
  answers_from_possibilities gcm ->
  is_str v \/ truthy v = false ->
  exists r, fuzzy_match gcm v cands default = inr r
            /\ (In r cands \/ r = default).
Proof.
  intros Hgcm Hv.
  destruct (fuzzy_match gcm v cands default) as [e|r] eqn:H.
  - exfalso. unfold fuzzy_match in H.
    destruct (truthy v) eqn:Ht; cbn [negb] in H; [|discriminate].
    destruct Hv as [[s ->]|Hv]; [|discriminate].
    destruct (String.eqb (Py.lower s) "none"); [discriminate|].
    destruct (In_b s cands); [discriminate|].
    destruct (gcm _ _) as [|m ms] eqn:Hm; [discriminate|].
    assert (Hin : In m (keys (dict_of_lowered cands [])))
      by (apply (Hgcm (Py.strip (Py.lower s)) _ m); rewrite Hm; left;
          reflexivity).
    destruct (keys_lookup _ _ Hin) as [c Hc].
    unfold getitem in H. rewrite Hc in H. discriminate.
  - exists r. split; [reflexivity|]. exact (fuzzy_match_in _ _ _ _ _ H).
Qed.

Lemma best_in (w : string) (ps : list string) :
  forall cur x, Instances.best w cur ps = Some x -> cur = Some x \/ In x ps.
Proof.
  induction ps as [|p ps IH]; intros cur x H; [left; exact H|].
  cbn [Instances.best] in H. destruct (Instances.clears w p).
  - destruct cur as [b|].
    + destruct (IH _ _ H) as [E|Hin]; [|right; right; exact Hin].
      destruct (Instances.scores_below w b p); injection E as <-;
        [right; left; reflexivity|left; reflexivity].
    + destruct (IH _ _ H) as [E|Hin]; [|right; right; exact Hin].
      injection E as <-. right; left; reflexivity.
  - destruct (IH _ _ H) as [E|Hin]; [left; exact E|right; right; exact Hin].
Qed.

Lemma instance_answers_from_possibilities :
  answers_from_possibilities Instances.get_close_matches.
Proof.
  intros w ps x. unfold Instances.get_close_matches.
  destruct (Instances.best w None ps) as [b|] eqn:Hb; [|intros []].
  intros [<-|[]]. destruct (best_in _ _ _ _ Hb) as [E|Hin];
    [discriminate|exact Hin].
Qed.

Lemma fuzzy_match_answers_witness :
  exists r,
    fuzzy_match Instances.get_close_matches (VStr "portrait")
                AVAILABLE_ASPECT_RATIOS "1:1" = inr r
    /\ (In r AVAILABLE_ASPECT_RATIOS \/ r = "1:1").
Proof.
  apply fuzzy_match_answers.
  - exact instance_answers_from_possibilities.
  - left. exists "portrait". reflexivity.
Defined.

Lemma exact_matcher_hits : exact_hit exact_matcher.
Proof.
  intros w ps Hin. unfold exact_matcher. rewrite (In_b_true _ _ Hin).
  reflexivity.
Qed.

Lemma enum_match gcm (cands : list string) (default s : string) :
  exact_hit gcm ->
  keys (dict_of_lowered cands []) = cands ->
  (forall c, In c cands -> dict_get c (dict_of_lowered cands []) = Some c) ->
  (forall c, In c cands -> c <> "" /\ Py.strip (Py.lower c) = c) ->
  Py.lower s <> "none" ->
  In (Py.strip (Py.lower s)) cands ->
  fuzzy_match gcm (VStr s) cands default = ok (Py.strip (Py.lower s)).
Proof.
  intros Hgcm Hkeys Hget Hcanon Hnone Hin. unfold fuzzy_match.
  cbn [truthy]. destruct s as [|a s'].
  { exfalso. destruct (Hcanon _ Hin) as [Hne _]. apply Hne. reflexivity. }
  cbn [Py.is_empty negb].
  destruct (String.eqb_spec (Py.lower (String a s')) "none");
    [contradiction|].
  destruct (In_b (String a s') cands) eqn:Hexact.
  - apply In_b_In in Hexact. destruct (Hcanon _ Hexact) as [_ ->].
    reflexivity.
  - rewrite Hkeys, (Hgcm _ _ Hin). unfold getitem.
    rewrite (Hget _ Hin). reflexivity.
Qed.

(** X9.  With a matcher for which a word among the possibilities is its own
    best match, an aspect ratio or an output format is recognised
    whatever its case and the whitespace around it. *)
Theorem enum_match_ignores_case gcm (s : string) :
  exact_hit gcm ->
  Py.lower s <> "none" ->
  (In (Py.strip (Py.lower s)) AVAILABLE_ASPECT_RATIOS ->
   get_aspect_ratio_from_input gcm (VStr s) = ok (Py.strip (Py.lower s)))
  /\ (In (Py.strip (Py.lower s)) AVAILABLE_OUTPUT_FORMATS ->
      get_output_format_from_input gcm (VStr s)
      = ok (Py.strip (Py.lower s))).
Proof.
  intros Hgcm Hnone. split; intros Hin.
  - apply enum_match; try assumption.
    + reflexivity.
    + intros c Hc. cbn in Hc. repeat destruct Hc as [<-|Hc];
        try contradiction; reflexivity.
    + intros c Hc. cbn in Hc. repeat destruct Hc as [<-|Hc];
        try contradiction; (split; [discriminate|reflexivity]).
  - apply enum_match; try assumption.
    + reflexivity.
    + intros c Hc. cbn in Hc. repeat destruct Hc as [<-|Hc];
        try contradiction; reflexivity.
    + intros c Hc. cbn in Hc. repeat destruct Hc as [<-|Hc];
        try contradiction; (split; [discriminate|reflexivity]).
Qed.

Lemma enum_match_ignores_case_witness :
  get_aspect_ratio_from_input exact_matcher (VStr "  Custom ")
  = ok "custom"
  /\ get_output_format_from_input exact_matcher (VStr "PNG") = ok "png".
Proof.
  split.
  - apply (proj1 (enum_match_ignores_case exact_matcher "  Custom "
                    exact_matcher_hits ltac:(discriminate))).
    vm_compute. tauto.
  - apply (proj2 (enum_match_ignores_case exact_matcher "PNG"
                    exact_matcher_hits ltac:(discriminate))).
    vm_compute. tauto.
Defined.

(** ** The life cycle *)

(** X21.  Every pipeline a host can reach, by construction from an environment,
    new valves, startups and shutdowns, holds a token that is not empty
    and a client whose Authorization header is 'Token ' and that token;
    construction fails when the environment gives no token. *)
Theorem pipeline_token_invariant (environ : dict string) :
  (forall p, Lifecycle.reachable environ p ->
             Lifecycle.api_token p <> ""
             /\ Lifecycle.client p = Lifecycle.Client (Lifecycle.api_token p)
             /\ dict_get "Authorization" (Lifecycle.client p)
                = Some ("Token " ++ Lifecycle.api_token p))
  /\ (get_default "REPLICATE_API_TOKEN" "" environ = "" ->
      forall p, ~ Lifecycle.reachable environ p).
Proof.
  assert (Hinv : forall p, Lifecycle.reachable environ p ->
                 Lifecycle.api_token p <> ""
                 /\ Lifecycle.client p
                    = Lifecycle.Client (Lifecycle.api_token p)).
  { intros p Hr. induction Hr as [p Hi|p v Hr IH|p Hr IH|p Hr IH].
    - unfold Lifecycle.init in Hi.
      destruct (get_default "REPLICATE_API_TOKEN" "" environ) as [|c t];
        [discriminate|].
      injection Hi as <-. split; [discriminate|reflexivity].
    - exact IH.
    - unfold Lifecycle.on_startup.
      destruct (Lifecycle.REPLICATE_API_TOKEN (Lifecycle.valves p))
        as [|c t]; [exact IH|].
      split; [discriminate|reflexivity].
    - exact IH. }
  split.
  - intros p Hr. destruct (Hinv p Hr) as [Hne Hc].
    split; [exact Hne|]. split; [exact Hc|]. rewrite Hc. reflexivity.
  - intros Hempty p Hr.
    induction Hr as [p Hi|p v Hr IH|p Hr IH|p Hr IH]; try exact IH.
    unfold Lifecycle.init in Hi. rewrite Hempty in Hi. discriminate.
Qed.

Lemma pipeline_token_invariant_witness :
  dict_get "Authorization"
    (Lifecycle.client
       (Lifecycle.on_startup
          (Lifecycle.set_valves
             {| Lifecycle.name := "Replicate Flux Pipeline";
                Lifecycle.api_token := "r8_old";
                Lifecycle.valves :=
                  {| Lifecycle.REPLICATE_API_TOKEN := "r8_old" |};
                Lifecycle.client := Lifecycle.Client "r8_old" |}
             {| Lifecycle.REPLICATE_API_TOKEN := "r8_new" |})))
  = Some "Token r8_new".
Proof.
  apply (proj1 (pipeline_token_invariant
                  [("HOME", "/root"); ("REPLICATE_API_TOKEN", "r8_old")])).
  apply Lifecycle.reach_startup, Lifecycle.reach_valves,
    Lifecycle.reach_init.
  reflexivity.
Defined.

(** ** The prompt and the aspect ratio of a payload *)

Lemma request_head gcm up (msg : string) (p : payload) :
  request gcm up msg = Val p ->
  exists prompt ar,
    strip_of (get_default "prompt" (VStr "") (parse_command_params msg))
    = inr prompt
    /\ get_aspect_ratio_from_input gcm
         (get_default "aspect_ratio" (VStr "1:1") (parse_command_params msg))
       = inr ar
    /\ dict_get "prompt" p = Some (VStr prompt)
    /\ dict_get "aspect_ratio" p = Some (VStr ar).
Proof.
  intros H. trace H. exists prompt, ar.
  assert (Hget : forall k,
             k = "prompt" \/ k = "aspect_ratio" ->
             dict_get k p
             = dict_get k [("prompt", VStr prompt);
                           ("aspect_ratio", VStr ar)]).
  { intros k Hk.
    rewrite (assigned_other _ _ _ _ _ _ H7)
      by (destruct Hk as [-> | ->]; discriminate).
    rewrite (assigned_other _ _ _ _ _ _ H6)
      by (destruct Hk as [-> | ->]; discriminate).
    rewrite (assigned_other _ _ _ _ _ _ H5)
      by (destruct Hk as [-> | ->]; discriminate).
    rewrite (assigned_other _ _ _ _ _ _ H4)
      by (destruct Hk as [-> | ->]; discriminate).
    rewrite (assigned_other _ _ _ _ _ _ H3)
      by (destruct Hk as [-> | ->]; discriminate).
    rewrite (assigned_dimensions_other _ _ _ _ _ H2)
      by (destruct Hk as [-> | ->]; discriminate).
    rewrite (assigned_other _ _ _ _ _ _ H1)
      by (destruct Hk as [-> | ->]; discriminate).
    reflexivity. }
  repeat split; auto; rewrite Hget by auto; reflexivity.
Qed.

Lemma parsed_prompt_key (msg : string) :
  exists v, dict_get "prompt" (parse_command_params msg) = Some v.
Proof.
  unfold parse_command_params.
  destruct (parse_try msg) as [e|d] eqn:Hp; [eexists; reflexivity|].
  unfold parse_try in Hp.
  destruct (Py.find msg "--" =? -1)%Z;
    [injection Hp as <-; eexists; reflexivity|].
  destruct (parse_tokens_keeps_shape _ _ _ Hp) as (_ & B & C).
  - repeat constructor; auto.
  - discriminate.
  - destruct d as [|[k v] d]; [congruence|]. cbn in B.
    injection B as ->. exists v. reflexivity.
Qed.

(** X14.  The payload's prompt is the parsed prompt, trimmed, and its aspect
    ratio is the fuzzy match of the parsed one: '1:1' when the message
    names none, or names zero or [False]; the candidate itself when it
    names one exactly. *)
Theorem sent_prompt_and_ratio gcm up run txt (msg : string) (p : payload) :
  In p (snd (pipe gcm up run txt msg)) ->
  (exists q, dict_get "prompt" (parse_command_params msg) = Some (VStr q)
             /\ dict_get "prompt" p = Some (VStr (Py.strip q)))
  /\ (dict_get "aspect_ratio" (parse_command_params msg) = None ->
      dict_get "aspect_ratio" p = Some (VStr "1:1"))
  /\ (forall v, dict_get "aspect_ratio" (parse_command_params msg) = Some v ->
                truthy v = false ->
                dict_get "aspect_ratio" p = Some (VStr "1:1"))
  /\ (forall c, dict_get "aspect_ratio" (parse_command_params msg)
                = Some (VStr c) ->
                In c AVAILABLE_ASPECT_RATIOS ->
                dict_get "aspect_ratio" p = Some (VStr c)).
Proof.
  intros Hin. apply pipe_calls in Hin.
  destruct (request_head _ _ _ _ Hin) as (prompt & ar & Hp & Ha & Gp & Ga).
  destruct (parsed_prompt_key msg) as [v Hv].
  unfold get_default in Hp, Ha. rewrite Hv in Hp.
  split; [|split; [|split]].
  - destruct v as [q| |]; try discriminate. injection Hp as <-.
    exists q. auto.
  - intros Hnone. rewrite Hnone in Ha. injection Ha as <-. exact Ga.
  - intros w Hw Hf. rewrite Hw in Ha.
    unfold get_aspect_ratio_from_input, fuzzy_match in Ha.
    rewrite Hf in Ha. injection Ha as <-. exact Ga.
  - intros c Hc Hcin. rewrite Hc in Ha.
    assert (Hr : get_aspect_ratio_from_input gcm (VStr c) = ok c).
    { apply fuzzy_match_exact; [exact Hcin| |];
        cbn in Hcin; repeat destruct Hcin as [<-|Hcin];
        try discriminate; contradiction. }
    rewrite Hr in Ha. injection Ha as <-. exact Ga.
Qed.

Lemma sent_prompt_and_ratio_witness :
  (exists q,
      dict_get "prompt" (parse_command_params "  A cat  --seed 7")
      = Some (VStr q)
      /\ dict_get "prompt"
           [("prompt", VStr "A cat"); ("aspect_ratio", VStr "1:1");
            ("seed", VInt 7)]
         = Some (VStr (Py.strip q)))
  /\ dict_get "aspect_ratio"
       [("prompt", VStr "A cat"); ("aspect_ratio", VStr "1:1");
        ("seed", VInt 7)]
     = Some (VStr "1:1").
Proof.
  assert (Hin : In [("prompt", VStr "A cat"); ("aspect_ratio", VStr "1:1");
                    ("seed", VInt 7)]
                   (snd (Instances.respond Instances.image
                           "  A cat  --seed 7")))
    by (vm_compute; left; reflexivity).
  pose proof (sent_prompt_and_ratio _ _ _ _ _ _ Hin) as (Hq & Hnone & _).
  split; [exact Hq|]. apply Hnone. reflexivity.
Defined.

(** ** Flags whose value was coerced *)

(** X13.  Type coercion turns a value made of digits, or 'true' or 'false',
    into a number or a bool.  When that happens to the prompt, or to the
    aspect ratio unless the result is zero or [False], [pipe] calls
    nothing and returns the text of the [AttributeError]. *)
Theorem coerced_text_flags_fail gcm up run txt (msg : string) :
  (forall v, dict_get "prompt" (parse_command_params msg) = Some v ->
             ~ is_str v ->
             pipe gcm up run txt msg
             = ("Error generating image: "
                ++ txt (AttributeError (type_name v) "strip"), []))
  /\ (forall q v,
         dict_get "prompt" (parse_command_params msg) = Some (VStr q) ->
         Py.strip q <> "" ->
         dict_get "aspect_ratio" (parse_command_params msg) = Some v ->
         ~ is_str v -> truthy v = true ->
         pipe gcm up run txt msg
         = ("Error generating image: "
            ++ txt (AttributeError (type_name v) "lower"), [])).
Proof.
  split.
  - intros v Hv Hns. unfold pipe, pipe_try, request, get_default.
    rewrite Hv. destruct v as [s| |]; [exfalso; apply Hns; exists s|..];
      reflexivity.
  - intros q v Hq Hne Hv Hns Ht. unfold pipe, pipe_try, request, get_default.
    rewrite Hq, Hv. cbn [strip_of lift bind ok].
    destruct (Py.strip q) as [|c t]; [congruence|]. cbn [Py.is_empty].
    unfold get_aspect_ratio_from_input, fuzzy_match. rewrite Ht.
    destruct v as [s| |]; [exfalso; apply Hns; exists s; reflexivity|..];
      reflexivity.
Qed.

Lemma coerced_text_flags_fail_witness :
  Instances.respond Instances.image "A cat --prompt true"
  = ("Error generating image: 'bool' object has no attribute 'strip'", [])
  /\ Instances.respond Instances.image "A cat --aspect_ratio 169"
     = ("Error generating image: 'int' object has no attribute 'lower'", []).
Proof.
  split.
  - apply (proj1 (coerced_text_flags_fail
                    Instances.get_close_matches Instances.urlparse
                    (Instances.client_run Instances.image)
                    Instances.exn_text "A cat --prompt true")
             (VBool true)); [reflexivity|].
    intros [s Hs]. discriminate.
  - apply (proj2 (coerced_text_flags_fail
                    Instances.get_close_matches Instances.urlparse
                    (Instances.client_run Instances.image)
                    Instances.exn_text "A cat --aspect_ratio 169")
             "A cat" (VInt 169)); try reflexivity.
    + discriminate.
    + intros [s Hs]. discriminate.
Defined.

(** ** What the tokenizer can store *)

Lemma split_first_prefix (s : string) :
  exists p ps r, Py.split_go "--" 0 s = p :: ps /\ s = p ++ r.
Proof.
  induction s as [|c s IH]; [exists "", [], ""; auto|].
  cbn [Py.split_go]. destruct (Py.startswith (String c s) "--").
  - exists "", (Py.split_go "--" 1 s), (String c s). auto.
  - destruct IH as (p & ps & r & -> & Hs).
    exists (String c p), ps, r. split; [reflexivity|].
    cbn. f_equal. exact Hs.
Qed.

Lemma starts_dash_prefix (p r : string) :
  Py.startswith (p ++ r) "-" = false -> Py.startswith p "-" = false.
Proof. destruct p; cbn; auto. Qed.

(** No piece of a split on the marker holds the marker. *)
Lemma split_pieces_markerless (s : string) :
  forall skip, Forall markerless (Py.split_go "--" skip s).
Proof.
  induction s as [|c s IH]; intros skip; [repeat constructor|].
  cbn [Py.split_go]. destruct skip as [|k]; [|apply IH].
  destruct (Py.startswith (String c s) "--") eqn:Hp.
  - constructor; [reflexivity|apply IH].
  - destruct (split_first_prefix s) as (p & ps & r & Hs & Hr).
    pose proof (IH 0%nat) as H0. rewrite Hs in H0 |- *.
    apply Forall_cons_iff in H0. destruct H0 as [Hm Hrest].
    constructor; [|exact Hrest].
    apply markerless_cons. split; [|exact Hm].
    rewrite starts_marker_cons in Hp |- *.
    destruct (Ascii.eqb "-" c); [|reflexivity]. cbn [andb] in Hp |- *.
    rewrite Hr in Hp. exact (starts_dash_prefix _ _ Hp).
Qed.

Lemma markerless_app_r (a b : string) :
  markerless (a ++ b) -> markerless b.
Proof.
  induction a as [|c a IH]; [auto|]. cbn [append]. intros H.
  apply markerless_cons in H. exact (IH (proj2 H)).
Qed.

Lemma word_splits (s : string) :
  s = fst (Py.word s) ++ snd (Py.word s).
Proof.
  induction s as [|c s IH]; [reflexivity|]. cbn [Py.word].
  destruct (Py.isspace c); [reflexivity|].
  destruct (Py.word s) as [w r]. cbn [fst snd] in *. cbn. f_equal. exact IH.
Qed.

Lemma lstrip_suffix (s : string) : exists a, s = a ++ Py.lstrip s.
Proof.
  induction s as [|c s [a IH]]; [exists ""; reflexivity|].
  cbn [Py.lstrip]. destruct (Py.isspace c); [|exists ""; reflexivity].
  exists (String c a). cbn. f_equal. exact IH.
Qed.

Lemma rstrip_suffix_fixed (a b : string) :
  Py.rstrip (a ++ b) = a ++ b -> b <> "" -> Py.rstrip b = b.
Proof.
  induction a as [|c a IH]; [auto|]. cbn [append Py.rstrip]. intros H Hb.
  destruct (Py.is_empty (Py.rstrip (a ++ b)) && Py.isspace c);
    [discriminate|].
  injection H as H. exact (IH H Hb).
Qed.

Lemma lstrip_idem (s : string) : Py.lstrip (Py.lstrip s) = Py.lstrip s.
Proof.
  induction s as [|c s IH]; [reflexivity|]. cbn [Py.lstrip].
  destruct (Py.isspace c) eqn:Hc; [exact IH|]. cbn [Py.lstrip].
  rewrite Hc. reflexivity.
Qed.

Lemma strip_is_rstrip_fixed (s : string) :
  Py.rstrip (Py.strip s) = Py.strip s.
Proof. unfold Py.strip. apply rstrip_idem. Qed.

(** The raw value of a unit cut from a split on the marker is trimmed and
    holds no marker. *)
Lemma unit_value_clean (tok r : string) :
  markerless tok -> unit_value tok = VStr r ->
  markerless r /\ Py.strip r = r.
Proof.
  intros Hm. unfold unit_value, Py.split_ws1.
  set (t := Py.strip tok).
  assert (Ht : markerless t)
    by (apply markerless_rstrip, markerless_lstrip, Hm).
  assert (Hfix : Py.rstrip t = t) by apply strip_is_rstrip_fixed.
  destruct (Py.is_empty (Py.lstrip t)); [discriminate|].
  destruct (lstrip_suffix t) as [a Ha].
  pose proof (word_splits (Py.lstrip t)) as Hw.
  destruct (Py.word (Py.lstrip t)) as [w rest]. cbn [fst snd] in Hw.
  destruct (Py.is_empty (Py.lstrip rest)) eqn:He; [discriminate|].
  intros [= <-].
  destruct (lstrip_suffix rest) as [b Hb].
  assert (Hdecomp : t = ((a ++ w) ++ b) ++ Py.lstrip rest).
  { rewrite Ha at 1. rewrite Hw. rewrite Hb at 1.
    rewrite !append_assoc. reflexivity. }
  split.
  - rewrite Hdecomp in Ht. exact (markerless_app_r _ _ Ht).
  - unfold Py.strip. rewrite lstrip_idem.
    apply (rstrip_suffix_fixed ((a ++ w) ++ b)).
    + rewrite <- Hdecomp. exact Hfix.
    + intros E. rewrite E in He. discriminate.
Qed.

Lemma convert_value_text (r s : string) :
  convert_value (VStr r) = inr (VStr s) -> s = r.
Proof.
  unfold convert_value.
  destruct (String.eqb (Py.lower r) "true"); [discriminate|].
  destruct (String.eqb (Py.lower r) "false"); [discriminate|].
  destruct (Py.isdigit r).
  - destruct (Py.int_of_str r); discriminate.
  - intros [= <-]. reflexivity.
Qed.

Lemma parse_tokens_clean (toks : list string) :
  Forall markerless toks ->
  forall d d',
    parse_tokens toks d = inr d' ->
    (forall k s, dict_get k d = Some (VStr s) ->
                 markerless s /\ Py.strip s = s) ->
    forall k s, dict_get k d' = Some (VStr s) ->
                markerless s /\ Py.strip s = s.
Proof.
  induction toks as [|tok toks IH]; intros Hall d d' H Hd.
  - injection H as <-. exact Hd.
  - apply Forall_cons_iff in Hall. destruct Hall as [Hm Hrest].
    rewrite parse_tokens_cons in H.
    destruct (unit_name tok) as [name|]; [|exact (IH Hrest _ _ H Hd)].
    destruct (convert_value (unit_value tok)) as [e|v] eqn:Hc;
      [discriminate|].
    cbn [rbind] in H. apply (IH Hrest _ _ H).
    intros k s Hk. destruct (dict_get_set_inv _ _ _ _ _ Hk) as [E|Hold];
      [|exact (Hd _ _ Hold)].
    subst v. destruct (unit_value_cases tok) as [Hv|[r Hv]];
      rewrite Hv in Hc; [discriminate|].
    apply convert_value_text in Hc. subst s.
    exact (unit_value_clean _ _ Hm Hv).
Qed.

(** X4.  When a message holds the marker and tokenizing succeeds, every text
    that is stored, the prompt and each flag value, is trimmed and holds
    no marker: a value with '--' inside cannot be passed. *)
Theorem stored_text_is_clean (msg : string) (d : dict value) (k s : string) :
  Py.find msg "--" <> (-1)%Z ->
  parse_try msg = inr d ->
  dict_get k d = Some (VStr s) ->
  markerless s /\ Py.strip s = s.
Proof.
  intros Hm Hp. rewrite (parse_try_marker _ Hm) in Hp.
  assert (Hall : Forall markerless (flag_units msg)).
  { unfold flag_units, Py.split.
    pose proof (split_pieces_markerless
                  (Py.strip (Py.slice_from msg (Py.find msg "--"))) 0) as H.
    destruct (Py.split_go _ _ _) as [|p ps]; [constructor|].
    apply Forall_cons_iff in H. exact (proj2 H). }
  apply (parse_tokens_clean _ Hall _ _ Hp).
  intros k' s' Hk. cbn in Hk.
  destruct (String.eqb k' "prompt"); [|discriminate].
  injection Hk as <-. split; [exact (prompt_part_markerless _ Hm)|].
  unfold prompt_part. apply strip_idem.
Qed.

Lemma stored_text_is_clean_witness :
  markerless "art" /\ Py.strip "art" = "art".
Proof.
  apply (stored_text_is_clean "A cat --style art--deco x"
           [("prompt", VStr "A cat"); ("style", VStr "art");
            ("deco", VStr "x")] "style");
    [vm_compute; discriminate|reflexivity|reflexivity].
Defined.
